(** * analyze_transfers.py: loader, per-node aggregation and rendering

    A shallow embedding of [src/analyze_transfers.py], the post-hoc
    analysis script of the P2P backup simulation, together with the
    properties its specification states about it.

    Conventions of the embedding.
    - Python [float] and the numeric entries of the array container are
      idealised as exact rationals ([Qc], canonical fractions with Leibniz
      equality): rounding, NaN and infinities are outside the model.  A
      division whose divisor is zero is an explicit error of the model.
    - The container is typed by its field contract: the entries the script
      reads are numeric arrays, except [transfer_types], [uploaders] and
      [downloaders], which are arrays of text; each entry may be absent.
    - Python [str] is [string]; the byte-wise lexicographic order
      [String.leb] is the code-point order of Python on UTF-8 text.
    - A [defaultdict(int)] is a [gmap string nat] read with default [0];
      the file system is a [gmap] from paths to containers.
    - Exceptions are values of [exn], carried by the [result] monad; the
      log and the written image files are threaded through the [World]
      state of the [M] monad.
    - A figure is the data handed to the plotting backend: the plotted
      sequences and the numbers interpolated into titles and text, not
      their formatted text or pixels. *)

From Stdlib Require Import ZArith QArith Qcanon String Ascii List.
From stdpp Require Import base option numbers list gmap strings sorting.

Local Open Scope string_scope.
Local Open Scope list_scope.

(** ** The array container *)

(** The named entries of the container that the script reads, with the
    element kind the artifact gives them: numbers ... *)
Inductive num_key : Type :=
| metadata_parallel_enabled
| metadata_total_nodes
| metadata_simulation_end_time
| metadata_data_loss_events
| metadata_nodes_with_data_loss
| transfer_times
| transfer_durations
| sim_times
| sim_uploads
| sim_downloads
| bw_times
| bw_upload_used
| bw_upload_capacity
| bw_download_used
| bw_download_capacity.

(** ... or text. *)
Inductive str_key : Type :=
| transfer_types
| uploaders
| downloaders.

Inductive key : Type :=
| NumKey (k : num_key)
| StrKey (k : str_key).

(** The opened container ([np.load(...)]): each entry is absent or a
    one-dimensional array. *)
Record NpzFile : Type := {
  numeric : num_key -> option (list Qc);
  text : str_key -> option (list string)
}.

(** ** Exceptions and the error monad *)

Inductive exn : Type :=
| FileNotFoundError (path : string)
| KeyError (k : key)
| IndexError
| ValueError
| ZeroDivisionError
| FloatingPointError
| SystemExit (code : Z).

Inductive result (A : Type) : Type :=
| Ok (a : A)
| Raise (e : exn).
Arguments Ok {A} a.
Arguments Raise {A} e.

Definition rbind {A B} (r : result A) (k : A -> result B) : result B :=
  match r with
  | Ok a => k a
  | Raise e => Raise e
  end.

Declare Scope result_scope.
Delimit Scope result_scope with res.
Notation "'let!' x ':=' r 'in' k" := (rbind r (fun x => k))
  (at level 10, x pattern, r at level 100, k at level 200) : result_scope.
Local Open Scope result_scope.

(** [[f(x) for x in l]] where [f] may raise: the first exception wins. *)
Fixpoint rmapM {A B} (f : A -> result B) (l : list A) : result (list B) :=
  match l with
  | [] => Ok []
  | x :: l' => let! y := f x in let! ys := rmapM f l' in Ok (y :: ys)
  end.

(** ** Container access and scalar coercions *)

(** [data[k]] for a numeric entry. *)
Definition getitem (data : NpzFile) (k : num_key) : result (list Qc) :=
  match numeric data k with
  | Some a => Ok a
  | None => Raise (KeyError (NumKey k))
  end.

(** [data[k]] for a text entry. *)
Definition getitem_str (data : NpzFile) (k : str_key) : result (list string) :=
  match text data k with
  | Some a => Ok a
  | None => Raise (KeyError (StrKey k))
  end.

(** [k in data]. *)
Definition contains (data : NpzFile) (k : num_key) : bool :=
  match numeric data k with
  | Some _ => true
  | None => false
  end.

(** [a[i]] for [0 <= i]. *)
Definition item {A} (a : list A) (i : nat) : result A :=
  match a !! i with
  | Some x => Ok x
  | None => Raise IndexError
  end.

(** [bool(x)], [int(x)] (truncation towards zero) and [float(x)] of a
    numeric scalar; [str(s)] of a text scalar is [s] itself. *)
Definition py_bool (x : Qc) : bool := bool_decide (x <> 0%Qc).
Definition py_int (x : Qc) : Z := Z.quot (Qnum x) (Zpos (Qden x)).
Definition py_float (x : Qc) : Qc := x.
Definition py_str (s : string) : string := s.

(** [x / y] on Python numbers: a zero divisor raises. *)
Definition truediv (x y : Qc) : result Qc :=
  if decide (y = 0%Qc) then Raise ZeroDivisionError else Ok (x / y)%Qc.

(** ** The reconstructed record *)

Record Metadata : Type := {
  parallel_enabled : bool;
  total_nodes : Z;
  simulation_end_time : Qc;
  data_loss_events : Z;
  nodes_with_data_loss : Z
}.

(** One element of [transfer_completions]: the five-item list
    [[time, transfer_type, duration, uploader, downloader]]. *)
Record Transfer : Type := {
  time : Qc;
  transfer_type : string;
  duration : Qc;
  uploader : string;
  downloader : string
}.

(** [result["metrics"]]. *)
Record Metrics : Type := {
  transfer_completions : list Transfer;
  bandwidth_snapshots : string;
  simultaneous_transfers : string
}.

(** The dictionary built by [process_data]. *)
Record SimulationRecord : Type := {
  metadata : Metadata;
  metrics : Metrics;
  raw_data : NpzFile
}.

(** ** Loader: [process_data] *)

(** [data[k][0]]. *)
Definition first_item (data : NpzFile) (k : num_key) : result Qc :=
  let! a := getitem data k in item a 0.

(** The list literal appended at index [i] (lines 76-82); the five
    subscripts are evaluated left to right. *)
Definition completion_at (data : NpzFile) (i : nat) : result Transfer :=
  let! times := getitem data transfer_times in
  let! t := item times i in
  let! types := getitem_str data transfer_types in
  let! ty := item types i in
  let! durations := getitem data transfer_durations in
  let! d := item durations i in
  let! ups := getitem_str data uploaders in
  let! u := item ups i in
  let! downs := getitem_str data downloaders in
  let! dl := item downs i in
  Ok {| time := py_float t; transfer_type := py_str ty; duration := py_float d;
        uploader := py_str u; downloader := py_str dl |}.

(** The dictionary literal [result["metadata"]] (lines 58-64); its
    five entries are evaluated in order. *)
Definition read_metadata (data : NpzFile) : result Metadata :=
  let! pe := first_item data metadata_parallel_enabled in
  let! tn := first_item data metadata_total_nodes in
  let! et := first_item data metadata_simulation_end_time in
  let! dle := first_item data metadata_data_loss_events in
  let! nwl := first_item data metadata_nodes_with_data_loss in
  Ok {| parallel_enabled := py_bool pe;
        total_nodes := py_int tn;
        simulation_end_time := py_float et;
        data_loss_events := py_int dle;
        nodes_with_data_loss := py_int nwl |}.

(** Lines 72-85. *)
Definition read_transfer_completions (data : NpzFile) : result (list Transfer) :=
  if contains data transfer_times then
    let! times := getitem data transfer_times in
    rmapM (completion_at data) (seq 0 (length times))
  else Ok [].

Definition process_data (data : NpzFile) : result SimulationRecord :=
  let! md := read_metadata data in
  let! completions := read_transfer_completions data in
  Ok {| metadata := md;
        metrics := {| transfer_completions := completions;
                      bandwidth_snapshots := "use_raw_data";
                      simultaneous_transfers := "use_raw_data" |};
        raw_data := data |}.

(** ** Per-node aggregation *)

(** [d[k] += 1] on a [defaultdict(int)]. *)
Definition incr (k : string) (d : gmap string nat) : gmap string nat :=
  <[k := S (default 0 (d !! k))]> d.

(** [d[k]] on a [defaultdict(int)]: an unseen key reads as [0]. *)
Definition getitem0 (d : gmap string nat) (k : string) : nat :=
  default 0 (d !! k).

(** The loop body of [analyze_transfers_by_node]. *)
Definition count_transfer (acc : gmap string nat * gmap string nat) (transfer : Transfer)
  : gmap string nat * gmap string nat :=
  (incr (uploader transfer) (fst acc), incr (downloader transfer) (snd acc)).

Definition analyze_transfers_by_node (data : SimulationRecord)
  : gmap string nat * gmap string nat :=
  fold_left count_transfer (transfer_completions (metrics data)) (∅, ∅).

(** Lexical order of Python strings. *)
Definition str_le (a b : string) : Prop := String.leb a b = true.
Definition str_lt (a b : string) : Prop := String.ltb a b = true.

Global Instance str_le_dec : RelDecision str_le.
Proof. intros a b. unfold str_le. apply _. Defined.

(** [list(d.keys())]. *)
Definition keys (d : gmap string nat) : list string := (map_to_list d).*1.

(** [sorted(set(l))]: the elements of [l] without repetition, in lexical
    order. *)
Definition sorted_set (l : list string) : list string :=
  merge_sort str_le (elements (list_to_set l : gset string)).

(** The bar chart of panel 2 (label list and the two aligned height
    lists). *)
Record Panel2 : Type := {
  nodes : list string;
  uploads : list nat;
  downloads : list nat
}.

(** Lines 191-194 of [create_analysis_plot]. *)
Definition transfers_per_node (data : SimulationRecord) : Panel2 :=
  let '(upload_counts, download_counts) := analyze_transfers_by_node data in
  let nodes := sorted_set (keys upload_counts ++ keys download_counts) in
  {| nodes := nodes;
     uploads := map (getitem0 upload_counts) nodes;
     downloads := map (getitem0 download_counts) nodes |}.

(** ** Array operations of the renderer *)

(** [a[::k]] for a step [k >= 1]: the elements at indices [0, k, 2k, ...].
    [skip] counts the elements still to pass over before the next one is
    taken. *)
Fixpoint slice_from {A} (k skip : nat) (a : list A) : list A :=
  match a with
  | [] => []
  | x :: a' =>
      match skip with
      | 0 => x :: slice_from k (k - 1) a'
      | S skip' => slice_from k skip' a'
      end
  end.

Definition slice_step {A} (k : nat) (a : list A) : list A := slice_from k 0 a.

(** [max(1, n // target_count)]. *)
Definition sample_step (target_count n : nat) : nat := Nat.max 1 (n / target_count).

(** Element-wise binary operation on two one-dimensional arrays with the
    broadcasting rule: equal lengths, or one operand of length one;
    anything else is a shape error. *)
Definition broadcast2 (f : Qc -> Qc -> result Qc) (a b : list Qc) : result (list Qc) :=
  if decide (length a = length b) then rmapM (fun xy => f xy.1 xy.2) (zip a b)
  else match a, b with
       | [x], _ => rmapM (f x) b
       | _, [y] => rmapM (fun x => f x y) a
       | _, _ => Raise ValueError
       end.

(** [a + b]. *)
Definition np_add : list Qc -> list Qc -> result (list Qc) :=
  broadcast2 (fun x y => Ok (x + y)%Qc).

(** [a / b]: where an element of [b] is zero numpy yields an infinity or
    a NaN, which no rational stands for; the model stops there. *)
Definition divide_elem (x y : Qc) : result Qc :=
  if decide (y = 0%Qc) then Raise FloatingPointError else Ok (x / y)%Qc.

Definition np_divide : list Qc -> list Qc -> result (list Qc) := broadcast2 divide_elem.

Definition Qc_max (x y : Qc) : Qc := if decide (x < y)%Qc then y else x.

(** [np.maximum(a, c)] with a scalar [c]. *)
Definition np_maximum (a : list Qc) (c : Qc) : list Qc := map (fun x => Qc_max x c) a.

(** [a / c] with a non-zero scalar constant [c]. *)
Definition np_div_scalar (a : list Qc) (c : Qc) : list Qc := map (fun x => (x / c)%Qc) a.

(** [np.max(a)]: raises on an empty array. *)
Definition np_max (a : list Qc) : result Qc :=
  match a with
  | [] => Raise ValueError
  | x :: a' => Ok (fold_left Qc_max a' x)
  end.

Definition Qc_sum (a : list Qc) : Qc := fold_right Qcplus 0%Qc a.

(** [np.mean(a)]: NaN on an empty array, where the model stops. *)
Definition np_mean (a : list Qc) : result Qc :=
  match a with
  | [] => Raise FloatingPointError
  | _ => Ok (Qc_sum a / Qc_of_Z (Z.of_nat (length a)))%Qc
  end.

(** ** The figure *)

(** The secondary line of panel 1 and the maximum shown in its title. *)
Record Overlay : Type := {
  ov_sim_times : list Qc;
  ov_total_concurrent : list Qc;
  ov_max_concurrent : Qc
}.

(** Panel 1: the cumulative line ([x] in days, [y] the running count), the
    optional concurrency overlay, and the total shown in the title. *)
Record Panel1 : Type := {
  p1_transfer_times : list Qc;
  p1_transfer_cumulative : list nat;
  p1_overlay : option Overlay;
  p1_title_total : nat
}.

(** Panel 3: the numbers interpolated into [stats_text]. *)
Record Stats : Type := {
  st_total_transfers : nat;
  st_sim_time_years : Qc;
  st_total_nodes : Z;
  st_avg_transfers_per_node : Qc;
  st_transfers_per_year : Qc;
  st_data_loss_events : Z
}.

(** What [savefig] writes.  [ax1] is [None] when nothing is drawn on the
    first axes (no transfers). *)
Record Figure : Type := {
  suptitle_mode_name : string;
  suptitle_years : Qc;
  ax1 : option Panel1;
  ax2 : Panel2;
  ax3 : Stats
}.

(** ** Renderer: the pieces of [create_analysis_plot] *)

Definition seconds_per_day : Qc := Qc_of_Z (24 * 3600).

(** [365.25 * 24 * 3600]. *)
Definition seconds_per_year : Qc := (Q2Qc (36525 # 100) * Qc_of_Z 24 * Qc_of_Z 3600)%Qc.

(** [ax.plot(x, y)]: the two sequences must have the same length. *)
Definition plot_check {A B} (x : list A) (y : list B) : result unit :=
  if decide (length x = length y) then Ok tt else Raise ValueError.

(** The test [is_parallel and "sim_times" in raw_data and
    len(raw_data["sim_times"]) > 0] of lines 146 and 232. *)
Definition has_concurrency (is_parallel : bool) (raw : NpzFile) : bool :=
  is_parallel && contains raw sim_times &&
  match numeric raw sim_times with
  | Some a => bool_decide (0 < length a)
  | None => false
  end.

(** Lines 146-180: the overlay of panel 1. *)
Definition concurrency_overlay (is_parallel : bool) (raw : NpzFile) : result (option Overlay) :=
  if has_concurrency is_parallel raw then
    let! times := getitem raw sim_times in
    let sample_step := sample_step 2000 (length times) in
    let sim_times := np_div_scalar (slice_step sample_step times) seconds_per_day in
    let! ups := getitem raw sim_uploads in
    let! downs := getitem raw sim_downloads in
    let! total_concurrent := np_add (slice_step sample_step ups) (slice_step sample_step downs) in
    let! _ := plot_check sim_times total_concurrent in
    let! max_concurrent :=
      (if bool_decide (0 < length total_concurrent) then np_max total_concurrent else Ok 0%Qc) in
    Ok (Some {| ov_sim_times := sim_times;
                ov_total_concurrent := total_concurrent;
                ov_max_concurrent := max_concurrent |})
  else Ok None.

(** Lines 132-188: panel 1. *)
Definition panel1 (data : SimulationRecord) : result (option Panel1) :=
  let transfers := transfer_completions (metrics data) in
  match transfers with
  | [] => Ok None
  | _ :: _ =>
      let transfer_times := map (fun t => (time t / seconds_per_day)%Qc) transfers in
      let transfer_cumulative := seq 1 (length transfer_times) in
      let! _ := plot_check transfer_times transfer_cumulative in
      let! overlay := concurrency_overlay (parallel_enabled (metadata data)) (raw_data data) in
      Ok (Some {| p1_transfer_times := transfer_times;
                  p1_transfer_cumulative := transfer_cumulative;
                  p1_overlay := overlay;
                  p1_title_total := length transfers |})
  end.

(** Lines 116-118 and 210-211: the derived scalars. *)
Definition sim_time_years (data : SimulationRecord) : Qc :=
  (simulation_end_time (metadata data) / seconds_per_year)%Qc.

Definition avg_transfers_per_node (data : SimulationRecord) : result Qc :=
  let total_transfers := length (transfer_completions (metrics data)) in
  let total_nodes := total_nodes (metadata data) in
  if bool_decide (0 < total_nodes)%Z
  then truediv (Qc_of_Z (Z.of_nat total_transfers)) (Qc_of_Z total_nodes)
  else Ok 0%Qc.

Definition transfers_per_year (data : SimulationRecord) : result Qc :=
  let total_transfers := length (transfer_completions (metrics data)) in
  if bool_decide (0 < sim_time_years data)%Qc
  then truediv (Qc_of_Z (Z.of_nat total_transfers)) (sim_time_years data)
  else Ok 0%Qc.

(** [np.mean(used / np.maximum(capacity, 1)) * 100]. *)
Definition utilization (used capacity : list Qc) : result Qc :=
  let! ratio := np_divide used (np_maximum capacity 1%Qc) in
  let! m := np_mean ratio in
  Ok (m * Qc_of_Z 100)%Qc.

(** Lines 214-228: [(avg_upload_util, avg_download_util)]. *)
Definition bandwidth_stats (raw : NpzFile) : result (Qc * Qc) :=
  if contains raw bw_times then
    let! times := getitem raw bw_times in
    if bool_decide (0 < length times) then
      let sample_step := sample_step 1000 (length times) in
      let! uu := getitem raw bw_upload_used in
      let! uc := getitem raw bw_upload_capacity in
      let! du := getitem raw bw_download_used in
      let! dc := getitem raw bw_download_capacity in
      let! avg_upload_util :=
        utilization (slice_step sample_step uu) (slice_step sample_step uc) in
      let! avg_download_util :=
        utilization (slice_step sample_step du) (slice_step sample_step dc) in
      Ok (avg_upload_util, avg_download_util)
    else Ok (0%Qc, 0%Qc)
  else Ok (0%Qc, 0%Qc).

(** Lines 231-244: [(max_concurrent, avg_concurrent)] behind the text
    [concurrent_stats], or [None] for the empty text. *)
Definition concurrent_stats (is_parallel : bool) (raw : NpzFile) : result (option (Z * Qc)) :=
  if has_concurrency is_parallel raw then
    let! times := getitem raw sim_times in
    let sample_step := sample_step 1000 (length times) in
    let! ups := getitem raw sim_uploads in
    let! downs := getitem raw sim_downloads in
    let! concurrent_data := np_add (slice_step sample_step ups) (slice_step sample_step downs) in
    let! max_concurrent :=
      (if bool_decide (0 < length concurrent_data)
       then let! m := np_max concurrent_data in Ok (py_int m) else Ok 0%Z) in
    let! avg_concurrent :=
      (if bool_decide (0 < length concurrent_data)
       then let! m := np_mean concurrent_data in Ok (py_float m) else Ok 0%Qc) in
    Ok (Some (max_concurrent, avg_concurrent))
  else Ok None.

(** Lines 115-268: everything [create_analysis_plot] draws.  The
    bandwidth figures and the concurrency text are computed (and may
    raise) but [stats_text] does not interpolate them. *)
Definition draw_figure (data : SimulationRecord) : result Figure :=
  let transfers := transfer_completions (metrics data) in
  let total_transfers := length transfers in
  let is_parallel := parallel_enabled (metadata data) in
  let mode_name := if is_parallel then "Parallel" else "Single" in
  let! p1 := panel1 data in
  let p2 := transfers_per_node data in
  let! avg := avg_transfers_per_node data in
  let! tpy := transfers_per_year data in
  let! _ := bandwidth_stats (raw_data data) in
  let! _ := concurrent_stats is_parallel (raw_data data) in
  Ok {| suptitle_mode_name := mode_name;
        suptitle_years := sim_time_years data;
        ax1 := p1;
        ax2 := p2;
        ax3 := {| st_total_transfers := total_transfers;
                  st_sim_time_years := sim_time_years data;
                  st_total_nodes := total_nodes (metadata data);
                  st_avg_transfers_per_node := avg;
                  st_transfers_per_year := tpy;
                  st_data_loss_events := data_loss_events (metadata data) |} |}.

(** ** The process state: input files, log, written images *)

Inductive level : Type := INFO | ERROR.

(** A log record.  Messages without interpolated numbers are kept as their
    text; the others keep the interpolated values. *)
Inductive message : Type :=
| Text (s : string)
| LoadedMsg (mode_name : string) (transfers : nat)
| SimulationTimeMsg (years : Qc)
| TotalNodesMsg (n : Z)
| DataLossEventsMsg (n : Z)
| AnalysisErrorMsg (e : exn).

(** The input containers and the written images are kept in two maps:
    an output path that names an input file is outside the model. *)
Record World : Type := {
  files : gmap string NpzFile;
  log : list (level * message);
  images : gmap string Figure
}.

(** Computations that read the files, append to the log, write images and
    may raise. *)
Definition M (A : Type) : Type := World -> result A * World.

Definition ret {A} (a : A) : M A := fun w => (Ok a, w).
Definition raise {A} (e : exn) : M A := fun w => (Raise e, w).
Definition lift {A} (r : result A) : M A := fun w => (r, w).

Definition bind {A B} (m : M A) (k : A -> M B) : M B :=
  fun w =>
    match m w with
    | (Ok a, w') => k a w'
    | (Raise e, w') => (Raise e, w')
    end.

(** [try: m except ...: h]. *)
Definition try_except {A} (m : M A) (h : exn -> M A) : M A :=
  fun w =>
    match m w with
    | (Ok a, w') => (Ok a, w')
    | (Raise e, w') => h e w'
    end.

Declare Scope M_scope.
Delimit Scope M_scope with M.
Notation "'let*' x ':=' m 'in' k" := (bind m (fun x => k))
  (at level 10, x pattern, m at level 100, k at level 200) : M_scope.
Notation "m ';;' k" := (bind m (fun _ => k))
  (at level 100, k at level 200, right associativity) : M_scope.
Local Open Scope M_scope.

Definition logging (lvl : level) (msg : message) : M unit :=
  fun w => (Ok tt, {| files := files w; log := log w ++ [(lvl, msg)]; images := images w |}).

Definition sys_exit {A} (code : Z) : M A := raise (SystemExit code).

(** [np.load(filename)]. *)
Definition np_load (filename : string) : M NpzFile :=
  fun w =>
    match files w !! filename with
    | Some data => (Ok data, w)
    | None => (Raise (FileNotFoundError filename), w)
    end.

(** [plt.savefig(filepath, ...)]: the file at [filepath] is (over)written. *)
Definition savefig (filepath : string) (fig : Figure) : M unit :=
  fun w => (Ok tt, {| files := files w; log := log w; images := <[filepath := fig]> (images w) |}).

(** ** Loader: [load_metrics] *)

(** [s.endswith(suffix)]. *)
Definition endswith (s suffix : string) : bool :=
  let n := String.length s in
  let m := String.length suffix in
  bool_decide (m <= n) && String.eqb (substring (n - m) m s) suffix.

Definition not_found_message (filename : string) : message :=
  Text ("Error: Data file '" +:+ filename +:+ "' not found.").

Definition load_metrics (filename : string) : M SimulationRecord :=
  try_except
    (let* data := np_load filename in lift (process_data data))
    (fun e =>
       match e with
       | FileNotFoundError _ =>
           let filename := if negb (endswith filename ".npz") then filename +:+ ".npz" else filename in
           try_except
             (let* data := np_load filename in lift (process_data data))
             (fun e' =>
                match e' with
                | FileNotFoundError _ =>
                    logging ERROR (not_found_message filename);;
                    sys_exit 1
                | _ => raise e'
                end)
       | _ => raise e
       end).

(** ** Renderer: the entry points *)

Definition create_analysis_plot (data : SimulationRecord) (filepath : string) : M unit :=
  let* fig := lift (draw_figure data) in
  savefig filepath fig.

Definition plot_single_mode_analysis (data : SimulationRecord) (filepath : string) : M unit :=
  create_analysis_plot data filepath.

Definition plot_parallel_mode_analysis (data : SimulationRecord) (filepath : string) : M unit :=
  create_analysis_plot data filepath.

(** ** [main] *)

Definition newline : string := String (ascii_of_nat 10) "".

(** [main()] after argument parsing: [filename] and [plot_name] are
    [args.filename] and [args.plot_name]. *)
Definition main (filename plot_name : string) : M unit :=
  (if bool_decide (filename = "")
   then logging ERROR (Text "Filename argument is required.");; sys_exit 1
   else ret tt);;
  logging INFO (Text "P2P Transfer Analysis");;
  logging INFO (Text "==================================================");;
  try_except
    (let* data := load_metrics filename in
     let is_parallel := parallel_enabled (metadata data) in
     let mode_name := if is_parallel then "parallel" else "single" in
     logging INFO (LoadedMsg mode_name (length (transfer_completions (metrics data))));;
     logging INFO (SimulationTimeMsg (simulation_end_time (metadata data) / seconds_per_year)%Qc);;
     logging INFO (TotalNodesMsg (total_nodes (metadata data)));;
     logging INFO (DataLossEventsMsg (data_loss_events (metadata data)));;
     logging INFO (Text (newline +:+ "Generating " +:+ mode_name +:+ " mode analysis plots..."));;
     (if is_parallel
      then plot_parallel_mode_analysis data plot_name
      else plot_single_mode_analysis data plot_name);;
     logging INFO (Text (newline +:+ "Analysis complete! File saved as " +:+ plot_name)))
    (fun e =>
       match e with
       | SystemExit _ => raise e
       | FileNotFoundError _ =>
           logging ERROR (not_found_message filename);;
           logging ERROR (Text "Make sure to run the simulation first and save metrics.");;
           sys_exit 1
       | _ =>
           logging ERROR (AnalysisErrorMsg e);;
           sys_exit 1
       end).

(** The exit status of the process that runs [main]: [0] when it returns,
    the code of a [SystemExit], [1] for any other uncaught exception. *)
Definition exit_status (r : result unit) : Z :=
  match r with
  | Ok _ => 0
  | Raise (SystemExit code) => code
  | Raise _ => 1
  end.

Definition run (filename plot_name : string) (w : World) : Z * World :=
  let (r, w') := main filename plot_name w in (exit_status r, w').

(** ** Reference definitions used in the statements *)

(** The points of the cumulative line of panel 1, as [(x, y)] pairs; no
    point when nothing is drawn. *)
Definition cumulative_series (fig : Figure) : list (Qc * nat) :=
  match ax1 fig with
  | Some p => zip (p1_transfer_times p) (p1_transfer_cumulative p)
  | None => []
  end.

(** [mean(used / max(capacity, 1)) * 100] written out over two aligned
    windows. *)
Definition mean_utilization (used capacity : list Qc) : Qc :=
  (Qc_sum (zip_with (fun u c => u / Qc_max c 1) used capacity)
   / Qc_of_Z (Z.of_nat (length used)) * Qc_of_Z 100)%Qc.

(** The same record with the mode flag set to [b]. *)
Definition with_mode (b : bool) (data : SimulationRecord) : SimulationRecord :=
  {| metadata := {| parallel_enabled := b;
                    total_nodes := total_nodes (metadata data);
                    simulation_end_time := simulation_end_time (metadata data);
                    data_loss_events := data_loss_events (metadata data);
                    nodes_with_data_loss := nodes_with_data_loss (metadata data) |};
     metrics := metrics data;
     raw_data := raw_data data |}.

(** A figure with the super-title of single mode and no overlay. *)
Definition without_overlay (p : Panel1) : Panel1 :=
  {| p1_transfer_times := p1_transfer_times p;
     p1_transfer_cumulative := p1_transfer_cumulative p;
     p1_overlay := None;
     p1_title_total := p1_title_total p |}.

Definition as_single_mode (fig : Figure) : Figure :=
  {| suptitle_mode_name := "Single";
     suptitle_years := suptitle_years fig;
     ax1 := without_overlay <$> ax1 fig;
     ax2 := ax2 fig;
     ax3 := ax3 fig |}.

(** The concurrency samples form a group: where [sim_times] is present
    and non-empty, [sim_uploads] and [sim_downloads] are present and aligned
    with it by index. *)
Definition aligned_concurrency (raw : NpzFile) : Prop :=
  forall times, numeric raw sim_times = Some times -> 0 < length times ->
    exists ups downs,
      numeric raw sim_uploads = Some ups /\ numeric raw sim_downloads = Some downs /\
      length ups = length times /\ length downs = length times.

(** The bandwidth samples form a group: where [bw_times] is present and
    non-empty, the four used/capacity series are present and aligned with it
    by index. *)
Definition aligned_bandwidth (raw : NpzFile) : Prop :=
  forall times, numeric raw bw_times = Some times -> 0 < length times ->
    exists uu uc du dc,
      numeric raw bw_upload_used = Some uu /\
      numeric raw bw_upload_capacity = Some uc /\
      numeric raw bw_download_used = Some du /\
      numeric raw bw_download_capacity = Some dc /\
      length uu = length times /\ length uc = length times /\
      length du = length times /\ length dc = length times.

(** The exceptions of a failed subscript. *)
Definition lookup_error (e : exn) : Prop :=
  match e with
  | KeyError _ | IndexError => True
  | _ => False
  end.

(** [r] raises nothing but exceptions satisfying [P]. *)
Definition raises_only {A} (P : exn -> Prop) (r : result A) : Prop :=
  forall e, r = Raise e -> P e.

(** The name that the second attempt of [load_metrics] opens. *)
Definition retry_name (name : string) : string :=
  if negb (endswith name ".npz") then name +:+ ".npz" else name.

(** The state after the two banner lines and the not-found report. *)
Definition after_not_found (w : World) (filename : string) : World :=
  {| files := files w;
     log := log w ++ [ (INFO, Text "P2P Transfer Analysis");
                       (INFO, Text "==================================================");
                       (ERROR, not_found_message (retry_name filename)) ];
     images := images w |}.

(** The log of [w'] extends the log of [w] by records among which is an
    error naming a data file that was not found. *)
Definition reports_not_found (w w' : World) : Prop :=
  exists name extra,
    log w' = log w ++ extra /\ (ERROR, not_found_message name) ∈ extra.

(** Number of transfers of [ts] whose uploader ([who := uploader]) or
    downloader ([who := downloader]) is [n]: the reference count that the
    mappings are compared with. *)
Definition occurrences (who : Transfer -> string) (ts : list Transfer) (n : string) : nat :=
  length (filter (fun t => who t = n) ts).

(** ** Sample inputs *)

(** A container without any entry. *)
Definition no_entries : NpzFile :=
  {| numeric := fun _ => None; text := fun _ => None |}.

(** A complete artifact of a parallel run: three transfers between the
    nodes A, B and C, four concurrency samples, three bandwidth samples of
    which one reports a zero upload capacity. *)
Definition sample_npz : NpzFile :=
  {| numeric := fun k =>
       match k with
       | metadata_parallel_enabled => Some [Qc_of_Z 1]
       | metadata_total_nodes => Some [Qc_of_Z 3]
       | metadata_simulation_end_time => Some [Qc_of_Z 31557600]
       | metadata_data_loss_events => Some [Qc_of_Z 0]
       | metadata_nodes_with_data_loss => Some [Qc_of_Z 0]
       | transfer_times => Some [Qc_of_Z 86400; Qc_of_Z 172800; Qc_of_Z 259200]
       | transfer_durations => Some [Qc_of_Z 10; Qc_of_Z 20; Qc_of_Z 30]
       | sim_times => Some [Qc_of_Z 0; Qc_of_Z 86400; Qc_of_Z 172800; Qc_of_Z 259200]
       | sim_uploads => Some [Qc_of_Z 0; Qc_of_Z 1; Qc_of_Z 2; Qc_of_Z 1]
       | sim_downloads => Some [Qc_of_Z 0; Qc_of_Z 1; Qc_of_Z 1; Qc_of_Z 1]
       | bw_times => Some [Qc_of_Z 0; Qc_of_Z 86400; Qc_of_Z 172800]
       | bw_upload_used => Some [Qc_of_Z 0; Qc_of_Z 5; Qc_of_Z 10]
       | bw_upload_capacity => Some [Qc_of_Z 0; Qc_of_Z 10; Qc_of_Z 10]
       | bw_download_used => Some [Qc_of_Z 2; Qc_of_Z 4; Qc_of_Z 6]
       | bw_download_capacity => Some [Qc_of_Z 8; Qc_of_Z 8; Qc_of_Z 8]
       end;
     text := fun k =>
       match k with
       | transfer_types => Some ["x"; "x"; "x"]
       | uploaders => Some ["A"; "B"; "A"]
       | downloaders => Some ["B"; "A"; "C"]
       end |}.

(** The same artifact with the entry [uploaders] left out. *)
Definition npz_without_uploaders : NpzFile :=
  {| numeric := numeric sample_npz;
     text := fun k =>
       match k with
       | uploaders => None
       | _ => text sample_npz k
       end |}.

(** The same artifact with the entry [transfer_times] left out. *)
Definition npz_without_transfer_times : NpzFile :=
  {| numeric := fun k =>
       match k with
       | transfer_times => None
       | _ => numeric sample_npz k
       end;
     text := text sample_npz |}.

Definition sample_transfers : list Transfer :=
  [ {| time := Qc_of_Z 86400; transfer_type := "x"; duration := Qc_of_Z 10;
       uploader := "A"; downloader := "B" |};
    {| time := Qc_of_Z 172800; transfer_type := "x"; duration := Qc_of_Z 20;
       uploader := "B"; downloader := "A" |};
    {| time := Qc_of_Z 259200; transfer_type := "x"; duration := Qc_of_Z 30;
       uploader := "A"; downloader := "C" |} ].

(** The record that [process_data] builds from [sample_npz]. *)
Definition sample_record : SimulationRecord :=
  {| metadata := {| parallel_enabled := true; total_nodes := 3;
                    simulation_end_time := Qc_of_Z 31557600;
                    data_loss_events := 0; nodes_with_data_loss := 0 |};
     metrics := {| transfer_completions := sample_transfers;
                   bandwidth_snapshots := "use_raw_data";
                   simultaneous_transfers := "use_raw_data" |};
     raw_data := sample_npz |}.

(** A one-year run with one transfer and [total_nodes = 0]. *)
Definition record_without_nodes : SimulationRecord :=
  {| metadata := {| parallel_enabled := false; total_nodes := 0;
                    simulation_end_time := Qc_of_Z 31557600;
                    data_loss_events := 0; nodes_with_data_loss := 0 |};
     metrics := {| transfer_completions :=
                     [ {| time := Qc_of_Z 86400; transfer_type := "x";
                          duration := Qc_of_Z 10; uploader := "A"; downloader := "B" |} ];
                   bandwidth_snapshots := "use_raw_data";
                   simultaneous_transfers := "use_raw_data" |};
     raw_data := no_entries |}.

(** A process state whose only input file is [run.npz]. *)
Definition sample_world : World :=
  {| files := {[ "run.npz" := sample_npz ]}; log := []; images := ∅ |}.

(** A process state without any file. *)
Definition empty_world : World :=
  {| files := ∅; log := []; images := ∅ |}.

(** ** Reference definitions for the further properties *)

(** The five required entries of the container. *)
Definition metadata_key (k : num_key) : Prop :=
  match k with
  | metadata_parallel_enabled | metadata_total_nodes | metadata_simulation_end_time
  | metadata_data_loss_events | metadata_nodes_with_data_loss => True
  | _ => False
  end.

(** The exceptions that drawing the figure can raise. *)
Definition render_error (e : exn) : Prop :=
  match e with
  | KeyError _ | ValueError | FloatingPointError | ZeroDivisionError => True
  | _ => False
  end.

(** The same record over another container handle. *)
Definition with_raw (raw : NpzFile) (data : SimulationRecord) : SimulationRecord :=
  {| metadata := metadata data; metrics := metrics data; raw_data := raw |}.

(** The two banner lines that [main] logs first. *)
Definition banner_log : list (level * message) :=
  [ (INFO, Text "P2P Transfer Analysis");
    (INFO, Text "==================================================") ].

(** The records that [main] logs between loading and plotting. *)
Definition loaded_log (data : SimulationRecord) : list (level * message) :=
  let mode_name := if parallel_enabled (metadata data) then "parallel" else "single" in
  [ (INFO, LoadedMsg mode_name (length (transfer_completions (metrics data))));
    (INFO, SimulationTimeMsg (simulation_end_time (metadata data) / seconds_per_year)%Qc);
    (INFO, TotalNodesMsg (total_nodes (metadata data)));
    (INFO, DataLossEventsMsg (data_loss_events (metadata data)));
    (INFO, Text (newline +:+ "Generating " +:+ mode_name +:+ " mode analysis plots...")) ].

Definition complete_message (plot_name : string) : message :=
  Text (newline +:+ "Analysis complete! File saved as " +:+ plot_name).

(** The state [w] with [extra] appended to the log. *)
Definition logged (w : World) (extra : list (level * message)) : World :=
  {| files := files w; log := log w ++ extra; images := images w |}.

(** The container that [load_metrics filename] opens in [w], if any: the
    path as given, else the name of the second attempt. *)
Definition opened (w : World) (filename : string) : option NpzFile :=
  match files w !! filename with
  | Some data => Some data
  | None => files w !! retry_name filename
  end.

(** The sample record without its transfer completions. *)
Definition record_without_transfers : SimulationRecord :=
  {| metadata := metadata sample_record;
     metrics := {| transfer_completions := [];
                   bandwidth_snapshots := "use_raw_data";
                   simultaneous_transfers := "use_raw_data" |};
     raw_data := sample_npz |}.



(** The sample artifact without one numeric entry. *)
Definition npz_without_sim_uploads : NpzFile :=
  {| numeric := fun k => match k with sim_uploads => None | _ => numeric sample_npz k end;
     text := text sample_npz |}.

Definition npz_without_bw_times : NpzFile :=
  {| numeric := fun k => match k with bw_times => None | _ => numeric sample_npz k end;
     text := text sample_npz |}.

Definition npz_without_download_used : NpzFile :=
  {| numeric := fun k => match k with bw_download_used => None | _ => numeric sample_npz k end;
     text := text sample_npz |}.

(** The same record with other transfer completions. *)
Definition with_transfers (ts : list Transfer) (data : SimulationRecord) : SimulationRecord :=
  {| metadata := metadata data;
     metrics := {| transfer_completions := ts;
                   bandwidth_snapshots := bandwidth_snapshots (metrics data);
                   simultaneous_transfers := simultaneous_transfers (metrics data) |};
     raw_data := raw_data data |}.

(** A record with three transfers whose metadata report a negative node
    count and a negative end time. *)
Definition record_negative_denominators : SimulationRecord :=
  {| metadata := {| parallel_enabled := false; total_nodes := -2;
                    simulation_end_time := Qc_of_Z (-31557600);
                    data_loss_events := 0; nodes_with_data_loss := 0 |};
     metrics := metrics sample_record;
     raw_data := no_entries |}.

(** The artifact of a long parallel run: 4001 concurrency samples, taken
    one per second, with [i] uploads and one download at sample [i]. *)
Definition long_run_npz : NpzFile :=
  {| numeric := fun k =>
       match k with
       | sim_times => Some (map (fun i => Qc_of_Z (Z.of_nat i)) (seq 0 4001))
       | sim_uploads => Some (map (fun i => Qc_of_Z (Z.of_nat i)) (seq 0 4001))
       | sim_downloads => Some (repeat (Qc_of_Z 1) 4001)
       | _ => numeric sample_npz k
       end;
     text := text sample_npz |}.

(** The outcome of a run written as a decision tree over the inputs:
    exit status and final state. *)
Definition run_outcome (filename plot_name : string) (w : World) : Z * World :=
  if bool_decide (filename = "")
  then (1%Z, logged w [(ERROR, Text "Filename argument is required.")])
  else
    match opened w filename with
    | None =>
        (1%Z, logged w (banner_log ++ [(ERROR, not_found_message (retry_name filename))]))
    | Some container =>
        match process_data container with
        | Raise e => (1%Z, logged w (banner_log ++ [(ERROR, AnalysisErrorMsg e)]))
        | Ok data =>
            match draw_figure data with
            | Raise e =>
                (1%Z, logged w (banner_log ++ loaded_log data ++ [(ERROR, AnalysisErrorMsg e)]))
            | Ok fig =>
                (0%Z,
                 {| files := files w;
                    log := log w ++ banner_log ++ loaded_log data
                             ++ [(INFO, complete_message plot_name)];
                    images := <[plot_name := fig]> (images w) |})
            end
        end
    end.

(** * Properties *)

(** ** The lexical order on strings *)

Section StringOrder.

Lemma ascii_compare_lt_trans (a b c : ascii) :
  Ascii.compare a b = Lt -> Ascii.compare b c = Lt -> Ascii.compare a c = Lt.
Proof.
  unfold Ascii.compare. rewrite !N.compare_lt_iff. apply N.lt_trans.
Qed.

Lemma string_compare_refl (s : string) : String.compare s s = Eq.
Proof.
  induction s as [|c s IH]; simpl; [reflexivity|].
  unfold Ascii.compare. now rewrite N.compare_refl.
Qed.

Lemma string_compare_lt_trans (s1 : string) :
  forall s2 s3, String.compare s1 s2 = Lt -> String.compare s2 s3 = Lt ->
    String.compare s1 s3 = Lt.
Proof.
  induction s1 as [|c1 s1 IH]; intros [|c2 s2] [|c3 s3]; simpl; try congruence.
  destruct (Ascii.compare c1 c2) eqn:H12; try congruence;
    destruct (Ascii.compare c2 c3) eqn:H23; try congruence; intros Ha Hb.
  - apply Ascii.compare_eq_iff in H12, H23. subst.
    unfold Ascii.compare. rewrite N.compare_refl. eauto.
  - apply Ascii.compare_eq_iff in H12. subst. now rewrite H23.
  - apply Ascii.compare_eq_iff in H23. subst. now rewrite H12.
  - now rewrite (ascii_compare_lt_trans _ _ _ H12 H23).
Qed.

Lemma str_lt_le_ne (a b : string) : str_lt a b <-> str_le a b /\ a <> b.
Proof.
  unfold str_lt, str_le, String.ltb, String.leb. split.
  - intros H. destruct (String.compare a b) eqn:E; try discriminate.
    split; [reflexivity|]. intros ->. rewrite string_compare_refl in E. discriminate.
  - intros [H Hne]. destruct (String.compare a b) eqn:E; try discriminate; [|reflexivity].
    apply String.compare_eq_iff in E. contradiction.
Qed.

Global Instance str_le_total : Total str_le.
Proof. intros a b. apply String.leb_total. Qed.

Global Instance str_le_antisymm : AntiSymm (=) str_le.
Proof. intros a b. apply String.leb_antisym. Qed.

Global Instance str_lt_trans : Transitive str_lt.
Proof.
  intros a b c. unfold str_lt, String.ltb. intros Hab Hbc.
  destruct (String.compare a b) eqn:E1; try discriminate.
  destruct (String.compare b c) eqn:E2; try discriminate.
  now rewrite (string_compare_lt_trans _ _ _ E1 E2).
Qed.

Global Instance str_le_trans : Transitive str_le.
Proof.
  intros a b c Hab Hbc.
  destruct (decide (a = b)) as [->|Hne1]; [assumption|].
  destruct (decide (b = c)) as [->|Hne2]; [assumption|].
  assert (str_lt a c) as Hac.
  { transitivity b; apply str_lt_le_ne; auto. }
  apply str_lt_le_ne in Hac. tauto.
Qed.

End StringOrder.

(** ** Per-node counts *)

Section Aggregation.

Lemma getitem0_incr (k n : string) (d : gmap string nat) :
  getitem0 (incr k d) n = (if decide (k = n) then 1 else 0) + getitem0 d n.
Proof.
  unfold getitem0, incr. destruct (decide (k = n)) as [->|Hne].
  - now rewrite lookup_insert_eq.
  - now rewrite lookup_insert_ne.
Qed.

Lemma dom_incr (k : string) (d : gmap string nat) : dom (incr k d) = {[k]} ∪ dom d.
Proof. unfold incr. apply dom_insert_L. Qed.

Lemma occurrences_cons who t ts n :
  occurrences who (t :: ts) n = (if decide (who t = n) then 1 else 0) + occurrences who ts n.
Proof. unfold occurrences. rewrite filter_cons. now destruct (decide (who t = n)). Qed.

Lemma occurrences_unseen who (ts : list Transfer) (n : string) :
  (forall t, t ∈ ts -> who t <> n) -> occurrences who ts n = 0.
Proof.
  induction ts as [|t ts IH]; intros Hall; [reflexivity|].
  rewrite occurrences_cons, decide_False by apply Hall, list_elem_of_here.
  apply IH. intros t' Ht'. now apply Hall, list_elem_of_further.
Qed.

Lemma fold_count_transfer (ts : list Transfer) :
  forall (u d : gmap string nat),
    let r := fold_left count_transfer ts (u, d) in
    (forall n, getitem0 r.1 n = getitem0 u n + occurrences uploader ts n) /\
    (forall n, getitem0 r.2 n = getitem0 d n + occurrences downloader ts n) /\
    dom r.1 = dom u ∪ list_to_set (map uploader ts) /\
    dom r.2 = dom d ∪ list_to_set (map downloader ts).
Proof.
  induction ts as [|t ts IH]; intros u d; simpl.
  - unfold occurrences; simpl.
    split; [intros; lia|]. split; [intros; lia|].
    split; apply set_eq; intros x; rewrite elem_of_union, elem_of_empty; tauto.
  - specialize (IH (incr (uploader t) u) (incr (downloader t) d)).
    simpl in IH. destruct IH as (Hu & Hd & Du & Dd).
    unfold count_transfer at 2 4 6 8; simpl. repeat split.
    + intros n. rewrite Hu, getitem0_incr, occurrences_cons. lia.
    + intros n. rewrite Hd, getitem0_incr, occurrences_cons. lia.
    + rewrite Du, dom_incr. apply set_eq. intros x.
      rewrite !elem_of_union. tauto.
    + rewrite Dd, dom_incr. apply set_eq. intros x.
      rewrite !elem_of_union. tauto.
Qed.

Lemma elem_of_keys (d : gmap string nat) (k : string) : k ∈ keys d <-> k ∈ dom d.
Proof.
  unfold keys. rewrite elem_of_dom, list_elem_of_fmap. split.
  - intros [[k' v] [-> Hin]]. apply elem_of_map_to_list in Hin. simpl. eauto.
  - intros [v Hv]. exists (k, v). split; [reflexivity|]. now apply elem_of_map_to_list.
Qed.

Lemma sorted_set_elem_of (l : list string) (k : string) : k ∈ sorted_set l <-> k ∈ l.
Proof.
  unfold sorted_set. rewrite merge_sort_Permutation, elem_of_elements.
  apply elem_of_list_to_set.
Qed.

Lemma sorted_set_NoDup (l : list string) : NoDup (sorted_set l).
Proof. unfold sorted_set. rewrite merge_sort_Permutation. apply NoDup_elements. Qed.

Lemma sorted_set_StronglySorted (l : list string) : StronglySorted str_lt (sorted_set l).
Proof.
  pose proof (sorted_set_NoDup l) as Hnd.
  assert (StronglySorted str_le (sorted_set l)) as Hs
    by (unfold sorted_set; apply StronglySorted_merge_sort; apply _).
  induction Hs as [|x xs Hs IH Hall]; [constructor|].
  apply NoDup_cons in Hnd as [Hx Hnd]. constructor; [auto|].
  rewrite Forall_forall in Hall |- *. intros y Hy.
  apply str_lt_le_ne. split; [auto|]. intros ->. contradiction.
Qed.

(** Summing an indicator over a duplicate-free list. *)
Lemma sum_indicator (k : string) (l : list string) :
  NoDup l ->
  sum_list (map (fun n => if decide (k = n) then 1 else 0) l) = if decide (k ∈ l) then 1 else 0.
Proof.
  induction 1 as [|x l Hx Hnd IH]; simpl.
  - reflexivity.
  - rewrite IH. destruct (decide (k = x)) as [->|Hne].
    + rewrite (decide_True (P := x ∈ x :: l)) by apply list_elem_of_here.
      now rewrite decide_False.
    + destruct (decide (k ∈ l)) as [Hin|Hnin].
      * rewrite decide_True; [reflexivity|]. now apply list_elem_of_further.
      * rewrite decide_False; [reflexivity|]. rewrite elem_of_cons. tauto.
Qed.

Lemma sum_occurrences who (ts : list Transfer) (l : list string) :
  NoDup l -> (forall t, t ∈ ts -> who t ∈ l) ->
  sum_list (map (occurrences who ts) l) = length ts.
Proof.
  intros Hnd. induction ts as [|t ts IH]; intros Hin.
  - unfold occurrences; simpl. clear. induction l; simpl; auto.
  - assert (map (occurrences who (t :: ts)) l =
            map (fun n => (if decide (who t = n) then 1 else 0) + occurrences who ts n) l) as ->
      by (apply map_ext; intros; apply occurrences_cons).
    assert (forall (f g : string -> nat) (l : list string),
               sum_list (map (fun n => f n + g n) l) = sum_list (map f l) + sum_list (map g l)) as Hsplit.
    { intros f g l'. induction l' as [|y l' IH']; simpl; [reflexivity|]. rewrite IH'. lia. }
    rewrite Hsplit, sum_indicator by assumption.
    rewrite decide_True by (apply Hin, list_elem_of_here).
    rewrite IH; [reflexivity|]. intros t' Ht'. now apply Hin, list_elem_of_further.
Qed.

End Aggregation.

Section PerNodeClaims.

Lemma analyze_counts (data : SimulationRecord) :
  let ts := transfer_completions (metrics data) in
  let r := analyze_transfers_by_node data in
  (forall n, getitem0 r.1 n = occurrences uploader ts n) /\
  (forall n, getitem0 r.2 n = occurrences downloader ts n) /\
  dom r.1 = list_to_set (map uploader ts) /\
  dom r.2 = list_to_set (map downloader ts).
Proof.
  intros ts r. subst r. unfold analyze_transfers_by_node. fold ts.
  destruct (fold_count_transfer ts ∅ ∅) as (Hu & Hd & Du & Dd).
  split; [|split; [|split]].
  - intros n. rewrite Hu. unfold getitem0. now rewrite lookup_empty.
  - intros n. rewrite Hd. unfold getitem0. now rewrite lookup_empty.
  - rewrite Du, dom_empty_L. apply (left_id_L ∅ (∪)).
  - rewrite Dd, dom_empty_L. apply (left_id_L ∅ (∪)).
Qed.

Lemma nodes_elem_of (data : SimulationRecord) (n : string) :
  n ∈ nodes (transfers_per_node data) <->
  exists t, t ∈ transfer_completions (metrics data) /\ (uploader t = n \/ downloader t = n).
Proof.
  unfold transfers_per_node.
  destruct (analyze_counts data) as (_ & _ & Du & Dd).
  destruct (analyze_transfers_by_node data) as [u d]; simpl in *.
  rewrite sorted_set_elem_of, elem_of_app, !elem_of_keys, Du, Dd.
  rewrite !elem_of_list_to_set, !list_elem_of_fmap. split.
  - intros [[t [-> Ht]]|[t [-> Ht]]]; exists t; auto.
  - intros [t [Ht [<-|<-]]]; [left|right]; exists t; auto.
Qed.

Lemma per_node_counts_spec (data : SimulationRecord) :
  let ts := transfer_completions (metrics data) in
  let p := transfers_per_node data in
  let counts := analyze_transfers_by_node data in
  StronglySorted str_lt (nodes p) /\
  (forall n, n ∈ nodes p <->
             exists t, t ∈ ts /\ (uploader t = n \/ downloader t = n)) /\
  uploads p = map (occurrences uploader ts) (nodes p) /\
  downloads p = map (occurrences downloader ts) (nodes p) /\
  (forall n, getitem0 counts.1 n = occurrences uploader ts n) /\
  (forall n, getitem0 counts.2 n = occurrences downloader ts n) /\
  dom counts.1 = list_to_set (map uploader ts) /\
  dom counts.2 = list_to_set (map downloader ts).
Proof.
  intros ts p counts.
  destruct (analyze_counts data) as (Hu & Hd & Du & Dd). fold ts counts in Hu, Hd, Du, Dd.
  split; [|split; [|split; [|split]]]; [| | | |tauto].
  - subst p. unfold transfers_per_node. destruct (analyze_transfers_by_node data).
    apply sorted_set_StronglySorted.
  - apply nodes_elem_of.
  - subst p. unfold transfers_per_node. fold counts. destruct counts as [u d]; simpl.
    apply map_ext. exact Hu.
  - subst p. unfold transfers_per_node. fold counts. destruct counts as [u d]; simpl.
    apply map_ext. exact Hd.
Qed.

End PerNodeClaims.

(** ** Strided slices *)

Section Slices.
Context {A : Type}.
Implicit Types (a : list A) (k skip i : nat).

Lemma slice_from_lookup k a : 0 < k ->
  forall skip i, slice_from k skip a !! i = a !! (skip + i * k).
Proof.
  intros Hk. induction a as [|x a IH]; intros skip i; simpl.
  - now rewrite !lookup_nil.
  - destruct skip as [|skip]; simpl.
    + destruct i as [|i]; simpl; [reflexivity|].
      rewrite IH. replace (k + i * k) with (S (k - 1 + i * k)) by lia. reflexivity.
    + apply IH.
Qed.

Lemma slice_step_lookup k a i : 0 < k -> slice_step k a !! i = a !! (i * k).
Proof. intros Hk. unfold slice_step. now rewrite slice_from_lookup. Qed.

Lemma slice_step_lt_length k a i : 0 < k ->
  i < length (slice_step k a) <-> i * k < length a.
Proof.
  intros Hk. rewrite <- !lookup_lt_is_Some. now rewrite slice_step_lookup.
Qed.

Lemma slice_step_length k a : 0 < k ->
  length (slice_step k a) = (length a + (k - 1)) / k.
Proof.
  intros Hk. set (n := length (slice_step k a)).
  assert (forall i, i < n <-> i * k < length a) as H
    by (intros; now apply slice_step_lt_length).
  set (q := (length a + (k - 1)) / k).
  assert (forall i, i < q <-> i * k < length a) as Hq.
  { intros i. subst q.
    pose proof (Nat.div_mod_eq (length a + (k - 1)) k) as E.
    pose proof (Nat.mod_upper_bound (length a + (k - 1)) k ltac:(lia)) as B.
    split; intros; nia. }
  destruct (Nat.lt_trichotomy n q) as [Hlt|[Heq|Hgt]]; [|exact Heq|].
  - apply Hq, H in Hlt. lia.
  - apply H, Hq in Hgt. lia.
Qed.

Lemma slice_step_length_eq k a (b : list A) :
  0 < k -> length a = length b -> length (slice_step k a) = length (slice_step k b).
Proof. intros Hk E. now rewrite (slice_step_length k a), (slice_step_length k b), E. Qed.

Lemma slice_step_nonempty k a : 0 < k -> 0 < length a -> 0 < length (slice_step k a).
Proof. intros Hk Ha. apply slice_step_lt_length; [assumption|]. simpl. exact Ha. Qed.

Lemma sample_step_pos (target_count n : nat) : 0 < sample_step target_count n.
Proof. unfold sample_step. lia. Qed.

End Slices.

(** ** Element-wise array operations *)

Section ArrayOps.
Implicit Types (a b used capacity : list Qc) (x y c : Qc).

Lemma rmapM_zip_ok (f : Qc -> Qc -> result Qc) (g : Qc -> Qc -> Qc) (h : Qc -> Qc) a b :
  (forall x y, f x (h y) = Ok (g x y)) ->
  rmapM (fun xy => f xy.1 xy.2) (zip a (map h b)) = Ok (zip_with g a b).
Proof.
  intros Hf. revert b. induction a as [|x a IH]; intros [|y b]; simpl; try reflexivity.
  now rewrite Hf, IH.
Qed.

Lemma np_add_aligned a b :
  length a = length b -> np_add a b = Ok (zip_with Qcplus a b).
Proof.
  intros E. unfold np_add, broadcast2. rewrite decide_True by exact E.
  rewrite <- (map_id b) at 1.
  now apply (rmapM_zip_ok (fun x y => Ok (x + y)%Qc) Qcplus (fun y => y)).
Qed.

Lemma Qc_max_floor c : (1 <= Qc_max c 1)%Qc.
Proof.
  unfold Qc_max. destruct (decide (c < 1)%Qc) as [H|H].
  - apply Qcle_refl.
  - now apply Qcnot_lt_le.
Qed.

Lemma Qc_max_floor_nonzero c : Qc_max c 1 <> 0%Qc.
Proof.
  intros E. pose proof (Qc_max_floor c) as H. rewrite E in H.
  revert H. apply Qclt_not_le. reflexivity.
Qed.

Lemma np_divide_floored used capacity :
  length used = length capacity ->
  np_divide used (np_maximum capacity 1%Qc)
  = Ok (zip_with (fun u c => u / Qc_max c 1)%Qc used capacity).
Proof.
  intros E. unfold np_divide, broadcast2, np_maximum.
  rewrite decide_True by now rewrite length_map.
  apply (rmapM_zip_ok divide_elem (fun u c => (u / Qc_max c 1)%Qc) (fun c => Qc_max c 1)).
  intros x y. unfold divide_elem. now rewrite decide_False by apply Qc_max_floor_nonzero.
Qed.

Lemma utilization_aligned used capacity :
  length used = length capacity -> 0 < length used ->
  utilization used capacity = Ok (mean_utilization used capacity).
Proof.
  intros E Hpos. unfold utilization. rewrite np_divide_floored by exact E. simpl.
  unfold np_mean, mean_utilization.
  set (ratio := zip_with _ used capacity).
  assert (length ratio = length used) as Hlen
    by (subst ratio; rewrite length_zip_with; lia).
  destruct ratio as [|r ratio]; simpl in *; [lia|].
  now rewrite <- Hlen.
Qed.

Lemma bandwidth_stats_aligned (raw : NpzFile) (times uu uc du dc : list Qc) :
  numeric raw bw_times = Some times ->
  numeric raw bw_upload_used = Some uu ->
  numeric raw bw_upload_capacity = Some uc ->
  numeric raw bw_download_used = Some du ->
  numeric raw bw_download_capacity = Some dc ->
  0 < length times ->
  length uu = length times -> length uc = length times ->
  length du = length times -> length dc = length times ->
  let k := Nat.max 1 (length times / 1000) in
  bandwidth_stats raw =
    Ok (mean_utilization (slice_step k uu) (slice_step k uc),
        mean_utilization (slice_step k du) (slice_step k dc)).
Proof.
  intros Ht Huu Huc Hdu Hdc Hpos Luu Luc Ldu Ldc k.
  unfold bandwidth_stats, contains, getitem.
  rewrite Ht, Huu, Huc, Hdu, Hdc. simpl.
  rewrite bool_decide_eq_true_2 by exact Hpos.
  fold (sample_step 1000 (length times)). change (Nat.max 1 (length times / 1000))
    with (sample_step 1000 (length times)) in k.
  pose proof (sample_step_pos 1000 (length times)) as Hk. fold k in Hk |- *.
  rewrite !utilization_aligned; simpl; try reflexivity.
  - apply slice_step_length_eq; [exact Hk|congruence].
  - apply slice_step_nonempty; [exact Hk|lia].
  - apply slice_step_length_eq; [exact Hk|congruence].
  - apply slice_step_nonempty; [exact Hk|lia].
Qed.

Lemma bandwidth_stats_absent (raw : NpzFile) :
  numeric raw bw_times = None \/ numeric raw bw_times = Some [] ->
  bandwidth_stats raw = Ok (0%Qc, 0%Qc).
Proof.
  intros [H|H]; unfold bandwidth_stats, contains, getitem; rewrite H; reflexivity.
Qed.

Lemma bandwidth_stats_total (raw : NpzFile) :
  aligned_bandwidth raw -> exists st, bandwidth_stats raw = Ok st.
Proof.
  intros Hal. destruct (numeric raw bw_times) as [[|t times]|] eqn:Ht.
  - rewrite bandwidth_stats_absent by auto. eauto.
  - destruct (Hal (t :: times) Ht ltac:(simpl; lia))
      as (uu & uc & du & dc & Huu & Huc & Hdu & Hdc & Luu & Luc & Ldu & Ldc).
    rewrite (bandwidth_stats_aligned raw (t :: times) uu uc du dc) by (assumption || (simpl; lia)).
    eauto.
  - rewrite bandwidth_stats_absent by auto. eauto.
Qed.

End ArrayOps.

(** ** Inversion of successful computations *)

Lemma rbind_ok {A B} (r : result A) (k : A -> result B) (b : B) :
  rbind r k = Ok b -> exists a, r = Ok a /\ k a = Ok b.
Proof. destruct r as [a|e]; simpl; [eauto|discriminate]. Qed.

Lemma getitem_ok (data : NpzFile) (k : num_key) (a : list Qc) :
  getitem data k = Ok a <-> numeric data k = Some a.
Proof.
  unfold getitem. destruct (numeric data k); split; intros H; inversion H; reflexivity.
Qed.

(** Splits a hypothesis [let! x := r in k = Ok b] into [r = Ok x] and
    [k x = Ok b], as often as possible. *)
Ltac ok_inv H :=
  repeat match type of H with
    | rbind _ _ = Ok _ =>
        let x := fresh "x" in let Hx := fresh "Hx" in
        apply rbind_ok in H as (x & Hx & H)
    end.

Lemma has_concurrency_true (is_parallel : bool) (raw : NpzFile) :
  has_concurrency is_parallel raw = true <->
  is_parallel = true /\ exists times, numeric raw sim_times = Some times /\ 0 < length times.
Proof.
  unfold has_concurrency, contains. destruct is_parallel; simpl.
  - destruct (numeric raw sim_times) as [a|]; simpl.
    + rewrite bool_decide_eq_true. split.
      * intros H. split; [reflexivity|]. eauto.
      * intros [_ (t & Ht & Hpos)]. now inversion Ht; subst.
    + split; [discriminate|]. intros [_ (t & Ht & _)]. discriminate.
  - split; [discriminate|]. intros [H _]. discriminate.
Qed.

(** ** Panel 1 *)

Section CumulativeLine.
Implicit Types (data : SimulationRecord) (fig : Figure) (ts : list Transfer).

(** The cumulative line for a list of completions, written out. *)
Lemma cumulative_series_drawn data fig :
  draw_figure data = Ok fig ->
  cumulative_series fig =
    zip (map (fun t => time t / Qc_of_Z 86400)%Qc (transfer_completions (metrics data)))
        (seq 1 (length (transfer_completions (metrics data)))).
Proof.
  intros H. unfold draw_figure in H. ok_inv H. inversion H; subst fig; clear H.
  unfold cumulative_series; simpl. unfold panel1 in Hx.
  destruct (transfer_completions (metrics data)) as [|t ts]; [now inversion Hx|].
  ok_inv Hx. inversion Hx; subst; simpl. now rewrite length_map.
Qed.

Lemma days_lt (x y : Qc) : (x < y)%Qc -> (x / Qc_of_Z 86400 < y / Qc_of_Z 86400)%Qc.
Proof. intros H. apply Qcmult_lt_compat_r; [reflexivity|exact H]. Qed.

Lemma zip_seq_lookup ts (f : Transfer -> Qc) (i start : nat) (t : Transfer) :
  ts !! i = Some t -> zip (map f ts) (seq start (length ts)) !! i = Some (f t, start + i).
Proof.
  revert i start. induction ts as [|t' ts IH]; intros [|i] start Ht; simpl in *;
    try discriminate.
  - inversion Ht. now rewrite Nat.add_0_r.
  - rewrite (IH i (S start) Ht). f_equal. f_equal. lia.
Qed.

Lemma zip_seq_fst ts (f : Transfer -> Qc) (start : nat) :
  (zip (map f ts) (seq start (length ts))).*1 = map f ts.
Proof. apply fst_zip. rewrite length_map, length_seq. lia. Qed.

Lemma zip_seq_snd ts (f : Transfer -> Qc) (start : nat) :
  (zip (map f ts) (seq start (length ts))).*2 = seq start (length ts).
Proof. apply snd_zip. rewrite length_map, length_seq. lia. Qed.

Lemma days_sorted ts :
  StronglySorted Qclt (map time ts) ->
  StronglySorted Qclt (map (fun t => time t / Qc_of_Z 86400)%Qc ts).
Proof.
  induction ts as [|t ts IH]; simpl; intros H; [constructor|].
  apply StronglySorted_inv in H as [Hs Hall]. constructor; [auto|].
  rewrite Forall_forall in Hall |- *. intros d Hd.
  apply list_elem_of_fmap in Hd as (t' & -> & Ht').
  apply days_lt, Hall, list_elem_of_fmap. eauto.
Qed.

End CumulativeLine.

(** ** Derived scalars *)

Section DerivedScalars.
Implicit Types (data : SimulationRecord) (x y : Qc).

Lemma seconds_per_year_value : seconds_per_year = Qc_of_Z 31557600.
Proof. apply Qc_is_canon. reflexivity. Qed.

Lemma truediv_nonzero x y : y <> 0%Qc -> truediv x y = Ok (x / y)%Qc.
Proof. intros H. unfold truediv. now rewrite decide_False. Qed.

Lemma Qc_zero_div y : (0 / y = 0)%Qc.
Proof. unfold Qcdiv. apply Qcmult_0_l. Qed.

Lemma Qc_pos_nonzero x : (0 < x)%Qc -> x <> 0%Qc.
Proof. intros H E. symmetry in E. revert E. now apply Qclt_not_eq. Qed.

Lemma avg_transfers_per_node_cases data :
  let n := Qc_of_Z (Z.of_nat (length (transfer_completions (metrics data)))) in
  let total_nodes := total_nodes (metadata data) in
  ((total_nodes <= 0)%Z -> avg_transfers_per_node data = Ok 0%Qc) /\
  ((0 < total_nodes)%Z -> avg_transfers_per_node data = Ok (n / Qc_of_Z total_nodes)%Qc).
Proof.
  intros n tn. unfold avg_transfers_per_node. fold tn. split; intros H.
  - now rewrite bool_decide_eq_false_2 by lia.
  - rewrite bool_decide_eq_true_2 by exact H. apply truediv_nonzero.
    apply Qc_pos_nonzero. rewrite <- Z2Qc_inj_0. exact (proj1 (Z2Qc_inj_lt 0 tn) H).
Qed.

Lemma transfers_per_year_cases data :
  let n := Qc_of_Z (Z.of_nat (length (transfer_completions (metrics data)))) in
  (~ (0 < sim_time_years data)%Qc -> transfers_per_year data = Ok 0%Qc) /\
  ((0 < sim_time_years data)%Qc -> transfers_per_year data = Ok (n / sim_time_years data)%Qc).
Proof.
  intros n. unfold transfers_per_year. split; intros H.
  - now rewrite bool_decide_eq_false_2 by exact H.
  - rewrite bool_decide_eq_true_2 by exact H. apply truediv_nonzero.
    now apply Qc_pos_nonzero.
Qed.

Lemma derived_rates_total data :
  exists a t, avg_transfers_per_node data = Ok a /\ transfers_per_year data = Ok t.
Proof.
  destruct (avg_transfers_per_node_cases data) as [Ha0 Ha1].
  destruct (transfers_per_year_cases data) as [Ht0 Ht1].
  destruct (decide (0 < total_nodes (metadata data))%Z);
    destruct (decide (0 < sim_time_years data)%Qc);
    eexists; eexists; split; first [apply Ha1; assumption | apply Ha0; lia | idtac];
    first [apply Ht1; assumption | apply Ht0; assumption].
Qed.

End DerivedScalars.

(** ** The loader *)

Section Loader.
Implicit Types (data : NpzFile) (w : World) (e : exn) (s name : string).

Lemma raises_only_ok {A} P (a : A) : raises_only P (Ok a).
Proof. intros e H. discriminate. Qed.

Lemma raises_only_bind {A B} P (r : result A) (k : A -> result B) :
  raises_only P r -> (forall a, raises_only P (k a)) -> raises_only P (rbind r k).
Proof.
  intros Hr Hk e. destruct r as [a|e']; simpl.
  - apply Hk.
  - intros H. inversion H; subst. now apply Hr.
Qed.

Lemma raises_only_rmapM {A B} P (f : A -> result B) (l : list A) :
  (forall x, raises_only P (f x)) -> raises_only P (rmapM f l).
Proof.
  intros Hf. induction l as [|x l IH]; simpl; [apply raises_only_ok|].
  apply raises_only_bind; [apply Hf|]. intros y.
  apply raises_only_bind; [apply IH|]. intros ys. apply raises_only_ok.
Qed.

Lemma getitem_raises data k : raises_only lookup_error (getitem data k).
Proof. intros e. unfold getitem. destruct (numeric data k); intros H; inversion H. exact I. Qed.

Lemma getitem_str_raises data k : raises_only lookup_error (getitem_str data k).
Proof. intros e. unfold getitem_str. destruct (text data k); intros H; inversion H. exact I. Qed.

Lemma item_raises {A} (a : list A) i : raises_only lookup_error (item a i).
Proof. intros e. unfold item. destruct (a !! i); intros H; inversion H. exact I. Qed.

Ltac raises_tac :=
  repeat first
    [ apply raises_only_ok
    | apply getitem_raises | apply getitem_str_raises | apply item_raises
    | apply raises_only_bind; [|intros ?]
    | apply raises_only_rmapM; intros ? ].

Lemma process_data_raises data : raises_only lookup_error (process_data data).
Proof.
  unfold process_data, read_metadata, read_transfer_completions, first_item.
  raises_tac. destruct (contains data transfer_times); raises_tac.
Qed.

Lemma read_transfer_completions_absent data :
  numeric data transfer_times = None \/ numeric data transfer_times = Some [] ->
  read_transfer_completions data = Ok [].
Proof.
  unfold read_transfer_completions, contains, getitem. now intros [-> | ->].
Qed.

(** [s + suffix] ends with [suffix]. *)
Lemma substring_all s : substring 0 (String.length s) s = s.
Proof. induction s as [|c s IH]; simpl; [reflexivity|]. now rewrite IH. Qed.

Lemma substring_append s suffix :
  substring (String.length s) (String.length suffix) (s +:+ suffix) = suffix.
Proof. induction s as [|c s IH]; simpl; [apply substring_all|exact IH]. Qed.

Lemma length_append s suffix :
  String.length (s +:+ suffix) = String.length s + String.length suffix.
Proof. induction s as [|c s IH]; simpl; [reflexivity|]. now rewrite IH. Qed.

Lemma endswith_append s suffix : endswith (s +:+ suffix) suffix = true.
Proof.
  unfold endswith. rewrite length_append.
  rewrite bool_decide_eq_true_2 by lia.
  replace (String.length s + String.length suffix - String.length suffix)
    with (String.length s) by lia.
  rewrite substring_append. simpl. apply String.eqb_refl.
Qed.

(** One attempt of [load_metrics] on an existing file. *)
Lemma load_attempt_found w name data :
  files w !! name = Some data ->
  (let* d := np_load name in lift (process_data d)) w = (process_data data, w).
Proof.
  intros H. unfold bind, np_load, lift. rewrite H. now destruct (process_data data).
Qed.

Lemma load_attempt_missing w name :
  files w !! name = None ->
  (let* d := np_load name in lift (process_data d)) w = (Raise (FileNotFoundError name), w).
Proof. intros H. unfold bind, np_load. now rewrite H. Qed.

Lemma load_metrics_found w name data :
  files w !! name = Some data -> load_metrics name w = (process_data data, w).
Proof.
  intros H. unfold load_metrics, try_except. rewrite (load_attempt_found w name data H).
  destruct (process_data data) as [r|e] eqn:E; [reflexivity|].
  pose proof (process_data_raises data e E) as He.
  destruct e; simpl in He; try contradiction; reflexivity.
Qed.

Lemma load_metrics_retry_found w name data :
  files w !! name = None -> files w !! retry_name name = Some data ->
  load_metrics name w = (process_data data, w).
Proof.
  intros H1 H2. unfold load_metrics, try_except at 1.
  rewrite (load_attempt_missing w name H1). fold (retry_name name).
  unfold try_except. rewrite (load_attempt_found w _ data H2).
  destruct (process_data data) as [r|e] eqn:E; [reflexivity|].
  pose proof (process_data_raises data e E) as He.
  destruct e; simpl in He; try contradiction; reflexivity.
Qed.

Lemma load_metrics_missing w name :
  files w !! name = None -> files w !! retry_name name = None ->
  load_metrics name w =
    (Raise (SystemExit 1),
     {| files := files w;
        log := log w ++ [(ERROR, not_found_message (retry_name name))];
        images := images w |}).
Proof.
  intros H1 H2. unfold load_metrics, try_except at 1.
  rewrite (load_attempt_missing w name H1). fold (retry_name name).
  unfold try_except. rewrite (load_attempt_missing w _ H2). reflexivity.
Qed.

End Loader.

(** ** [main] on a missing input *)

Section MissingInput.
Implicit Types (w : World) (filename plot_name : string).

Lemma retry_name_missing w filename :
  files w !! filename = None -> files w !! (filename +:+ ".npz") = None ->
  files w !! retry_name filename = None.
Proof. intros H1 H2. unfold retry_name. now destruct (endswith filename ".npz"). Qed.

Lemma run_missing w filename plot_name :
  filename <> "" ->
  files w !! filename = None -> files w !! (filename +:+ ".npz") = None ->
  run filename plot_name w = (1%Z, after_not_found w filename).
Proof.
  intros Hne H1 H2. pose proof (retry_name_missing w filename H1 H2) as H3.
  unfold run, main. rewrite bool_decide_eq_false_2 by exact Hne.
  unfold bind at 1. unfold bind at 1. simpl.
  unfold bind at 1. simpl. unfold bind at 1. simpl.
  unfold try_except. unfold bind at 1.
  rewrite load_metrics_missing by assumption. simpl.
  unfold after_not_found. now rewrite <- !app_assoc.
Qed.

End MissingInput.

(** ** Rendering and the mode flag *)

Section ModeFlag.
Implicit Types (data : SimulationRecord) (fig : Figure) (raw : NpzFile).

Lemma has_concurrency_single raw : has_concurrency false raw = false.
Proof. reflexivity. Qed.

Lemma panel1_single data p :
  panel1 (with_mode true data) = Ok p ->
  panel1 (with_mode false data) = Ok (without_overlay <$> p).
Proof.
  unfold panel1; simpl. destruct (transfer_completions (metrics data)) as [|t ts].
  - intros H. now inversion H.
  - intros H. ok_inv H. inversion H; subst p; clear H. rewrite Hx. simpl.
    reflexivity.
Qed.

Lemma draw_figure_single data fig :
  draw_figure (with_mode true data) = Ok fig ->
  draw_figure (with_mode false data) = Ok (as_single_mode fig).
Proof.
  unfold draw_figure; simpl. intros H. ok_inv H. inversion H; subst fig; clear H.
  rewrite (panel1_single data x Hx). simpl.
  change (avg_transfers_per_node (with_mode false data))
    with (avg_transfers_per_node (with_mode true data)).
  change (transfers_per_year (with_mode false data))
    with (transfers_per_year (with_mode true data)).
  rewrite Hx0, Hx1, Hx2. simpl. reflexivity.
Qed.

Lemma draw_figure_mode data fig :
  draw_figure data = Ok fig ->
  suptitle_mode_name fig = (if parallel_enabled (metadata data) then "Parallel" else "Single") /\
  (parallel_enabled (metadata data) = false ->
   forall p, ax1 fig = Some p -> p1_overlay p = None).
Proof.
  unfold draw_figure. intros H. ok_inv H. inversion H; subst fig; clear H. simpl.
  split; [reflexivity|]. intros Hsingle p Hp. subst x.
  unfold panel1 in Hx. rewrite Hsingle in Hx.
  destruct (transfer_completions (metrics data)); [discriminate|].
  ok_inv Hx. inversion Hx; subst p; simpl.
  unfold concurrency_overlay in Hx5. rewrite has_concurrency_single in Hx5. now inversion Hx5.
Qed.

Lemma plot_check_seq {A} (x : list A) (start : nat) :
  plot_check x (seq start (length x)) = Ok tt.
Proof. unfold plot_check. now rewrite decide_True by now rewrite length_seq. Qed.

Lemma np_max_nonempty (a : list Qc) : 0 < length a -> exists m, np_max a = Ok m.
Proof. destruct a; simpl; [lia|eauto]. Qed.

Lemma np_mean_nonempty (a : list Qc) : 0 < length a -> exists m, np_mean a = Ok m.
Proof. destruct a; simpl; [lia|eauto]. Qed.

(** The sum of the two down-sampled concurrency series of an aligned
    group, for either target count. *)
Lemma concurrent_data_aligned raw times target_count :
  aligned_concurrency raw ->
  numeric raw sim_times = Some times -> 0 < length times ->
  let k := sample_step target_count (length times) in
  exists ups downs total,
    getitem raw sim_uploads = Ok ups /\ getitem raw sim_downloads = Ok downs /\
    np_add (slice_step k ups) (slice_step k downs) = Ok total /\
    length total = length (slice_step k times) /\ 0 < length total.
Proof.
  intros Hal Ht Hpos k. destruct (Hal times Ht Hpos) as (ups & downs & Hu & Hd & Lu & Ld).
  pose proof (sample_step_pos target_count (length times)) as Hk. fold k in Hk.
  assert (length (slice_step k ups) = length (slice_step k times)) as Eu
    by now apply slice_step_length_eq.
  assert (length (slice_step k downs) = length (slice_step k times)) as Ed
    by now apply slice_step_length_eq.
  exists ups, downs, (zip_with Qcplus (slice_step k ups) (slice_step k downs)).
  split; [now apply getitem_ok|]. split; [now apply getitem_ok|].
  split; [apply np_add_aligned; congruence|].
  assert (length (zip_with Qcplus (slice_step k ups) (slice_step k downs))
          = length (slice_step k times)) as E by (rewrite length_zip_with; lia).
  split; [exact E|]. rewrite E. now apply slice_step_nonempty.
Qed.

Lemma concurrency_overlay_aligned is_parallel raw :
  aligned_concurrency raw -> exists ov, concurrency_overlay is_parallel raw = Ok ov.
Proof.
  intros Hal. unfold concurrency_overlay.
  destruct (has_concurrency is_parallel raw) eqn:Hc; [|eauto].
  apply has_concurrency_true in Hc as (_ & times & Ht & Hpos).
  destruct (concurrent_data_aligned raw times 2000 Hal Ht Hpos)
    as (ups & downs & total & Hu & Hd & Hadd & Hlen & Htot).
  rewrite (proj2 (getitem_ok raw sim_times times) Ht). simpl.
  rewrite Hu, Hd. simpl. rewrite Hadd. simpl.
  unfold plot_check, np_div_scalar. rewrite decide_True by (rewrite length_map; lia). simpl.
  rewrite bool_decide_eq_true_2 by exact Htot.
  destruct (np_max_nonempty total Htot) as [m ->]. simpl. eauto.
Qed.

Lemma concurrent_stats_aligned is_parallel raw :
  aligned_concurrency raw -> exists st, concurrent_stats is_parallel raw = Ok st.
Proof.
  intros Hal. unfold concurrent_stats.
  destruct (has_concurrency is_parallel raw) eqn:Hc; [|eauto].
  apply has_concurrency_true in Hc as (_ & times & Ht & Hpos).
  destruct (concurrent_data_aligned raw times 1000 Hal Ht Hpos)
    as (ups & downs & total & Hu & Hd & Hadd & Hlen & Htot).
  rewrite (proj2 (getitem_ok raw sim_times times) Ht). simpl.
  rewrite Hu, Hd. simpl. rewrite Hadd. simpl.
  rewrite !bool_decide_eq_true_2 by exact Htot.
  destruct (np_max_nonempty total Htot) as [m ->].
  destruct (np_mean_nonempty total Htot) as [a ->]. simpl. eauto.
Qed.

Lemma draw_figure_parallel data fig' :
  aligned_concurrency (raw_data data) ->
  draw_figure (with_mode false data) = Ok fig' ->
  exists fig, draw_figure (with_mode true data) = Ok fig /\ fig' = as_single_mode fig.
Proof.
  intros Hal H.
  assert (exists fig, draw_figure (with_mode true data) = Ok fig) as [fig Hfig].
  { unfold draw_figure in H |- *. simpl in H |- *. ok_inv H.
    change (avg_transfers_per_node (with_mode true data))
      with (avg_transfers_per_node (with_mode false data)).
    change (transfers_per_year (with_mode true data))
      with (transfers_per_year (with_mode false data)).
    rewrite Hx0, Hx1, Hx2.
    destruct (concurrent_stats_aligned true (raw_data data) Hal) as [st ->].
    assert (exists p, panel1 (with_mode true data) = Ok p) as [p ->]; [|simpl; eauto].
    unfold panel1 in Hx |- *. simpl in Hx |- *.
    destruct (transfer_completions (metrics data)) as [|t ts]; [eauto|].
    rewrite plot_check_seq. simpl.
    destruct (concurrency_overlay_aligned true (raw_data data) Hal) as [ov ->].
    simpl. eauto. }
  exists fig. split; [exact Hfig|].
  apply draw_figure_single in Hfig. rewrite H in Hfig. now inversion Hfig.
Qed.

(** With both optional groups aligned the figure is drawn, in either
    mode. *)
Lemma draw_figure_total data :
  aligned_concurrency (raw_data data) -> aligned_bandwidth (raw_data data) ->
  exists fig, draw_figure data = Ok fig.
Proof.
  intros Hc Hb. unfold draw_figure.
  assert (exists p, panel1 data = Ok p) as [p ->].
  { unfold panel1. destruct (transfer_completions (metrics data)) as [|t ts]; [eauto|].
    rewrite plot_check_seq. simpl.
    destruct (concurrency_overlay_aligned (parallel_enabled (metadata data)) (raw_data data) Hc)
      as [ov ->].
    simpl. eauto. }
  destruct (derived_rates_total data) as (a & t & -> & ->).
  destruct (bandwidth_stats_total (raw_data data) Hb) as [bw ->].
  destruct (concurrent_stats_aligned (parallel_enabled (metadata data)) (raw_data data) Hc)
    as [st ->].
  simpl. eauto.
Qed.

End ModeFlag.

(** ** The concurrency overlay *)

Section OverlayFacts.
Implicit Types (data : SimulationRecord) (raw : NpzFile) (a : list Qc) (x y m : Qc).

Lemma Qc_max_l x y : (x <= Qc_max x y)%Qc.
Proof.
  unfold Qc_max. destruct (decide (x < y)%Qc); [now apply Qclt_le_weak|apply Qcle_refl].
Qed.

Lemma Qc_max_r x y : (y <= Qc_max x y)%Qc.
Proof.
  unfold Qc_max. destruct (decide (x < y)%Qc); [apply Qcle_refl|now apply Qcnot_lt_le].
Qed.

Lemma Qc_max_cases x y : Qc_max x y = x \/ Qc_max x y = y.
Proof. unfold Qc_max. destruct (decide (x < y)%Qc); auto. Qed.

Lemma fold_left_Qc_max a : forall m0,
  (m0 <= fold_left Qc_max a m0)%Qc /\
  (forall x, x ∈ a -> (x <= fold_left Qc_max a m0)%Qc) /\
  (fold_left Qc_max a m0 = m0 \/ fold_left Qc_max a m0 ∈ a).
Proof.
  induction a as [|y a IH]; intros m0; simpl.
  - split; [apply Qcle_refl|]. split; [intros x Hx; inversion Hx|auto].
  - destruct (IH (Qc_max m0 y)) as (H1 & H2 & H3). split; [|split].
    + eapply Qcle_trans; [apply Qc_max_l|exact H1].
    + intros x Hx. apply elem_of_cons in Hx as [->|Hx]; [|now apply H2].
      eapply Qcle_trans; [apply Qc_max_r|exact H1].
    + destruct H3 as [H3|H3]; [|right; now apply list_elem_of_further].
      rewrite H3. destruct (Qc_max_cases m0 y) as [->| ->]; [auto|].
      right. apply list_elem_of_here.
Qed.

Lemma np_max_spec a m :
  np_max a = Ok m -> m ∈ a /\ forall x, x ∈ a -> (x <= m)%Qc.
Proof.
  destruct a as [|y a]; simpl; [discriminate|]. intros H. inversion H; subst m; clear H.
  destruct (fold_left_Qc_max a y) as (H1 & H2 & H3). split.
  - destruct H3 as [-> |H3]; [apply list_elem_of_here|now apply list_elem_of_further].
  - intros x Hx. apply elem_of_cons in Hx as [->|Hx]; auto.
Qed.

Lemma draw_figure_ax1 data fig : draw_figure data = Ok fig -> panel1 data = Ok (ax1 fig).
Proof. unfold draw_figure. intros H. ok_inv H. inversion H; subst fig. exact Hx. Qed.

Lemma panel1_overlay data p :
  panel1 data = Ok (Some p) ->
  transfer_completions (metrics data) <> [] /\
  concurrency_overlay (parallel_enabled (metadata data)) (raw_data data) = Ok (p1_overlay p).
Proof.
  unfold panel1. destruct (transfer_completions (metrics data)) as [|t ts]; [discriminate|].
  intros H. ok_inv H. inversion H; subst p; simpl. split; [discriminate|assumption].
Qed.

Lemma concurrency_overlay_some is_parallel raw ov :
  concurrency_overlay is_parallel raw = Ok (Some ov) ->
  has_concurrency is_parallel raw = true /\
  length (ov_sim_times ov) = length (ov_total_concurrent ov) /\
  0 < length (ov_total_concurrent ov) /\
  ov_max_concurrent ov ∈ ov_total_concurrent ov /\
  forall x, x ∈ ov_total_concurrent ov -> (x <= ov_max_concurrent ov)%Qc.
Proof.
  unfold concurrency_overlay. destruct (has_concurrency is_parallel raw) eqn:Hc; [|discriminate].
  intros H. ok_inv H. inversion H; subst ov; clear H. simpl.
  apply has_concurrency_true in Hc as (_ & times & Ht & Hpos).
  apply getitem_ok in Hx. rewrite Ht in Hx. inversion Hx; subst x; clear Hx.
  unfold plot_check in Hx3.
  destruct (decide (length (np_div_scalar (slice_step (sample_step 2000 (length times)) times)
                              seconds_per_day) = length x2)) as [E|]; [|discriminate].
  assert (0 < length x2) as Hlen.
  { rewrite <- E. unfold np_div_scalar. rewrite length_map.
    apply slice_step_nonempty; [apply sample_step_pos|exact Hpos]. }
  rewrite bool_decide_eq_true_2 in Hx4 by exact Hlen.
  apply np_max_spec in Hx4 as [Hin Hub]. auto.
Qed.

Lemma concurrency_overlay_none is_parallel raw :
  concurrency_overlay is_parallel raw = Ok None -> has_concurrency is_parallel raw = false.
Proof.
  unfold concurrency_overlay. destruct (has_concurrency is_parallel raw); [|reflexivity].
  intros H. ok_inv H. discriminate.
Qed.

End OverlayFacts.

(** ** Which series the renderer reads *)

Section SeriesRead.
Implicit Types (data : SimulationRecord) (raw : NpzFile).

Lemma bandwidth_stats_ext raw (raw' : NpzFile) :
  numeric raw' bw_times = numeric raw bw_times ->
  numeric raw' bw_upload_used = numeric raw bw_upload_used ->
  numeric raw' bw_upload_capacity = numeric raw bw_upload_capacity ->
  numeric raw' bw_download_used = numeric raw bw_download_used ->
  numeric raw' bw_download_capacity = numeric raw bw_download_capacity ->
  bandwidth_stats raw' = bandwidth_stats raw.
Proof.
  intros H1 H2 H3 H4 H5. unfold bandwidth_stats, contains, getitem.
  now rewrite H1, H2, H3, H4, H5.
Qed.

Lemma concurrency_ext is_parallel raw (raw' : NpzFile) :
  numeric raw' sim_times = numeric raw sim_times ->
  numeric raw' sim_uploads = numeric raw sim_uploads ->
  numeric raw' sim_downloads = numeric raw sim_downloads ->
  concurrency_overlay is_parallel raw' = concurrency_overlay is_parallel raw /\
  concurrent_stats is_parallel raw' = concurrent_stats is_parallel raw.
Proof.
  intros H1 H2 H3.
  unfold concurrency_overlay, concurrent_stats, has_concurrency, contains, getitem.
  now rewrite H1, H2, H3.
Qed.

Lemma concurrency_single raw :
  concurrency_overlay false raw = Ok None /\ concurrent_stats false raw = Ok None.
Proof. split; reflexivity. Qed.

(** The exception of the two concurrency passes when [sim_uploads] or
    [sim_downloads] is absent. *)
Lemma concurrency_group_incomplete raw times :
  numeric raw sim_times = Some times -> 0 < length times ->
  numeric raw sim_uploads = None \/ numeric raw sim_downloads = None ->
  let k := match numeric raw sim_uploads with None => sim_uploads | Some _ => sim_downloads end in
  concurrency_overlay true raw = Raise (KeyError (NumKey k)) /\
  concurrent_stats true raw = Raise (KeyError (NumKey k)).
Proof.
  intros Ht Hpos Habs k. subst k.
  assert (has_concurrency true raw = true) as Hc by (apply has_concurrency_true; eauto).
  unfold concurrency_overlay, concurrent_stats. rewrite Hc. unfold getitem. rewrite Ht. simpl.
  destruct (numeric raw sim_uploads) as [ups|]; simpl; [|split; reflexivity].
  destruct Habs as [H|H]; [discriminate|]. now rewrite H.
Qed.

Lemma bandwidth_group_incomplete raw times :
  numeric raw bw_times = Some times -> 0 < length times ->
  numeric raw bw_upload_used = None \/ numeric raw bw_upload_capacity = None \/
  numeric raw bw_download_used = None \/ numeric raw bw_download_capacity = None ->
  exists k,
    k ∈ [bw_upload_used; bw_upload_capacity; bw_download_used; bw_download_capacity] /\
    numeric raw k = None /\
    bandwidth_stats raw = Raise (KeyError (NumKey k)).
Proof.
  intros Ht Hpos Habs. unfold bandwidth_stats, contains, getitem. rewrite Ht. simpl.
  rewrite bool_decide_eq_true_2 by exact Hpos.
  destruct (numeric raw bw_upload_used) eqn:E1; simpl.
  2:{ exists bw_upload_used. split; [|auto]. apply list_elem_of_here. }
  destruct (numeric raw bw_upload_capacity) eqn:E2; simpl.
  2:{ exists bw_upload_capacity. split; [|auto]. apply list_elem_of_further, list_elem_of_here. }
  destruct (numeric raw bw_download_used) eqn:E3; simpl.
  2:{ exists bw_download_used. split; [|auto].
      do 2 apply list_elem_of_further. apply list_elem_of_here. }
  destruct (numeric raw bw_download_capacity) eqn:E4; simpl.
  2:{ exists bw_download_capacity. split; [|auto].
      do 3 apply list_elem_of_further. apply list_elem_of_here. }
  destruct Habs as [H|[H|[H|H]]]; discriminate.
Qed.

Lemma draw_figure_parts data fig :
  draw_figure data = Ok fig ->
  (exists p, panel1 data = Ok p) /\
  (exists st, bandwidth_stats (raw_data data) = Ok st) /\
  (exists st, concurrent_stats (parallel_enabled (metadata data)) (raw_data data) = Ok st).
Proof. unfold draw_figure. intros H. ok_inv H. eauto 10. Qed.

End SeriesRead.

(** ** The down-sampled passes on a present concurrency group *)

Section SamplingPasses.
Implicit Types (data : SimulationRecord) (raw : NpzFile) (times ups downs : list Qc).

(** The sum of two down-sampled series, element by element. *)
Lemma sampled_sum_lookup k ups downs i u d :
  0 < k -> ups !! (i * k) = Some u -> downs !! (i * k) = Some d ->
  zip_with Qcplus (slice_step k ups) (slice_step k downs) !! i = Some (u + d)%Qc.
Proof.
  intros Hk Hu Hd. rewrite lookup_zip_with, !slice_step_lookup by exact Hk.
  now rewrite Hu, Hd.
Qed.

Lemma sampled_sum_length k times ups downs :
  0 < k -> length ups = length times -> length downs = length times ->
  length (zip_with Qcplus (slice_step k ups) (slice_step k downs))
  = length (slice_step k times).
Proof.
  intros Hk Lu Ld. rewrite length_zip_with.
  rewrite (slice_step_length_eq k ups times), (slice_step_length_eq k downs times) by assumption.
  lia.
Qed.

(** Lines 146-180 on a present, aligned group: the overlay is built from
    the samples taken with the stride for target count 2000. *)
Lemma concurrency_overlay_runs raw times ups downs :
  numeric raw sim_times = Some times -> 0 < length times ->
  numeric raw sim_uploads = Some ups -> numeric raw sim_downloads = Some downs ->
  length ups = length times -> length downs = length times ->
  let k := sample_step 2000 (length times) in
  let total := zip_with Qcplus (slice_step k ups) (slice_step k downs) in
  exists m,
    np_max total = Ok m /\
    concurrency_overlay true raw =
      Ok (Some {| ov_sim_times := np_div_scalar (slice_step k times) seconds_per_day;
                  ov_total_concurrent := total;
                  ov_max_concurrent := m |}).
Proof.
  intros Ht Hpos Hu Hd Lu Ld k total.
  pose proof (sample_step_pos 2000 (length times)) as Hk. fold k in Hk.
  assert (length total = length (slice_step k times)) as Hlen
    by now apply sampled_sum_length.
  assert (0 < length total) as Htot
    by (rewrite Hlen; now apply slice_step_nonempty).
  destruct (np_max_nonempty total Htot) as [m Hm]. exists m. split; [exact Hm|].
  unfold concurrency_overlay.
  rewrite (proj2 (has_concurrency_true true raw)) by eauto.
  unfold getitem. rewrite Ht, Hu, Hd. simpl. fold k.
  rewrite np_add_aligned by (rewrite !(slice_step_length k) by exact Hk; congruence).
  simpl. fold total.
  unfold plot_check, np_div_scalar. rewrite decide_True by (rewrite length_map; lia). simpl.
  rewrite bool_decide_eq_true_2 by exact Htot. rewrite Hm. reflexivity.
Qed.

(** Lines 232-244 on a present, aligned group: the numbers of the
    concurrency text are taken over the stride for target count 1000. *)
Lemma concurrent_stats_runs raw times ups downs :
  numeric raw sim_times = Some times -> 0 < length times ->
  numeric raw sim_uploads = Some ups -> numeric raw sim_downloads = Some downs ->
  length ups = length times -> length downs = length times ->
  let k := sample_step 1000 (length times) in
  let concurrent_data := zip_with Qcplus (slice_step k ups) (slice_step k downs) in
  exists m avg,
    np_max concurrent_data = Ok m /\ np_mean concurrent_data = Ok avg /\
    concurrent_stats true raw = Ok (Some (py_int m, avg)).
Proof.
  intros Ht Hpos Hu Hd Lu Ld k total.
  pose proof (sample_step_pos 1000 (length times)) as Hk. fold k in Hk.
  assert (length total = length (slice_step k times)) as Hlen
    by now apply sampled_sum_length.
  assert (0 < length total) as Htot
    by (rewrite Hlen; now apply slice_step_nonempty).
  destruct (np_max_nonempty total Htot) as [m Hm].
  destruct (np_mean_nonempty total Htot) as [avg Havg].
  exists m, avg. split; [exact Hm|]. split; [exact Havg|].
  unfold concurrent_stats.
  rewrite (proj2 (has_concurrency_true true raw)) by eauto.
  unfold getitem. rewrite Ht, Hu, Hd. simpl. fold k.
  rewrite np_add_aligned by (rewrite !(slice_step_length k) by exact Hk; congruence).
  simpl. fold total.
  rewrite !bool_decide_eq_true_2 by exact Htot. rewrite Hm, Havg. reflexivity.
Qed.

Lemma concurrent_stats_none is_parallel raw :
  concurrent_stats is_parallel raw = Ok None -> has_concurrency is_parallel raw = false.
Proof.
  unfold concurrent_stats. destruct (has_concurrency is_parallel raw); [|reflexivity].
  intros H. ok_inv H. discriminate.
Qed.

(** In a figure drawn in parallel mode from a record with a transfer and a
    non-empty [sim_times], panel 1 carries the overlay that
    [concurrency_overlay] computes. *)
Lemma draw_figure_parallel_overlay data fig times :
  draw_figure data = Ok fig ->
  parallel_enabled (metadata data) = true ->
  transfer_completions (metrics data) <> [] ->
  numeric (raw_data data) sim_times = Some times -> 0 < length times ->
  exists p ov,
    ax1 fig = Some p /\ p1_overlay p = Some ov /\
    concurrency_overlay true (raw_data data) = Ok (Some ov).
Proof.
  intros Hd Hpar Hne Ht Hpos. apply draw_figure_ax1 in Hd.
  assert (has_concurrency true (raw_data data) = true) as Hc
    by (apply has_concurrency_true; eauto).
  destruct (ax1 fig) as [p|].
  - apply panel1_overlay in Hd as [_ Hco]. rewrite Hpar in Hco.
    destruct (p1_overlay p) as [ov|] eqn:Hov; [eauto|].
    apply concurrency_overlay_none in Hco. congruence.
  - unfold panel1 in Hd. destruct (transfer_completions (metrics data)); [contradiction|].
    ok_inv Hd. discriminate.
Qed.

(** In the same situation the numbers of the concurrency text have been
    computed. *)
Lemma draw_figure_parallel_stats data fig times :
  draw_figure data = Ok fig ->
  parallel_enabled (metadata data) = true ->
  numeric (raw_data data) sim_times = Some times -> 0 < length times ->
  exists stats, concurrent_stats true (raw_data data) = Ok (Some stats).
Proof.
  intros Hd Hpar Ht Hpos.
  destruct (draw_figure_parts data fig Hd) as (_ & _ & [st Hst]). rewrite Hpar in Hst.
  destruct st as [stats|]; [eauto|].
  apply concurrent_stats_none in Hst.
  rewrite (proj2 (has_concurrency_true true (raw_data data))) in Hst by eauto. discriminate.
Qed.

(** The statistics panel is made of the metadata and the number of
    transfers only: it is the same over any other container. *)
Lemma draw_figure_ax3_raw data (raw' : NpzFile) fig (fig' : Figure) :
  draw_figure data = Ok fig ->
  draw_figure (with_raw raw' data) = Ok fig' ->
  ax3 fig' = ax3 fig.
Proof.
  unfold draw_figure. intros H H'. ok_inv H. ok_inv H'.
  inversion H; subst fig. inversion H'; subst fig'. simpl.
  change (avg_transfers_per_node (with_raw raw' data)) with (avg_transfers_per_node data) in *.
  change (transfers_per_year (with_raw raw' data)) with (transfers_per_year data) in *.
  change (sim_time_years (with_raw raw' data)) with (sim_time_years data).
  f_equal; congruence.
Qed.

End SamplingPasses.

(** ** A complete run *)

(** On the sample artifact, given without its extension, the run returns
    status 0 and writes the image. *)
Lemma sample_run_succeeds :
  (run "run" "plot.png" sample_world).1 = 0%Z /\
  is_Some (images (run "run" "plot.png" sample_world).2 !! "plot.png") /\
  length (log (run "run" "plot.png" sample_world).2) = 8.
Proof. vm_compute. split; [reflexivity|]. split; [eauto|reflexivity]. Qed.

(** * The claims of the specification *)

(** C1.  The per-node aggregation is one left-to-right pass over
    [transfer_completions]; the node list of panel 2 is strictly increasing
    in the lexical order and holds exactly the ids that occur as uploader or
    as downloader; the two count lists are aligned to it and give, for each
    node, the number of transfers it uploaded (downloaded); an id that was
    never seen reads as zero in either mapping.  For the three transfers
    A->B, B->A, A->C the mappings are {A:2, B:1} and {B:1, A:1, C:1} and the
    node list is [A, B, C]. *)
Theorem per_node_aggregation :
  (forall data : SimulationRecord,
      let ts := transfer_completions (metrics data) in
      let p := transfers_per_node data in
      let counts := analyze_transfers_by_node data in
      counts = fold_left count_transfer ts (∅, ∅) /\
      StronglySorted str_lt (nodes p) /\
      (forall n, n ∈ nodes p <->
                 exists t, t ∈ ts /\ (uploader t = n \/ downloader t = n)) /\
      uploads p = map (occurrences uploader ts) (nodes p) /\
      downloads p = map (occurrences downloader ts) (nodes p) /\
      length (uploads p) = length (nodes p) /\
      length (downloads p) = length (nodes p) /\
      (forall n, getitem0 counts.1 n = occurrences uploader ts n) /\
      (forall n, getitem0 counts.2 n = occurrences downloader ts n) /\
      (forall n, n ∉ nodes p -> getitem0 counts.1 n = 0 /\ getitem0 counts.2 n = 0)) /\
  (forall (md : Metadata) (raw : NpzFile) (bw st : string) (t0 t1 t2 d0 d1 d2 : Qc),
      let data :=
        {| metadata := md;
           metrics :=
             {| transfer_completions :=
                  [ {| time := t0; transfer_type := "x"; duration := d0;
                       uploader := "A"; downloader := "B" |};
                    {| time := t1; transfer_type := "x"; duration := d1;
                       uploader := "B"; downloader := "A" |};
                    {| time := t2; transfer_type := "x"; duration := d2;
                       uploader := "A"; downloader := "C" |} ];
                bandwidth_snapshots := bw;
                simultaneous_transfers := st |};
           raw_data := raw |} in
      analyze_transfers_by_node data =
        ({["A" := 2; "B" := 1]}, {["B" := 1; "A" := 1; "C" := 1]}) /\
      transfers_per_node data =
        {| nodes := ["A"; "B"; "C"]; uploads := [2; 1; 0]; downloads := [1; 1; 1] |}).
Proof.
  split.
  - intros data ts p counts.
    destruct (per_node_counts_spec data) as (Hs & Hin & Hup & Hdown & Hu & Hd & _ & _).
    fold ts p counts in Hs, Hin, Hup, Hdown, Hu, Hd.
    split; [reflexivity|].
    split; [exact Hs|]. split; [exact Hin|]. split; [exact Hup|]. split; [exact Hdown|].
    split; [rewrite Hup; apply length_map|]. split; [rewrite Hdown; apply length_map|].
    split; [exact Hu|]. split; [exact Hd|].
    intros n Hn. rewrite Hu, Hd.
    split; apply occurrences_unseen; intros t Ht Heq; apply Hn, Hin; eauto.
  - intros. split; vm_compute; reflexivity.
Qed.

Lemma per_node_aggregation_witness :
  ("D" ∉ nodes (transfers_per_node sample_record)) /\
  getitem0 (analyze_transfers_by_node sample_record).1 "D" = 0 /\
  getitem0 (analyze_transfers_by_node sample_record).2 "D" = 0.
Proof.
  assert ("D" ∉ nodes (transfers_per_node sample_record)) as Hn.
  { assert (nodes (transfers_per_node sample_record) = ["A"; "B"; "C"]) as ->
      by (vm_compute; reflexivity).
    repeat (apply not_elem_of_cons; split; [discriminate|]). apply not_elem_of_nil. }
  split; [exact Hn|].
  destruct (proj1 per_node_aggregation sample_record)
    as (_ & _ & _ & _ & _ & _ & _ & _ & _ & H).
  exact (H "D" Hn).
Defined.

(** C2, as the code has it.  The loader tests the presence of
    [transfer_times] only.  When that series is absent (or present and
    empty) the loader does not raise on the transfer series, whichever of
    the other four are absent, and [transfer_completions] is the empty
    sequence: with readable metadata the record is built. *)
Theorem absent_transfer_times_tolerated (data : NpzFile) (md : Metadata) :
  read_metadata data = Ok md ->
  numeric data transfer_times = None \/ numeric data transfer_times = Some [] ->
  process_data data =
    Ok {| metadata := md;
          metrics := {| transfer_completions := [];
                        bandwidth_snapshots := "use_raw_data";
                        simultaneous_transfers := "use_raw_data" |};
          raw_data := data |}.
Proof.
  intros Hmd Habs. unfold process_data.
  rewrite Hmd, (read_transfer_completions_absent data Habs). reflexivity.
Qed.

Lemma absent_transfer_times_tolerated_witness :
  exists md,
    read_metadata npz_without_transfer_times = Ok md /\
    numeric npz_without_transfer_times transfer_times = None /\
    process_data npz_without_transfer_times =
      Ok {| metadata := md;
            metrics := {| transfer_completions := [];
                          bandwidth_snapshots := "use_raw_data";
                          simultaneous_transfers := "use_raw_data" |};
            raw_data := npz_without_transfer_times |}.
Proof.
  eexists. split; [reflexivity|]. split; [reflexivity|].
  apply absent_transfer_times_tolerated; [reflexivity|left; reflexivity].
Defined.

(** C2, as stated, fails: with readable metadata, [transfer_times]
    present and non-empty and the single series [uploaders] absent, the
    loader raises [KeyError] instead of substituting an empty sequence. *)
Lemma absent_uploaders_raises :
  (exists md, read_metadata npz_without_uploaders = Ok md) /\
  text npz_without_uploaders uploaders = None /\
  process_data npz_without_uploaders = Raise (KeyError (StrKey uploaders)) /\
  ~ (exists r, process_data npz_without_uploaders = Ok r /\
               transfer_completions (metrics r) = []).
Proof.
  assert (process_data npz_without_uploaders = Raise (KeyError (StrKey uploaders))) as H
    by reflexivity.
  split; [eexists; reflexivity|]. split; [reflexivity|]. split; [exact H|].
  intros (r & Hr & _). rewrite H in Hr. discriminate.
Qed.

(** C3.  Whenever the figure is drawn, the cumulative line of panel 1 is
    the list of points [(time_i / 86400, i)], [i = 1..N], in the stored order
    of the completions: the y-values are exactly [1..N], the x-values are
    the completion times in days, nothing is re-sorted, and transfer type,
    uploader and downloader play no part (two records with the same times
    give the same line).  When the stored times are strictly ascending, so
    are the x-values.  The figure is drawn for every record whose optional
    sample groups are aligned. *)
Theorem cumulative_series_in_completion_order :
  (forall (data : SimulationRecord) (fig : Figure),
      draw_figure data = Ok fig ->
      let ts := transfer_completions (metrics data) in
      cumulative_series fig =
        zip (map (fun t => time t / Qc_of_Z 86400)%Qc ts) (seq 1 (length ts)) /\
      (cumulative_series fig).*2 = seq 1 (length ts) /\
      (cumulative_series fig).*1 = map (fun t => time t / Qc_of_Z 86400)%Qc ts /\
      (forall i t, ts !! i = Some t ->
                   cumulative_series fig !! i = Some ((time t / Qc_of_Z 86400)%Qc, S i)) /\
      (StronglySorted Qclt (map time ts) ->
       StronglySorted Qclt (cumulative_series fig).*1)) /\
  (forall (data data' : SimulationRecord) (fig fig' : Figure),
      draw_figure data = Ok fig -> draw_figure data' = Ok fig' ->
      map time (transfer_completions (metrics data))
      = map time (transfer_completions (metrics data')) ->
      cumulative_series fig = cumulative_series fig') /\
  (forall data : SimulationRecord,
      aligned_concurrency (raw_data data) -> aligned_bandwidth (raw_data data) ->
      exists fig, draw_figure data = Ok fig) /\
  seconds_per_day = Qc_of_Z 86400.
Proof.
  split; [|split; [|split]].
  - intros data fig H ts. pose proof (cumulative_series_drawn data fig H) as E. fold ts in E.
    rewrite E. split; [reflexivity|]. split; [apply zip_seq_snd|]. split; [apply zip_seq_fst|].
    split.
    + intros i t Ht. now rewrite (zip_seq_lookup ts _ i 1 t Ht).
    + intros Hs. rewrite zip_seq_fst. now apply days_sorted.
  - intros data data' fig fig' H H' E.
    rewrite (cumulative_series_drawn data fig H), (cumulative_series_drawn data' fig' H').
    rewrite <- (length_map time (transfer_completions (metrics data))), E, length_map.
    f_equal.
    rewrite <- (map_map time (fun x => x / Qc_of_Z 86400)%Qc (transfer_completions (metrics data))).
    rewrite <- (map_map time (fun x => x / Qc_of_Z 86400)%Qc (transfer_completions (metrics data'))).
    now rewrite E.
  - apply draw_figure_total.
  - reflexivity.
Qed.

Lemma cumulative_series_in_completion_order_witness :
  exists fig,
    draw_figure sample_record = Ok fig /\
    (cumulative_series fig).*2 = [1; 2; 3].
Proof.
  destruct (draw_figure sample_record) as [fig|e] eqn:E; [|vm_compute in E; discriminate].
  exists fig. split; [reflexivity|].
  exact (proj1 (proj2 (proj1 cumulative_series_in_completion_order sample_record fig E))).
Defined.

(** C4.  Computing the two rates never raises a division error, whatever
    [total_nodes] and [simulation_end_time] are: each rate is guarded by its
    own denominator.  The average per node reads 0 when [total_nodes = 0],
    the transfers per year read 0 when [simulation_end_time = 0], and both
    read 0 when both are zero; with a positive denominator the rate is
    [total_transfers / total_nodes], resp. [total_transfers / years], where
    [years = simulation_end_time / (365.25 * 24 * 3600)]. *)
Theorem derived_rates_guarded (data : SimulationRecord) :
  let n := Qc_of_Z (Z.of_nat (length (transfer_completions (metrics data)))) in
  let years := sim_time_years data in
  years = (simulation_end_time (metadata data) / Qc_of_Z 31557600)%Qc /\
  (exists a t, avg_transfers_per_node data = Ok a /\ transfers_per_year data = Ok t) /\
  (total_nodes (metadata data) = 0%Z -> avg_transfers_per_node data = Ok 0%Qc) /\
  (simulation_end_time (metadata data) = 0%Qc -> transfers_per_year data = Ok 0%Qc) /\
  (total_nodes (metadata data) = 0%Z /\ simulation_end_time (metadata data) = 0%Qc ->
   avg_transfers_per_node data = Ok 0%Qc /\ transfers_per_year data = Ok 0%Qc) /\
  ((0 < total_nodes (metadata data))%Z ->
   avg_transfers_per_node data = Ok (n / Qc_of_Z (total_nodes (metadata data)))%Qc) /\
  ((0 < years)%Qc -> transfers_per_year data = Ok (n / years)%Qc).
Proof.
  intros n years.
  destruct (avg_transfers_per_node_cases data) as [Ha0 Ha1].
  destruct (transfers_per_year_cases data) as [Ht0 Ht1].
  assert (simulation_end_time (metadata data) = 0%Qc -> ~ (0 < sim_time_years data)%Qc) as Hz.
  { intros E. unfold sim_time_years. rewrite E, Qc_zero_div. apply Qcle_not_lt, Qcle_refl. }
  split; [subst years; unfold sim_time_years; now rewrite seconds_per_year_value|].
  split; [apply derived_rates_total|].
  split; [intros E; apply Ha0; lia|].
  split; [intros E; apply Ht0, Hz, E|].
  split; [intros [E1 E2]; split; [apply Ha0; lia|apply Ht0, Hz, E2]|].
  split; [exact Ha1|exact Ht1].
Qed.

Lemma derived_rates_guarded_witness :
  total_nodes (metadata record_without_nodes) = 0%Z /\
  avg_transfers_per_node record_without_nodes = Ok 0%Qc.
Proof.
  split; [reflexivity|].
  exact (proj1 (proj2 (proj2 (derived_rates_guarded record_without_nodes))) eq_refl).
Defined.

(** C5.  The stride for a series of length [L] and target count [T] is
    [max(1, L // T)], and the down-sampled series holds exactly every
    stride-th sample: its [i]-th element is element [i * stride] of the
    input, and it has [ceil(L / stride)] elements.  The concurrency overlay
    uses target count 2000, the bandwidth and the concurrency summary
    statistics use 1000, and on a present, aligned group each of these
    passes runs: the overlay holds the times (in days) and the sums of
    uploads and downloads at the indices [0, k, 2k, ...] with
    [k = max(1, L // 2000)], the concurrency statistics are the maximum and
    the mean of the sums at those indices with [k = max(1, L // 1000)].  The
    selection is a function of the input: equal inputs give equal
    down-sampled sequences, and each pass depends on the series of its own
    group only. *)
Theorem downsampling_stride :
  (forall (A : Type) (a : list A) (T i : nat),
      let k := Nat.max 1 (length a / T) in
      sample_step T (length a) = k /\
      slice_step (sample_step T (length a)) a !! i = a !! (i * k) /\
      length (slice_step (sample_step T (length a)) a) = (length a + (k - 1)) / k) /\
  (forall (is_parallel : bool) (raw : NpzFile) (ov : Overlay),
      concurrency_overlay is_parallel raw = Ok (Some ov) ->
      exists times ups downs,
        numeric raw sim_times = Some times /\
        numeric raw sim_uploads = Some ups /\
        numeric raw sim_downloads = Some downs /\
        let k := Nat.max 1 (length times / 2000) in
        ov_sim_times ov = map (fun x => x / seconds_per_day)%Qc (slice_step k times) /\
        np_add (slice_step k ups) (slice_step k downs) = Ok (ov_total_concurrent ov)) /\
  (forall (raw : NpzFile) (times ups downs : list Qc),
      numeric raw sim_times = Some times -> 0 < length times ->
      numeric raw sim_uploads = Some ups -> numeric raw sim_downloads = Some downs ->
      length ups = length times -> length downs = length times ->
      let k := Nat.max 1 (length times / 2000) in
      exists ov,
        concurrency_overlay true raw = Ok (Some ov) /\
        length (ov_sim_times ov) = (length times + (k - 1)) / k /\
        length (ov_total_concurrent ov) = (length times + (k - 1)) / k /\
        forall i t u d,
          times !! (i * k) = Some t -> ups !! (i * k) = Some u -> downs !! (i * k) = Some d ->
          ov_sim_times ov !! i = Some (t / seconds_per_day)%Qc /\
          ov_total_concurrent ov !! i = Some (u + d)%Qc) /\
  (forall (raw : NpzFile) (times uu uc du dc : list Qc),
      numeric raw bw_times = Some times ->
      numeric raw bw_upload_used = Some uu ->
      numeric raw bw_upload_capacity = Some uc ->
      numeric raw bw_download_used = Some du ->
      numeric raw bw_download_capacity = Some dc ->
      0 < length times ->
      let k := Nat.max 1 (length times / 1000) in
      bandwidth_stats raw =
        (let! up := utilization (slice_step k uu) (slice_step k uc) in
         let! down := utilization (slice_step k du) (slice_step k dc) in
         Ok (up, down))) /\
  (forall (is_parallel : bool) (raw : NpzFile) (stats : Z * Qc),
      concurrent_stats is_parallel raw = Ok (Some stats) ->
      exists times ups downs concurrent_data,
        numeric raw sim_times = Some times /\
        numeric raw sim_uploads = Some ups /\
        numeric raw sim_downloads = Some downs /\
        let k := Nat.max 1 (length times / 1000) in
        np_add (slice_step k ups) (slice_step k downs) = Ok concurrent_data /\
        (0 < length concurrent_data ->
         (exists m, np_max concurrent_data = Ok m /\ stats.1 = py_int m) /\
         np_mean concurrent_data = Ok stats.2) /\
        (length concurrent_data = 0 -> stats = (0%Z, 0%Qc))) /\
  (forall (raw : NpzFile) (times ups downs : list Qc),
      numeric raw sim_times = Some times -> 0 < length times ->
      numeric raw sim_uploads = Some ups -> numeric raw sim_downloads = Some downs ->
      length ups = length times -> length downs = length times ->
      let k := Nat.max 1 (length times / 1000) in
      exists concurrent_data m avg,
        concurrent_stats true raw = Ok (Some (py_int m, avg)) /\
        np_max concurrent_data = Ok m /\ np_mean concurrent_data = Ok avg /\
        length concurrent_data = (length times + (k - 1)) / k /\
        forall i u d,
          ups !! (i * k) = Some u -> downs !! (i * k) = Some d ->
          concurrent_data !! i = Some (u + d)%Qc) /\
  (forall (A : Type) (a1 a2 : list A) (T : nat),
      a1 = a2 ->
      slice_step (sample_step T (length a1)) a1 = slice_step (sample_step T (length a2)) a2) /\
  (forall (is_parallel : bool) (raw raw' : NpzFile),
      numeric raw' sim_times = numeric raw sim_times ->
      numeric raw' sim_uploads = numeric raw sim_uploads ->
      numeric raw' sim_downloads = numeric raw sim_downloads ->
      concurrency_overlay is_parallel raw' = concurrency_overlay is_parallel raw /\
      concurrent_stats is_parallel raw' = concurrent_stats is_parallel raw) /\
  (forall raw raw' : NpzFile,
      numeric raw' bw_times = numeric raw bw_times ->
      numeric raw' bw_upload_used = numeric raw bw_upload_used ->
      numeric raw' bw_upload_capacity = numeric raw bw_upload_capacity ->
      numeric raw' bw_download_used = numeric raw bw_download_used ->
      numeric raw' bw_download_capacity = numeric raw bw_download_capacity ->
      bandwidth_stats raw' = bandwidth_stats raw).
Proof.
  split; [|split; [|split; [|split; [|split; [|split; [|split; [|split]]]]]]].
  - intros A a T i k. pose proof (sample_step_pos T (length a)) as Hk.
    split; [reflexivity|]. split.
    + now apply slice_step_lookup.
    + now apply slice_step_length.
  - intros is_parallel raw ov H. unfold concurrency_overlay in H.
    destruct (has_concurrency is_parallel raw); [|discriminate].
    ok_inv H. apply getitem_ok in Hx, Hx0, Hx1. inversion H; subst ov; simpl.
    exists x, x0, x1. auto.
  - intros raw times ups downs Ht Hpos Hu Hd Lu Ld k.
    change k with (sample_step 2000 (length times)).
    pose proof (sample_step_pos 2000 (length times)) as Hk.
    destruct (concurrency_overlay_runs raw times ups downs Ht Hpos Hu Hd Lu Ld) as (m & _ & Hov).
    eexists. split; [exact Hov|]. simpl. unfold np_div_scalar.
    rewrite length_map, (sampled_sum_length _ times) by assumption.
    rewrite slice_step_length by exact Hk.
    split; [reflexivity|]. split; [reflexivity|].
    intros i t u d Hti Hui Hdi. split.
    + now rewrite list_lookup_fmap, slice_step_lookup, Hti by exact Hk.
    + now apply sampled_sum_lookup.
  - intros raw times uu uc du dc Ht Huu Huc Hdu Hdc Hpos k.
    unfold bandwidth_stats, contains, getitem.
    rewrite Ht, Huu, Huc, Hdu, Hdc. simpl.
    now rewrite bool_decide_eq_true_2 by exact Hpos.
  - intros is_parallel raw [mx avg] H. unfold concurrent_stats in H.
    destruct (has_concurrency is_parallel raw); [|discriminate].
    ok_inv H. apply getitem_ok in Hx, Hx0, Hx1. inversion H; subst; simpl.
    exists x, x0, x1, x2. split; [assumption|]. split; [assumption|]. split; [assumption|].
    split; [assumption|]. split.
    + intros Hpos. rewrite bool_decide_eq_true_2 in Hx3, Hx4 by exact Hpos.
      ok_inv Hx3. ok_inv Hx4. inversion Hx3; inversion Hx4; subst. unfold py_float. eauto.
    + intros Hlen. rewrite bool_decide_eq_false_2 in Hx3, Hx4 by lia.
      now inversion Hx3; inversion Hx4.
  - intros raw times ups downs Ht Hpos Hu Hd Lu Ld k.
    change k with (sample_step 1000 (length times)).
    pose proof (sample_step_pos 1000 (length times)) as Hk.
    destruct (concurrent_stats_runs raw times ups downs Ht Hpos Hu Hd Lu Ld)
      as (m & avg & Hm & Havg & Hst).
    eexists _, m, avg. split; [exact Hst|]. split; [exact Hm|]. split; [exact Havg|].
    rewrite (sampled_sum_length _ times), slice_step_length by assumption.
    split; [reflexivity|]. intros i u d Hui Hdi. now apply sampled_sum_lookup.
  - intros A a1 a2 T ->. reflexivity.
  - intros is_parallel raw raw'. apply concurrency_ext.
  - intros raw raw'. apply bandwidth_stats_ext.
Qed.

(** On the long run the overlay is taken with stride 2: 2001 of the 4001
    samples, the second one being sample 2. *)
Lemma downsampling_stride_witness :
  exists ov,
    concurrency_overlay true long_run_npz = Ok (Some ov) /\
    length (ov_sim_times ov) = 2001 /\
    ov_sim_times ov !! 1 = Some (Qc_of_Z 2 / seconds_per_day)%Qc /\
    ov_total_concurrent ov !! 1 = Some (Qc_of_Z 2 + Qc_of_Z 1)%Qc.
Proof.
  destruct (proj1 (proj2 (proj2 downsampling_stride)) long_run_npz
              (map (fun i => Qc_of_Z (Z.of_nat i)) (seq 0 4001))
              (map (fun i => Qc_of_Z (Z.of_nat i)) (seq 0 4001))
              (repeat (Qc_of_Z 1) 4001))
    as (ov & Hov & Hlen & _ & Hat);
    [reflexivity | vm_compute; lia | reflexivity | reflexivity
    | vm_compute; reflexivity | vm_compute; reflexivity |].
  exists ov. split; [exact Hov|]. split; [exact Hlen|].
  apply (Hat 1 (Qc_of_Z 2) (Qc_of_Z 2) (Qc_of_Z 1)); vm_compute; reflexivity.
Defined.

(** C6.  With the five bandwidth series present, non-empty and aligned,
    each utilization figure is the mean over the down-sampled window of
    [used / max(capacity, 1)], times 100, and no division by zero occurs:
    every divisor is at least 1, a zero capacity being replaced by 1.  When
    [bw_times] is absent or empty both figures are 0. *)
Theorem bandwidth_utilization_floor :
  (forall (raw : NpzFile) (times uu uc du dc : list Qc),
      numeric raw bw_times = Some times ->
      numeric raw bw_upload_used = Some uu ->
      numeric raw bw_upload_capacity = Some uc ->
      numeric raw bw_download_used = Some du ->
      numeric raw bw_download_capacity = Some dc ->
      0 < length times ->
      length uu = length times -> length uc = length times ->
      length du = length times -> length dc = length times ->
      let k := Nat.max 1 (length times / 1000) in
      bandwidth_stats raw =
        Ok (mean_utilization (slice_step k uu) (slice_step k uc),
            mean_utilization (slice_step k du) (slice_step k dc))) /\
  (forall c : Qc, (1 <= Qc_max c 1)%Qc /\ Qc_max c 1 <> 0%Qc) /\
  Qc_max 0 1 = 1%Qc /\
  (forall used capacity : list Qc,
      length used = length capacity ->
      exists ratio, np_divide used (np_maximum capacity 1%Qc) = Ok ratio) /\
  (forall raw : NpzFile,
      numeric raw bw_times = None \/ numeric raw bw_times = Some [] ->
      bandwidth_stats raw = Ok (0%Qc, 0%Qc)).
Proof.
  split; [|split; [|split; [|split]]].
  - intros. now apply bandwidth_stats_aligned.
  - intros c. split; [apply Qc_max_floor|apply Qc_max_floor_nonzero].
  - reflexivity.
  - intros used capacity E. eexists. now apply np_divide_floored.
  - apply bandwidth_stats_absent.
Qed.

Lemma bandwidth_utilization_floor_witness :
  bandwidth_stats sample_npz =
    Ok (mean_utilization (slice_step 1 [Qc_of_Z 0; Qc_of_Z 5; Qc_of_Z 10])
                         (slice_step 1 [Qc_of_Z 0; Qc_of_Z 10; Qc_of_Z 10]),
        mean_utilization (slice_step 1 [Qc_of_Z 2; Qc_of_Z 4; Qc_of_Z 6])
                         (slice_step 1 [Qc_of_Z 8; Qc_of_Z 8; Qc_of_Z 8])).
Proof.
  exact (proj1 bandwidth_utilization_floor sample_npz
           [Qc_of_Z 0; Qc_of_Z 86400; Qc_of_Z 172800]
           [Qc_of_Z 0; Qc_of_Z 5; Qc_of_Z 10] [Qc_of_Z 0; Qc_of_Z 10; Qc_of_Z 10]
           [Qc_of_Z 2; Qc_of_Z 4; Qc_of_Z 6] [Qc_of_Z 8; Qc_of_Z 8; Qc_of_Z 8]
           eq_refl eq_refl eq_refl eq_refl eq_refl (Nat.lt_0_succ 2)
           eq_refl eq_refl eq_refl eq_refl).
Defined.

(** C7.  When the path as given does not exist and does not end with
    [.npz], loading it is loading the path with [.npz] appended: the first
    attempt fails with file-not-found, the retry opens the appended name, and
    the outcome (the record, the state, or the exception of a malformed
    container) is that of loading the appended name directly.  In particular
    a container that [process_data] accepts is loaded to the same record. *)
Theorem extension_inference (w : World) (name : string) (data : NpzFile) :
  files w !! name = None ->
  endswith name ".npz" = false ->
  files w !! (name +:+ ".npz") = Some data ->
  np_load name w = (Raise (FileNotFoundError name), w) /\
  retry_name name = name +:+ ".npz" /\
  load_metrics name w = load_metrics (name +:+ ".npz") w /\
  load_metrics name w = (process_data data, w) /\
  (forall r, process_data data = Ok r ->
             load_metrics name w = (Ok r, w) /\
             load_metrics (name +:+ ".npz") w = (Ok r, w)).
Proof.
  intros Hmiss Hext Hfound.
  assert (retry_name name = name +:+ ".npz") as Hretry
    by (unfold retry_name; now rewrite Hext).
  assert (load_metrics name w = (process_data data, w)) as Hload.
  { apply load_metrics_retry_found; [exact Hmiss|]. now rewrite Hretry. }
  pose proof (load_metrics_found w _ data Hfound) as Hdirect.
  split; [unfold np_load; now rewrite Hmiss|]. split; [exact Hretry|].
  split; [now rewrite Hload, Hdirect|]. split; [exact Hload|].
  intros r Hr. now rewrite Hload, Hdirect, Hr.
Qed.

Lemma extension_inference_witness :
  load_metrics "run" sample_world = (Ok sample_record, sample_world) /\
  load_metrics "run.npz" sample_world = (Ok sample_record, sample_world).
Proof.
  apply (extension_inference sample_world "run" sample_npz); reflexivity.
Defined.

(** C8, as the code has it.  For a non-empty filename such that neither
    the path as given nor the path with [.npz] appended exists, the run ends
    with exit status 1 after logging, behind the two banner lines, the error
    that the data file (under the name of the second attempt) was not found;
    no image is written. *)
Theorem missing_input_exit (w : World) (filename plot_name : string) :
  filename <> "" ->
  files w !! filename = None ->
  files w !! (filename +:+ ".npz") = None ->
  let (status, w') := run filename plot_name w in
  status = 1%Z /\ status <> 0%Z /\
  w' = after_not_found w filename /\
  reports_not_found w w' /\
  images w' = images w /\ files w' = files w.
Proof.
  intros Hne H1 H2. rewrite (run_missing w filename plot_name Hne H1 H2).
  split; [reflexivity|]. split; [discriminate|]. split; [reflexivity|].
  split; [|split; reflexivity].
  eexists _, _. split; [reflexivity|]. simpl.
  apply list_elem_of_further, list_elem_of_further, list_elem_of_here.
Qed.

Lemma missing_input_exit_witness :
  run "missing" "plot.png" sample_world =
    (1%Z, after_not_found sample_world "missing").
Proof.
  pose proof (missing_input_exit sample_world "missing" "plot.png") as H.
  destruct (run "missing" "plot.png" sample_world) as [status w'].
  destruct H as (-> & _ & -> & _); [discriminate|reflexivity|reflexivity|reflexivity].
Defined.

(** C8, as stated, fails for the empty filename: neither [""] nor
    [".npz"] exists, the run ends with status 1 and writes nothing, but what
    it reports is that the filename argument is required, not that a file
    was not found. *)
Lemma empty_filename_not_reported_missing :
  files empty_world !! "" = None /\
  files empty_world !! ("" +:+ ".npz") = None /\
  run "" "plot.png" empty_world =
    (1%Z, {| files := ∅;
             log := [(ERROR, Text "Filename argument is required.")];
             images := ∅ |}) /\
  ~ reports_not_found empty_world (run "" "plot.png" empty_world).2.
Proof.
  split; [reflexivity|]. split; [reflexivity|]. split; [reflexivity|].
  intros (name & extra & Hlog & Hin). simpl in Hlog. subst extra.
  apply list_elem_of_singleton in Hin. unfold not_found_message in Hin.
  simpl in Hin. discriminate.
Qed.

(** C9.  The two entry points are the unified rendering function: on every
    record, output path and process state each gives exactly the outcome of
    [create_analysis_plot], so the dispatch of [main] on the flag always
    runs [create_analysis_plot].  The mode flag decides the mode name of the
    super-title and whether the concurrency overlay (with the maximum shown
    in the title of panel 1) is drawn: the figure of a record in single mode
    is the figure of the same record in parallel mode with the super-title of
    single mode and without the overlay, and in parallel mode a record with a
    transfer and a non-empty [sim_times] gets the overlay that
    [concurrency_overlay] computes.  The statistics line is not among what
    the flag decides: in parallel mode the numbers of the concurrency text
    are computed (lines 231-244), but the text of the statistics panel
    (lines 246-254) leaves them out, so that the statistics panel is the same
    in both modes and whatever the concurrency samples are.  When the
    concurrency samples are aligned, the figure is drawn in parallel mode
    whenever it is drawn in single mode, and with the bandwidth samples
    aligned too it is always drawn. *)
Theorem unified_rendering_path :
  plot_single_mode_analysis = create_analysis_plot /\
  plot_parallel_mode_analysis = create_analysis_plot /\
  (forall (data : SimulationRecord) (filepath : string) (w : World),
      plot_single_mode_analysis data filepath w = create_analysis_plot data filepath w /\
      plot_parallel_mode_analysis data filepath w = create_analysis_plot data filepath w) /\
  (forall (is_parallel : bool) (data : SimulationRecord) (filepath : string),
      (if is_parallel
       then plot_parallel_mode_analysis data filepath
       else plot_single_mode_analysis data filepath) = create_analysis_plot data filepath) /\
  (forall (data : SimulationRecord) (fig : Figure),
      draw_figure (with_mode true data) = Ok fig ->
      draw_figure (with_mode false data) = Ok (as_single_mode fig) /\
      suptitle_mode_name fig = "Parallel" /\
      suptitle_mode_name (as_single_mode fig) = "Single" /\
      suptitle_years (as_single_mode fig) = suptitle_years fig /\
      cumulative_series (as_single_mode fig) = cumulative_series fig /\
      ax2 (as_single_mode fig) = ax2 fig /\
      ax3 (as_single_mode fig) = ax3 fig) /\
  (forall (data : SimulationRecord) (fig' : Figure),
      aligned_concurrency (raw_data data) ->
      draw_figure (with_mode false data) = Ok fig' ->
      exists fig, draw_figure (with_mode true data) = Ok fig /\ fig' = as_single_mode fig) /\
  (forall (data : SimulationRecord) (fig : Figure),
      draw_figure data = Ok fig ->
      parallel_enabled (metadata data) = false ->
      suptitle_mode_name fig = "Single" /\
      forall p, ax1 fig = Some p -> p1_overlay p = None) /\
  (forall (data : SimulationRecord) (fig : Figure) (times : list Qc),
      draw_figure (with_mode true data) = Ok fig ->
      transfer_completions (metrics data) <> [] ->
      numeric (raw_data data) sim_times = Some times -> 0 < length times ->
      exists p ov,
        ax1 fig = Some p /\ p1_overlay p = Some ov /\
        concurrency_overlay true (raw_data data) = Ok (Some ov) /\
        0 < length (ov_total_concurrent ov) /\
        ax1 (as_single_mode fig) = Some (without_overlay p)) /\
  (forall (data : SimulationRecord) (fig : Figure) (times : list Qc),
      draw_figure (with_mode true data) = Ok fig ->
      numeric (raw_data data) sim_times = Some times -> 0 < length times ->
      (exists stats, concurrent_stats true (raw_data data) = Ok (Some stats)) /\
      forall (raw' : NpzFile) (fig' : Figure),
        draw_figure (with_raw raw' (with_mode true data)) = Ok fig' -> ax3 fig' = ax3 fig) /\
  (forall data : SimulationRecord,
      aligned_concurrency (raw_data data) -> aligned_bandwidth (raw_data data) ->
      exists fig, draw_figure (with_mode true data) = Ok fig).
Proof.
  split; [reflexivity|]. split; [reflexivity|]. split; [intros; split; reflexivity|].
  split; [intros [|]; reflexivity|].
  split; [|split; [|split; [|split; [|split]]]].
  - intros data fig H. split; [now apply draw_figure_single|].
    destruct (draw_figure_mode _ fig H) as [Hname _]. simpl in Hname.
    split; [exact Hname|]. split; [reflexivity|]. split; [reflexivity|].
    split; [|split; reflexivity].
    unfold cumulative_series, as_single_mode; simpl. now destruct (ax1 fig).
  - intros data fig' Hal H. now apply draw_figure_parallel.
  - intros data fig H Hsingle. destruct (draw_figure_mode data fig H) as [Hname Hov].
    rewrite Hsingle in Hname. split; [exact Hname|]. now apply Hov.
  - intros data fig times H Hne Ht Hpos.
    destruct (draw_figure_parallel_overlay (with_mode true data) fig times H eq_refl Hne Ht Hpos)
      as (p & ov & Hp & Hov & Hco).
    exists p, ov. split; [exact Hp|]. split; [exact Hov|]. split; [exact Hco|].
    split; [now apply concurrency_overlay_some in Hco|].
    unfold as_single_mode; simpl. now rewrite Hp.
  - intros data fig times H Ht Hpos. split.
    + exact (draw_figure_parallel_stats (with_mode true data) fig times H eq_refl Ht Hpos).
    + intros raw' fig' H'. exact (draw_figure_ax3_raw _ raw' fig fig' H H').
  - intros data Hc Hb. now apply (draw_figure_total (with_mode true data)).
Qed.

(** The sample record in parallel mode: the figure is drawn, the maximum
    of the concurrency text is computed as 3, and the statistics panel is
    the one of single mode. *)
Lemma unified_rendering_path_witness :
  exists fig stats,
    draw_figure (with_mode true sample_record) = Ok fig /\
    draw_figure (with_mode false sample_record) = Ok (as_single_mode fig) /\
    concurrent_stats true (raw_data sample_record) = Ok (Some stats) /\
    stats.1 = 3%Z /\
    ax3 (as_single_mode fig) = ax3 fig.
Proof.
  destruct (draw_figure (with_mode true sample_record)) as [fig|e] eqn:E;
    [|vm_compute in E; discriminate].
  destruct (proj1 (proj2 (proj2 (proj2 (proj2 unified_rendering_path)))) sample_record fig E)
    as (Hsingle & _ & _ & _ & _ & _ & Hax3).
  destruct (proj1 (proj2 (proj2 (proj2 (proj2 (proj2 (proj2 (proj2 (proj2
              unified_rendering_path))))))))
              sample_record fig [Qc_of_Z 0; Qc_of_Z 86400; Qc_of_Z 172800; Qc_of_Z 259200]
              E eq_refl (Nat.lt_0_succ 3)) as [[stats Hst] _].
  exists fig, stats. split; [reflexivity|]. split; [exact Hsingle|]. split; [exact Hst|].
  split; [|exact Hax3].
  vm_compute in Hst. inversion Hst. reflexivity.
Defined.

(** C10.  The upload counts of panel 2 add up to the number of transfer
    completions, and so do the download counts; the same holds for the
    values stored in the two mappings themselves. *)
Theorem counts_sum_to_total (data : SimulationRecord) :
  let n := length (transfer_completions (metrics data)) in
  let p := transfers_per_node data in
  let counts := analyze_transfers_by_node data in
  sum_list (uploads p) = n /\
  sum_list (downloads p) = n /\
  sum_list (map (getitem0 counts.1) (keys counts.1)) = n /\
  sum_list (map (getitem0 counts.2) (keys counts.2)) = n.
Proof.
  intros n p counts.
  destruct (per_node_counts_spec data) as (Hs & Hin & Hup & Hdown & Hu & Hd & Du & Dd).
  fold p counts in Hs, Hin, Hup, Hdown, Hu, Hd, Du, Dd.
  assert (NoDup (nodes p)) as Hnd.
  { subst p. unfold transfers_per_node. destruct (analyze_transfers_by_node data).
    apply sorted_set_NoDup. }
  split; [|split; [|split]].
  - rewrite Hup. apply sum_occurrences; [exact Hnd|].
    intros t Ht. apply Hin. eauto.
  - rewrite Hdown. apply sum_occurrences; [exact Hnd|].
    intros t Ht. apply Hin. eauto.
  - rewrite (map_ext _ _ Hu). apply sum_occurrences.
    + apply NoDup_fst_map_to_list.
    + intros t Ht. rewrite elem_of_keys, Du, elem_of_list_to_set, list_elem_of_fmap. eauto.
  - rewrite (map_ext _ _ Hd). apply sum_occurrences.
    + apply NoDup_fst_map_to_list.
    + intros t Ht. rewrite elem_of_keys, Dd, elem_of_list_to_set, list_elem_of_fmap. eauto.
Qed.

(** * Further properties of the code *)

(** ** The loader: zipping the transfer series *)

Section Zipping.
Implicit Types (data : NpzFile) (i n start : nat).

Lemma rmapM_seq_ok {B} (f : nat -> result B) n :
  forall start,
    (forall i, start <= i < start + n -> exists y, f i = Ok y) ->
    exists l, rmapM f (seq start n) = Ok l /\ length l = n /\
              forall i y, i < n -> f (start + i) = Ok y -> l !! i = Some y.
Proof.
  induction n as [|n IH]; intros start Hf; simpl.
  - exists []. split; [reflexivity|]. split; [reflexivity|]. intros; lia.
  - destruct (Hf start ltac:(lia)) as [y0 Hy0].
    destruct (IH (S start)) as (l & Hl & Hlen & Hlook); [intros i Hi; apply Hf; lia|].
    exists (y0 :: l). rewrite Hy0, Hl. simpl.
    split; [reflexivity|]. split; [now rewrite Hlen|].
    intros [|i] y Hi Hy; simpl.
    + rewrite Nat.add_0_r in Hy. congruence.
    + apply Hlook; [lia|]. now replace (S start + i) with (start + S i) by lia.
Qed.

Lemma rmapM_ok_inv {A B} (f : A -> result B) (l : list A) (ys : list B) :
  rmapM f l = Ok ys -> forall x, x ∈ l -> exists y, f x = Ok y.
Proof.
  revert ys. induction l as [|a l IH]; intros ys H x Hx; [inversion Hx|].
  simpl in H. ok_inv H. apply elem_of_cons in Hx as [->|Hx]; [eauto|].
  eapply IH; eauto.
Qed.

Lemma item_lookup {A} (a : list A) i x : a !! i = Some x -> item a i = Ok x.
Proof. intros H. unfold item. now rewrite H. Qed.

Lemma item_out_of_range {A} (a : list A) i : length a <= i -> item a i = Raise IndexError.
Proof. intros H. unfold item. now rewrite lookup_ge_None_2. Qed.

(** With all five series present each subscript of [completion_at] is a
    plain list lookup. *)
Lemma completion_at_present data times types durations ups downs i :
  numeric data transfer_times = Some times ->
  text data transfer_types = Some types ->
  numeric data transfer_durations = Some durations ->
  text data uploaders = Some ups ->
  text data downloaders = Some downs ->
  completion_at data i =
    (let! t := item times i in
     let! ty := item types i in
     let! d := item durations i in
     let! u := item ups i in
     let! dl := item downs i in
     Ok {| time := t; transfer_type := ty; duration := d; uploader := u; downloader := dl |}).
Proof.
  intros Ht Hty Hd Hu Hdl. unfold completion_at, getitem, getitem_str.
  rewrite Ht, Hty, Hd, Hu, Hdl. simpl.
  destruct (item times i); simpl; [|reflexivity].
  destruct (item types i); simpl; [|reflexivity].
  destruct (item durations i); simpl; [|reflexivity].
  destruct (item ups i); simpl; [|reflexivity].
  destruct (item downs i); reflexivity.
Qed.

Lemma read_transfer_completions_zips data times types durations ups downs :
  numeric data transfer_times = Some times ->
  text data transfer_types = Some types ->
  numeric data transfer_durations = Some durations ->
  text data uploaders = Some ups ->
  text data downloaders = Some downs ->
  length times <= length types -> length times <= length durations ->
  length times <= length ups -> length times <= length downs ->
  exists l,
    read_transfer_completions data = Ok l /\ length l = length times /\
    forall i t ty d u dl,
      times !! i = Some t -> types !! i = Some ty -> durations !! i = Some d ->
      ups !! i = Some u -> downs !! i = Some dl ->
      l !! i = Some {| time := t; transfer_type := ty; duration := d;
                       uploader := u; downloader := dl |}.
Proof.
  intros Ht Hty Hd Hu Hdl L1 L2 L3 L4.
  pose proof (completion_at_present data times types durations ups downs) as Hat.
  destruct (rmapM_seq_ok (completion_at data) (length times) 0) as (l & Hl & Hlen & Hlook).
  { intros i Hi. rewrite Hat by assumption.
    destruct (lookup_lt_is_Some_2 times i ltac:(lia)) as [t Et].
    destruct (lookup_lt_is_Some_2 types i ltac:(lia)) as [ty Ety].
    destruct (lookup_lt_is_Some_2 durations i ltac:(lia)) as [d Ed].
    destruct (lookup_lt_is_Some_2 ups i ltac:(lia)) as [u Eu].
    destruct (lookup_lt_is_Some_2 downs i ltac:(lia)) as [dl Edl].
    rewrite (item_lookup _ _ _ Et), (item_lookup _ _ _ Ety), (item_lookup _ _ _ Ed),
      (item_lookup _ _ _ Eu), (item_lookup _ _ _ Edl). simpl. eauto. }
  exists l. unfold read_transfer_completions, contains, getitem. rewrite Ht. simpl.
  split; [exact Hl|]. split; [exact Hlen|].
  intros i t ty d u dl Et Ety Ed Eu Edl. apply Hlook.
  - now apply lookup_lt_Some in Et.
  - simpl. rewrite Hat by assumption.
    rewrite (item_lookup _ _ _ Et), (item_lookup _ _ _ Ety), (item_lookup _ _ _ Ed),
      (item_lookup _ _ _ Eu), (item_lookup _ _ _ Edl). reflexivity.
Qed.

(** With all five series present a failed subscript is an index error. *)
Lemma completion_at_index_error data times types durations ups downs i :
  numeric data transfer_times = Some times ->
  text data transfer_types = Some types ->
  numeric data transfer_durations = Some durations ->
  text data uploaders = Some ups ->
  text data downloaders = Some downs ->
  raises_only (fun e => e = IndexError) (completion_at data i).
Proof.
  intros Ht Hty Hd Hu Hdl.
  rewrite (completion_at_present data times types durations ups downs) by assumption.
  assert (forall A (a : list A) j, raises_only (fun e => e = IndexError) (item a j)) as Hitem.
  { intros A a j e. unfold item. destruct (a !! j); intros H; now inversion H. }
  repeat first [apply raises_only_ok | apply Hitem | apply raises_only_bind; [|intros ?]].
Qed.

Lemma completion_at_short data times types durations ups downs i :
  numeric data transfer_times = Some times ->
  text data transfer_types = Some types ->
  numeric data transfer_durations = Some durations ->
  text data uploaders = Some ups ->
  text data downloaders = Some downs ->
  length types <= i \/ length durations <= i \/ length ups <= i \/ length downs <= i ->
  forall y, completion_at data i <> Ok y.
Proof.
  intros Ht Hty Hd Hu Hdl Hshort y.
  rewrite (completion_at_present data times types durations ups downs) by assumption.
  intros H. ok_inv H.
  unfold item in *.
  destruct (types !! i) eqn:E1; [|discriminate].
  destruct (durations !! i) eqn:E2; [|discriminate].
  destruct (ups !! i) eqn:E3; [|discriminate].
  destruct (downs !! i) eqn:E4; [|discriminate].
  apply lookup_lt_Some in E1, E2, E3, E4. lia.
Qed.

End Zipping.

Section MetadataFields.
Implicit Types (data : NpzFile).

Lemma first_item_ok data k x :
  first_item data k = Ok x <-> exists xs, numeric data k = Some (x :: xs).
Proof.
  unfold first_item, getitem, item. destruct (numeric data k) as [[|y ys]|]; simpl; split.
  - discriminate.
  - intros [xs H]. discriminate.
  - intros H. inversion H. eauto.
  - intros [xs H]. now inversion H.
  - discriminate.
  - intros [xs H]. discriminate.
Qed.

Lemma first_item_missing data k :
  numeric data k = None \/ numeric data k = Some [] -> forall x, first_item data k <> Ok x.
Proof. intros [H|H] x Hx; apply first_item_ok in Hx as [xs Hx]; congruence. Qed.

Lemma read_metadata_ok data md :
  read_metadata data = Ok md ->
  exists pe tn et dle nwl,
    first_item data metadata_parallel_enabled = Ok pe /\
    first_item data metadata_total_nodes = Ok tn /\
    first_item data metadata_simulation_end_time = Ok et /\
    first_item data metadata_data_loss_events = Ok dle /\
    first_item data metadata_nodes_with_data_loss = Ok nwl /\
    md = {| parallel_enabled := py_bool pe; total_nodes := py_int tn;
            simulation_end_time := et; data_loss_events := py_int dle;
            nodes_with_data_loss := py_int nwl |}.
Proof.
  unfold read_metadata. intros H. ok_inv H. inversion H; subst md.
  exists x, x0, x1, x2, x3. auto 10.
Qed.

Lemma process_data_ok data r :
  process_data data = Ok r ->
  exists md completions,
    read_metadata data = Ok md /\ read_transfer_completions data = Ok completions /\
    r = {| metadata := md;
           metrics := {| transfer_completions := completions;
                         bandwidth_snapshots := "use_raw_data";
                         simultaneous_transfers := "use_raw_data" |};
           raw_data := data |}.
Proof. unfold process_data. intros H. ok_inv H. inversion H; subst r. eauto. Qed.

End MetadataFields.

(** X1.  When the five transfer series are present and none of the other
    four is shorter than [transfer_times], the loader builds one completion
    per element of [transfer_times], the [i]-th from the [i]-th element of
    each series, in order; elements of the other series beyond the length of
    [transfer_times] are ignored; the record keeps the container handle. *)
Theorem process_data_zips (data : NpzFile) (md : Metadata)
    (times durations : list Qc) (types ups downs : list string) :
  read_metadata data = Ok md ->
  numeric data transfer_times = Some times ->
  text data transfer_types = Some types ->
  numeric data transfer_durations = Some durations ->
  text data uploaders = Some ups ->
  text data downloaders = Some downs ->
  length times <= length types -> length times <= length durations ->
  length times <= length ups -> length times <= length downs ->
  exists r,
    process_data data = Ok r /\ metadata r = md /\ raw_data r = data /\
    length (transfer_completions (metrics r)) = length times /\
    forall i t ty d u dl,
      times !! i = Some t -> types !! i = Some ty -> durations !! i = Some d ->
      ups !! i = Some u -> downs !! i = Some dl ->
      transfer_completions (metrics r) !! i =
        Some {| time := t; transfer_type := ty; duration := d;
                uploader := u; downloader := dl |}.
Proof.
  intros Hmd Ht Hty Hd Hu Hdl L1 L2 L3 L4.
  destruct (read_transfer_completions_zips data times types durations ups downs)
    as (l & Hl & Hlen & Hlook); try assumption.
  eexists. unfold process_data. rewrite Hmd, Hl. simpl.
  split; [reflexivity|]. simpl. auto.
Qed.

Lemma process_data_zips_witness :
  exists r,
    process_data sample_npz = Ok r /\
    transfer_completions (metrics r) !! 2 =
      Some {| time := Qc_of_Z 259200; transfer_type := "x"; duration := Qc_of_Z 30;
              uploader := "A"; downloader := "C" |}.
Proof.
  destruct (process_data_zips sample_npz (metadata sample_record)
              [Qc_of_Z 86400; Qc_of_Z 172800; Qc_of_Z 259200]
              [Qc_of_Z 10; Qc_of_Z 20; Qc_of_Z 30]
              ["x"; "x"; "x"] ["A"; "B"; "A"] ["B"; "A"; "C"])
    as (r & Hr & _ & _ & _ & Hlook); try reflexivity; try (simpl; lia).
  exists r. split; [exact Hr|]. now apply Hlook.
Defined.

(** X2.  When the five transfer series are present but one of the other
    four is shorter than [transfer_times], the loader raises [IndexError]:
    no record is built and nothing is truncated to the shortest series. *)
Theorem process_data_short_series (data : NpzFile) (md : Metadata)
    (times durations : list Qc) (types ups downs : list string) :
  read_metadata data = Ok md ->
  numeric data transfer_times = Some times ->
  text data transfer_types = Some types ->
  numeric data transfer_durations = Some durations ->
  text data uploaders = Some ups ->
  text data downloaders = Some downs ->
  length types < length times \/ length durations < length times \/
  length ups < length times \/ length downs < length times ->
  process_data data = Raise IndexError.
Proof.
  intros Hmd Ht Hty Hd Hu Hdl Hshort.
  assert (exists i, i < length times /\
            (length types <= i \/ length durations <= i \/
             length ups <= i \/ length downs <= i)) as (i & Hi & Hi').
  { destruct Hshort as [H|[H|[H|H]]];
      [exists (length types)|exists (length durations)|exists (length ups)|exists (length downs)];
      (split; [exact H|auto]). }
  unfold process_data. rewrite Hmd. simpl.
  unfold read_transfer_completions, contains, getitem. rewrite Ht. simpl.
  destruct (rmapM (completion_at data) (seq 0 (length times))) as [l|e] eqn:E; simpl.
  - exfalso. destruct (rmapM_ok_inv _ _ _ E i) as [y Hy].
    + apply elem_of_seq. lia.
    + revert Hy. now apply (completion_at_short data times types durations ups downs).
  - f_equal.
    apply (raises_only_rmapM (fun e => e = IndexError) (completion_at data)
             (seq 0 (length times))); [|exact E].
    intros j. now apply (completion_at_index_error data times types durations ups downs).
Qed.

(** The sample artifact with its last downloader missing. *)
Lemma process_data_short_series_witness :
  process_data
    {| numeric := numeric sample_npz;
       text := fun k => match k with
                        | downloaders => Some ["B"; "A"]
                        | _ => text sample_npz k
                        end |} = Raise IndexError.
Proof.
  apply (process_data_short_series _ (metadata sample_record)
           [Qc_of_Z 86400; Qc_of_Z 172800; Qc_of_Z 259200]
           [Qc_of_Z 10; Qc_of_Z 20; Qc_of_Z 30]
           ["x"; "x"; "x"] ["A"; "B"; "A"] ["B"; "A"]); try reflexivity.
  simpl. lia.
Defined.

(** X3.  The loader succeeds only on a container whose five metadata
    entries are present and non-empty; it reads the first element of each
    (truth value, truncated integers, the time as it is) and ignores the
    rest.  A metadata entry that is absent or empty makes it raise a
    [KeyError] or an [IndexError], and an absent [metadata_parallel_enabled],
    the first one read, raises the [KeyError] of that name whatever else the
    container holds. *)
Theorem process_data_requires_metadata :
  (forall (data : NpzFile) (r : SimulationRecord),
      process_data data = Ok r ->
      exists pe pe' tn tn' et et' dle dle' nwl nwl',
        numeric data metadata_parallel_enabled = Some (pe :: pe') /\
        numeric data metadata_total_nodes = Some (tn :: tn') /\
        numeric data metadata_simulation_end_time = Some (et :: et') /\
        numeric data metadata_data_loss_events = Some (dle :: dle') /\
        numeric data metadata_nodes_with_data_loss = Some (nwl :: nwl') /\
        metadata r = {| parallel_enabled := py_bool pe;
                        total_nodes := py_int tn;
                        simulation_end_time := et;
                        data_loss_events := py_int dle;
                        nodes_with_data_loss := py_int nwl |} /\
        raw_data r = data) /\
  (forall (data : NpzFile) (k : num_key),
      metadata_key k ->
      numeric data k = None \/ numeric data k = Some [] ->
      exists e, process_data data = Raise e /\ lookup_error e) /\
  (forall data : NpzFile,
      numeric data metadata_parallel_enabled = None ->
      process_data data = Raise (KeyError (NumKey metadata_parallel_enabled))).
Proof.
  split; [|split].
  - intros data r H. apply process_data_ok in H as (md & completions & Hmd & _ & ->).
    apply read_metadata_ok in Hmd as (pe & tn & et & dle & nwl & H1 & H2 & H3 & H4 & H5 & ->).
    apply first_item_ok in H1 as [pe' H1], H2 as [tn' H2], H3 as [et' H3],
        H4 as [dle' H4], H5 as [nwl' H5].
    exists pe, pe', tn, tn', et, et', dle, dle', nwl, nwl'. simpl. auto 10.
  - intros data k Hk Habs.
    destruct (process_data data) as [r|e] eqn:E.
    + exfalso. apply process_data_ok in E as (md & completions & Hmd & _ & _).
      apply read_metadata_ok in Hmd as (pe & tn & et & dle & nwl & H1 & H2 & H3 & H4 & H5 & _).
      destruct k; simpl in Hk; try contradiction;
        eapply (first_item_missing data); eauto.
    + exists e. split; [reflexivity|]. now apply (process_data_raises data).
  - intros data H. unfold process_data, read_metadata, first_item, getitem. now rewrite H.
Qed.

(** A container that lacks [metadata_total_nodes] only. *)
Lemma process_data_requires_metadata_witness :
  exists e,
    process_data
      {| numeric := fun k => match k with
                             | metadata_total_nodes => None
                             | _ => numeric sample_npz k
                             end;
         text := text sample_npz |} = Raise e /\ lookup_error e.
Proof.
  apply (proj1 (proj2 process_data_requires_metadata) _ metadata_total_nodes);
    [exact I|left; reflexivity].
Defined.

(** ** The loader: which file is opened *)

Section OpenedFile.
Implicit Types (w : World) (s suffix name : string).

Lemma substring_split s : forall k,
  k <= String.length s -> s = substring 0 k s +:+ substring k (String.length s - k) s.
Proof.
  induction s as [|c s IH]; intros [|k] Hk; simpl in *; try lia; try reflexivity.
  - now rewrite substring_all.
  - change (String c s = String c (substring 0 k s +:+ substring k (String.length s - k) s)).
    f_equal. apply IH. lia.
Qed.

Lemma endswith_true s suffix : endswith s suffix = true <-> exists p, s = p +:+ suffix.
Proof.
  split.
  - unfold endswith. intros H. apply andb_true_iff in H as [Hle Heq].
    apply bool_decide_eq_true in Hle. apply String.eqb_eq in Heq.
    exists (substring 0 (String.length s - String.length suffix) s).
    pose proof (substring_split s (String.length s - String.length suffix)) as E.
    replace (String.length s - (String.length s - String.length suffix))
      with (String.length suffix) in E by lia.
    rewrite Heq in E. apply E. lia.
  - intros [p ->]. apply endswith_append.
Qed.

Lemma retry_name_endswith name : endswith (retry_name name) ".npz" = true.
Proof.
  unfold retry_name. destruct (endswith name ".npz") eqn:E; simpl; [exact E|].
  apply endswith_append.
Qed.

Lemma retry_name_npz name : endswith name ".npz" = true -> retry_name name = name.
Proof. intros H. unfold retry_name. now rewrite H. Qed.

(** [load_metrics] in full: the container opened is processed in the
    unchanged state; when none is opened, the error is logged and the process
    exits with code 1. *)
Lemma load_metrics_opened w name :
  load_metrics name w =
    match opened w name with
    | Some data => (process_data data, w)
    | None => (Raise (SystemExit 1), logged w [(ERROR, not_found_message (retry_name name))])
    end.
Proof.
  unfold opened. destruct (files w !! name) as [data|] eqn:H1.
  - now apply load_metrics_found.
  - destruct (files w !! retry_name name) as [data|] eqn:H2.
    + now apply load_metrics_retry_found.
    + now apply load_metrics_missing.
Qed.

End OpenedFile.

(** X4.  A path that exists as given is the one loaded: the outcome is
    that of [process_data] on its container, the state is unchanged (nothing
    is logged), and a file under the name with [.npz] appended, if there is
    one, is never opened. *)
Theorem load_metrics_literal_first (w : World) (name : string) (data : NpzFile) :
  files w !! name = Some data ->
  load_metrics name w = (process_data data, w) /\
  forall other : NpzFile,
    load_metrics name
      {| files := <[name +:+ ".npz" := other]> (files w); log := log w; images := images w |}
    = (process_data data,
       {| files := <[name +:+ ".npz" := other]> (files w); log := log w; images := images w |}).
Proof.
  intros H. split; [now apply load_metrics_found|].
  intros other. apply load_metrics_found. simpl.
  rewrite lookup_insert_ne; [exact H|].
  intros E. apply (f_equal String.length) in E. rewrite length_append in E. simpl in E. lia.
Qed.

Lemma load_metrics_literal_first_witness :
  load_metrics "run.npz" sample_world = (Ok sample_record, sample_world).
Proof.
  exact (proj1 (load_metrics_literal_first sample_world "run.npz" sample_npz eq_refl)).
Defined.

(** X5.  A missing path that already ends with [.npz] is not retried
    under another name: the second attempt opens the same path again, the
    error names that path, and the process exits with code 1 even when the
    path with a second [.npz] appended exists. *)
Theorem load_metrics_npz_not_retried (w : World) (name : string) :
  endswith name ".npz" = true ->
  files w !! name = None ->
  load_metrics name w =
    (Raise (SystemExit 1), logged w [(ERROR, not_found_message name)]).
Proof.
  intros Hext Hmiss. rewrite load_metrics_opened. unfold opened.
  rewrite (retry_name_npz name Hext), Hmiss. reflexivity.
Qed.

Lemma load_metrics_npz_not_retried_witness :
  files {| files := {[ "a.npz.npz" := sample_npz ]}; log := []; images := ∅ |} !! "a.npz.npz"
    = Some sample_npz /\
  load_metrics "a.npz" {| files := {[ "a.npz.npz" := sample_npz ]}; log := []; images := ∅ |}
    = (Raise (SystemExit 1),
       {| files := {[ "a.npz.npz" := sample_npz ]};
          log := [(ERROR, not_found_message "a.npz")]; images := ∅ |}).
Proof.
  split; [reflexivity|].
  exact (load_metrics_npz_not_retried
           {| files := {[ "a.npz.npz" := sample_npz ]}; log := []; images := ∅ |}
           "a.npz" eq_refl eq_refl).
Defined.

(** X6.  [s.endswith(suffix)] holds exactly when [s] is some prefix
    followed by [suffix]; hence the name of the second attempt always ends
    with [.npz], is the given name when that already does, and forming it
    twice changes nothing. *)
Theorem retry_name_suffix :
  (forall s suffix : string, endswith s suffix = true <-> exists p, s = p +:+ suffix) /\
  (forall name : string, endswith (retry_name name) ".npz" = true) /\
  (forall name : string, endswith name ".npz" = true -> retry_name name = name) /\
  (forall name : string, endswith name ".npz" = false -> retry_name name = name +:+ ".npz") /\
  (forall name : string, retry_name (retry_name name) = retry_name name).
Proof.
  split; [apply endswith_true|]. split; [apply retry_name_endswith|].
  split; [apply retry_name_npz|]. split.
  - intros name H. unfold retry_name. now rewrite H.
  - intros name. apply retry_name_npz, retry_name_endswith.
Qed.

Lemma retry_name_suffix_witness :
  retry_name "run.npz" = "run.npz" /\ retry_name "run" = "run.npz".
Proof.
  split.
  - exact (proj1 (proj2 (proj2 retry_name_suffix)) "run.npz" eq_refl).
  - exact (proj1 (proj2 (proj2 (proj2 retry_name_suffix))) "run" eq_refl).
Defined.

(** ** What drawing can raise *)

Section RenderErrors.
Implicit Types (data : SimulationRecord) (raw : NpzFile) (a b : list Qc).

Lemma getitem_render raw k : raises_only render_error (getitem raw k).
Proof. intros e. unfold getitem. destruct (numeric raw k); intros H; inversion H. exact I. Qed.

Lemma plot_check_render {A B} (x : list A) (y : list B) :
  raises_only render_error (plot_check x y).
Proof.
  intros e. unfold plot_check. destruct (decide (length x = length y));
    intros H; inversion H. exact I.
Qed.

Lemma broadcast2_render (f : Qc -> Qc -> result Qc) a b :
  (forall x y, raises_only render_error (f x y)) ->
  raises_only render_error (broadcast2 f a b).
Proof.
  intros Hf. unfold broadcast2. destruct (decide (length a = length b)).
  - apply raises_only_rmapM. intros xy. apply Hf.
  - destruct a as [|x [|x' a]]; destruct b as [|y [|y' b]];
      first [ apply raises_only_rmapM; intros ?; apply Hf
            | intros e H; inversion H; exact I ].
Qed.

Lemma np_add_render a b : raises_only render_error (np_add a b).
Proof. apply broadcast2_render. intros x y. apply raises_only_ok. Qed.

Lemma np_divide_render a b : raises_only render_error (np_divide a b).
Proof.
  apply broadcast2_render. intros x y e. unfold divide_elem.
  destruct (decide (y = 0%Qc)); intros H; inversion H. exact I.
Qed.

Lemma np_max_render a : raises_only render_error (np_max a).
Proof. intros e. destruct a; intros H; inversion H. exact I. Qed.

Lemma np_mean_render a : raises_only render_error (np_mean a).
Proof. intros e. destruct a; intros H; inversion H. exact I. Qed.

Lemma truediv_render (x y : Qc) : raises_only render_error (truediv x y).
Proof.
  intros e. unfold truediv. destruct (decide (y = 0%Qc)); intros H; inversion H. exact I.
Qed.

Ltac render_tac :=
  repeat first
    [ apply raises_only_ok
    | apply getitem_render | apply plot_check_render | apply np_add_render
    | apply np_divide_render | apply np_max_render | apply np_mean_render
    | apply truediv_render
    | apply raises_only_bind; [|intros ?]
    | match goal with
      | |- raises_only _ (if ?c then _ else _) => destruct c
      end ].

Lemma concurrency_overlay_render is_parallel raw :
  raises_only render_error (concurrency_overlay is_parallel raw).
Proof. unfold concurrency_overlay. render_tac. Qed.

Lemma concurrent_stats_render is_parallel raw :
  raises_only render_error (concurrent_stats is_parallel raw).
Proof. unfold concurrent_stats. render_tac. Qed.

Lemma bandwidth_stats_render raw : raises_only render_error (bandwidth_stats raw).
Proof. unfold bandwidth_stats, utilization. render_tac. Qed.

Lemma draw_figure_render data : raises_only render_error (draw_figure data).
Proof.
  unfold draw_figure.
  apply raises_only_bind.
  { unfold panel1. destruct (transfer_completions (metrics data)); [apply raises_only_ok|].
    apply raises_only_bind; [apply plot_check_render|intros _].
    apply raises_only_bind; [apply concurrency_overlay_render|intros ?].
    apply raises_only_ok. }
  intros p1.
  apply raises_only_bind; [unfold avg_transfers_per_node; render_tac|intros avg].
  apply raises_only_bind; [unfold transfers_per_year; render_tac|intros tpy].
  apply raises_only_bind; [apply bandwidth_stats_render|intros ?].
  apply raises_only_bind; [apply concurrent_stats_render|intros ?].
  apply raises_only_ok.
Qed.

End RenderErrors.

(** ** The run as a decision tree *)

Section RunOutcome.
Implicit Types (w : World) (filename plot_name : string).

Lemma logging_bind {A} lvl msg (m : M A) w :
  (logging lvl msg;; m) w = m (logged w [(lvl, msg)]).
Proof. reflexivity. Qed.

Lemma logged_logged w l1 l2 : logged (logged w l1) l2 = logged w (l1 ++ l2).
Proof. unfold logged; simpl. now rewrite app_assoc. Qed.

Lemma opened_logged w l filename : opened (logged w l) filename = opened w filename.
Proof. reflexivity. Qed.

(** The handler of [main] on an exception of the loader or the renderer. *)
Lemma main_handler_generic (e : exn) filename w :
  lookup_error e \/ render_error e ->
  (match e with
   | SystemExit _ => raise e
   | FileNotFoundError _ =>
       logging ERROR (not_found_message filename);;
       logging ERROR (Text "Make sure to run the simulation first and save metrics.");;
       sys_exit 1
   | _ => logging ERROR (AnalysisErrorMsg e);; sys_exit 1
   end) w = (Raise (SystemExit 1) : result unit, logged w [(ERROR, AnalysisErrorMsg e)]).
Proof. intros [H|H]; destruct e; simpl in H; try contradiction; reflexivity. Qed.

Lemma run_is_run_outcome filename plot_name w :
  run filename plot_name w = run_outcome filename plot_name w.
Proof.
  unfold run, run_outcome, main.
  destruct (bool_decide (filename = "")) eqn:Hempty; [reflexivity|].
  unfold bind at 1. unfold ret at 1.
  rewrite !logging_bind, logged_logged.
  change ([(INFO, Text "P2P Transfer Analysis")]
            ++ [(INFO, Text "==================================================")])
    with banner_log.
  set (w1 := logged w banner_log).
  unfold try_except. unfold bind at 1.
  rewrite load_metrics_opened. change (opened w1 filename) with (opened w filename).
  destruct (opened w filename) as [container|].
  - destruct (process_data container) as [data|e] eqn:Hp.
    + rewrite !logging_bind, !logged_logged. simpl app.
      fold (loaded_log data).
      set (w2 := logged w1 (loaded_log data)).
      assert ((if parallel_enabled (metadata data)
               then plot_parallel_mode_analysis data plot_name
               else plot_single_mode_analysis data plot_name)
              = create_analysis_plot data plot_name) as -> by now destruct (parallel_enabled _).
      unfold bind at 1. unfold create_analysis_plot, bind at 1, lift.
      destruct (draw_figure data) as [fig|e] eqn:Hd.
      * simpl. unfold w2, w1, logged, complete_message; simpl.
        now rewrite <- !app_assoc.
      * rewrite main_handler_generic by (right; exact (draw_figure_render data e Hd)).
        unfold w2, w1. now rewrite !logged_logged.
    + rewrite main_handler_generic by (left; exact (process_data_raises container e Hp)).
      unfold w1. now rewrite logged_logged.
  - simpl. unfold w1. now rewrite logged_logged.
Qed.

End RunOutcome.

(** X8.  A run ends with status 0 exactly when the whole pipeline went
    through: a container was opened (under the given name or the retry
    name), loaded and drawn, the figure is stored at [plot_name] and the last
    log record announces completion.  Otherwise the status is 1, the images
    are untouched (no partial output) and the last log record is an error. *)
Theorem run_all_or_nothing (filename plot_name : string) (w : World) :
  let status := (run filename plot_name w).1 in
  let w' := (run filename plot_name w).2 in
  (status = 0%Z ->
   exists container data fig,
     opened w filename = Some container /\ process_data container = Ok data /\
     draw_figure data = Ok fig /\
     images w' = <[plot_name := fig]> (images w) /\
     last (log w') = Some (INFO, complete_message plot_name)) /\
  (status <> 0%Z ->
   status = 1%Z /\ images w' = images w /\ exists msg, last (log w') = Some (ERROR, msg)).
Proof.
  rewrite run_is_run_outcome. unfold run_outcome.
  destruct (bool_decide (filename = "")).
  { simpl. split; [discriminate|]. intros _. split; [reflexivity|]. split; [reflexivity|].
    eexists. rewrite last_app_cons. reflexivity. }
  destruct (opened w filename) as [container|] eqn:Ho.
  2:{ simpl. split; [discriminate|]. intros _. split; [reflexivity|]. split; [reflexivity|].
      eexists. rewrite last_app_cons. reflexivity. }
  destruct (process_data container) as [data|e] eqn:Hp.
  2:{ simpl. split; [discriminate|]. intros _. split; [reflexivity|]. split; [reflexivity|].
      eexists. rewrite last_app_cons. reflexivity. }
  destruct (draw_figure data) as [fig|e] eqn:Hd; simpl.
  - split; [|intros H; contradiction]. intros _. exists container, data, fig.
    split; [reflexivity|]. split; [exact Hp|]. split; [exact Hd|]. split; [reflexivity|].
    rewrite last_app_cons. reflexivity.
  - split; [discriminate|]. intros _. split; [reflexivity|]. split; [reflexivity|].
    eexists. rewrite last_app_cons. reflexivity.
Qed.

Lemma run_all_or_nothing_witness :
  exists fig,
    draw_figure sample_record = Ok fig /\
    images (run "run" "plot.png" sample_world).2 = {[ "plot.png" := fig ]}.
Proof.
  destruct (proj1 (run_all_or_nothing "run" "plot.png" sample_world))
    as (container & data & fig & Ho & Hp & Hd & Hi & _).
  { vm_compute. reflexivity. }
  assert (container = sample_npz) as ->.
  { assert (opened sample_world "run" = Some sample_npz) as E by reflexivity. congruence. }
  assert (data = sample_record) as ->.
  { assert (process_data sample_npz = Ok sample_record) as E by reflexivity. congruence. }
  exists fig. split; [exact Hd|]. rewrite Hi. reflexivity.
Defined.

(** X9.  When a container is opened but the pipeline fails, the failure
    is reported and nothing is written: an exception of [process_data] (a
    [KeyError] or an [IndexError]) is logged as the analysis error right after
    the banner; an exception of the renderer (a [KeyError], [ValueError],
    [FloatingPointError] or [ZeroDivisionError]) is logged after the records
    about the loaded data; in both cases the status is 1 and the images are
    unchanged. *)
Theorem run_reports_failure (filename plot_name : string) (w : World) (container : NpzFile) :
  filename <> "" ->
  opened w filename = Some container ->
  (forall e, process_data container = Raise e ->
     lookup_error e /\
     run filename plot_name w =
       (1%Z, logged w (banner_log ++ [(ERROR, AnalysisErrorMsg e)]))) /\
  (forall data e, process_data container = Ok data -> draw_figure data = Raise e ->
     render_error e /\
     run filename plot_name w =
       (1%Z, logged w (banner_log ++ loaded_log data ++ [(ERROR, AnalysisErrorMsg e)]))).
Proof.
  intros Hne Ho. rewrite run_is_run_outcome. unfold run_outcome.
  rewrite bool_decide_eq_false_2 by exact Hne. rewrite Ho. split.
  - intros e Hp. split; [exact (process_data_raises container e Hp)|]. now rewrite Hp.
  - intros data e Hp Hd. split; [exact (draw_figure_render data e Hd)|]. now rewrite Hp, Hd.
Qed.

Lemma run_reports_failure_witness :
  run "bad.npz" "plot.png"
    {| files := {[ "bad.npz" := npz_without_uploaders ]}; log := []; images := ∅ |} =
  (1%Z,
   {| files := {[ "bad.npz" := npz_without_uploaders ]};
      log := banner_log ++ [(ERROR, AnalysisErrorMsg (KeyError (StrKey uploaders)))];
      images := ∅ |}).
Proof.
  exact (proj2 (proj1 (run_reports_failure "bad.npz" "plot.png"
                         {| files := {[ "bad.npz" := npz_without_uploaders ]};
                            log := []; images := ∅ |}
                         npz_without_uploaders ltac:(discriminate) eq_refl)
                  (KeyError (StrKey uploaders)) eq_refl)).
Defined.



(** ** A record without transfers *)

Section NoTransfers.
Implicit Types (data : SimulationRecord).

Lemma transfers_per_node_empty data :
  transfer_completions (metrics data) = [] ->
  transfers_per_node data = {| nodes := []; uploads := []; downloads := [] |}.
Proof.
  intros H. unfold transfers_per_node, analyze_transfers_by_node. rewrite H. simpl.
  unfold keys. rewrite map_to_list_empty. simpl.
  unfold sorted_set. simpl. rewrite elements_empty. reflexivity.
Qed.

Lemma rates_no_transfers data :
  transfer_completions (metrics data) = [] ->
  avg_transfers_per_node data = Ok 0%Qc /\ transfers_per_year data = Ok 0%Qc.
Proof.
  intros H. unfold avg_transfers_per_node, transfers_per_year. rewrite H.
  change (Z.of_nat (length (@nil Transfer))) with 0%Z. split.
  - destruct (bool_decide (0 < total_nodes (metadata data))%Z) eqn:E; [|reflexivity].
    apply bool_decide_eq_true in E.
    rewrite truediv_nonzero.
    + now rewrite Z2Qc_inj_0, Qc_zero_div.
    + apply Qc_pos_nonzero. rewrite <- Z2Qc_inj_0.
      exact (proj1 (Z2Qc_inj_lt 0 (total_nodes (metadata data))) E).
  - destruct (bool_decide (0 < sim_time_years data)%Qc) eqn:E; [|reflexivity].
    apply bool_decide_eq_true in E.
    rewrite truediv_nonzero by now apply Qc_pos_nonzero.
    now rewrite Z2Qc_inj_0, Qc_zero_div.
Qed.

Lemma draw_figure_no_transfers data fig :
  transfer_completions (metrics data) = [] ->
  draw_figure data = Ok fig ->
  fig = {| suptitle_mode_name := if parallel_enabled (metadata data) then "Parallel" else "Single";
           suptitle_years := sim_time_years data;
           ax1 := None;
           ax2 := {| nodes := []; uploads := []; downloads := [] |};
           ax3 := {| st_total_transfers := 0;
                     st_sim_time_years := sim_time_years data;
                     st_total_nodes := total_nodes (metadata data);
                     st_avg_transfers_per_node := 0%Qc;
                     st_transfers_per_year := 0%Qc;
                     st_data_loss_events := data_loss_events (metadata data) |} |}.
Proof.
  intros H Hd. destruct (rates_no_transfers data H) as [Ha Ht].
  unfold draw_figure in Hd. rewrite Ha, Ht, (transfers_per_node_empty data H) in Hd.
  unfold panel1 in Hd. rewrite H in Hd. simpl in Hd. ok_inv Hd. now inversion Hd.
Qed.

End NoTransfers.

(** X11.  For a record without transfer completions, whenever the figure
    is drawn nothing is drawn on panel 1 (no line, no overlay, even in
    parallel mode with concurrency samples), the bar chart of panel 2 has no
    node, and the statistics show 0 transfers and both rates as 0, whatever
    the number of nodes and the simulation time. *)
Theorem empty_record_figure (data : SimulationRecord) (fig : Figure) :
  transfer_completions (metrics data) = [] ->
  draw_figure data = Ok fig ->
  ax1 fig = None /\ cumulative_series fig = [] /\
  ax2 fig = {| nodes := []; uploads := []; downloads := [] |} /\
  st_total_transfers (ax3 fig) = 0 /\
  st_avg_transfers_per_node (ax3 fig) = 0%Qc /\
  st_transfers_per_year (ax3 fig) = 0%Qc.
Proof.
  intros H Hd. rewrite (draw_figure_no_transfers data fig H Hd).
  unfold cumulative_series. simpl. auto 10.
Qed.

Lemma empty_record_figure_witness :
  exists fig, draw_figure record_without_transfers = Ok fig /\ ax1 fig = None.
Proof.
  destruct (draw_figure record_without_transfers) as [fig|e] eqn:E;
    [|vm_compute in E; discriminate].
  exists fig. split; [reflexivity|].
  exact (proj1 (empty_record_figure record_without_transfers fig eq_refl E)).
Defined.



(** ** Size of the down-sampled series *)

Section SliceBounds.
Context {A : Type}.
Implicit Types (a : list A) (T : nat).

Lemma slice_step_one a : slice_step 1 a = a.
Proof.
  unfold slice_step. induction a as [|x a IH]; simpl; [reflexivity|]. now rewrite IH.
Qed.

Lemma sample_step_small T n : 0 < T -> n < 2 * T -> sample_step T n = 1.
Proof.
  intros HT Hn. unfold sample_step.
  assert (n / T < 2) by (apply Nat.Div0.div_lt_upper_bound; lia). lia.
Qed.

Lemma downsampled_length_bounds T a :
  0 < T ->
  let n := length (slice_step (sample_step T (length a)) a) in
  n <= length a /\ n < 2 * T /\ (T <= length a -> T <= n).
Proof.
  intros HT n. subst n.
  rewrite slice_step_length by apply sample_step_pos.
  unfold sample_step. set (L := length a).
  pose proof (Nat.div_mod_eq L T) as E.
  pose proof (Nat.mod_upper_bound L T ltac:(lia)) as B.
  set (q := L / T) in *. set (r := L mod T) in *.
  destruct (decide (q = 0)) as [Hq|Hq].
  - rewrite Hq. simpl Nat.max. replace (L + (1 - 1)) with L by lia.
    rewrite Nat.div_1_r. split; [lia|]. split; [nia|]. nia.
  - replace (Nat.max 1 q) with q by lia.
    split; [|split].
    + apply Nat.Div0.div_le_upper_bound. nia.
    + apply Nat.Div0.div_lt_upper_bound. nia.
    + intros _. apply Nat.div_le_lower_bound; [lia|]. nia.
Qed.

End SliceBounds.

(** X13.  For a target count [T > 0] the down-sampled series is never
    longer than the input and always shorter than [2T]; an input of at least
    [T] samples keeps at least [T]; an input shorter than [2T] is taken as it
    is (stride 1); the first sample is always kept. *)
Theorem downsampled_size (A : Type) (a : list A) (T : nat) :
  0 < T ->
  let sampled := slice_step (sample_step T (length a)) a in
  length sampled <= length a /\
  length sampled < 2 * T /\
  (T <= length a -> T <= length sampled) /\
  (length a < 2 * T -> sampled = a) /\
  sampled !! 0 = a !! 0.
Proof.
  intros HT sampled. subst sampled.
  destruct (downsampled_length_bounds T a HT) as (H1 & H2 & H3).
  split; [exact H1|]. split; [exact H2|]. split; [exact H3|]. split.
  - intros Hsmall. rewrite sample_step_small by assumption. apply slice_step_one.
  - rewrite slice_step_lookup by apply sample_step_pos. reflexivity.
Qed.

Lemma downsampled_size_witness :
  length (slice_step (sample_step 2 (length [10; 11; 12; 13; 14; 15; 16])) [10; 11; 12; 13; 14; 15; 16])
    < 2 * 2.
Proof.
  exact (proj1 (proj2 (downsampled_size nat [10; 11; 12; 13; 14; 15; 16] 2 (Nat.lt_0_succ 1)))).
Defined.

(** X14.  In a drawn figure the concurrency overlay is present exactly
    when there is at least one transfer, the record is in parallel mode and
    [sim_times] is present and non-empty.  An overlay has as many time values
    as concurrency values, at least one, and the maximum shown in the title
    of panel 1 is one of the plotted concurrency values and bounds all of
    them. *)
Theorem overlay_drawn_when (data : SimulationRecord) (fig : Figure) :
  draw_figure data = Ok fig ->
  ((exists p ov, ax1 fig = Some p /\ p1_overlay p = Some ov) <->
   (transfer_completions (metrics data) <> [] /\
    parallel_enabled (metadata data) = true /\
    exists times, numeric (raw_data data) sim_times = Some times /\ 0 < length times)) /\
  (forall p ov, ax1 fig = Some p -> p1_overlay p = Some ov ->
     length (ov_sim_times ov) = length (ov_total_concurrent ov) /\
     0 < length (ov_total_concurrent ov) /\
     ov_max_concurrent ov ∈ ov_total_concurrent ov /\
     forall x, x ∈ ov_total_concurrent ov -> (x <= ov_max_concurrent ov)%Qc).
Proof.
  intros Hd. apply draw_figure_ax1 in Hd. split; [split|].
  - intros (p & ov & Hp & Hov). rewrite Hp in Hd.
    apply panel1_overlay in Hd as [Hne Hco]. rewrite Hov in Hco.
    apply concurrency_overlay_some in Hco as (Hc & _).
    apply has_concurrency_true in Hc. tauto.
  - intros (Hne & Hpar & Hsim).
    assert (has_concurrency (parallel_enabled (metadata data)) (raw_data data) = true) as Hc
      by (apply has_concurrency_true; auto).
    destruct (ax1 fig) as [p|] eqn:Hp.
    + apply panel1_overlay in Hd as [_ Hco].
      destruct (p1_overlay p) as [ov|] eqn:Hov; [eauto|].
      apply concurrency_overlay_none in Hco. congruence.
    + unfold panel1 in Hd.
      destruct (transfer_completions (metrics data)); [contradiction|].
      ok_inv Hd. discriminate.
  - intros p ov Hp Hov. rewrite Hp in Hd. apply panel1_overlay in Hd as [_ Hco].
    rewrite Hov in Hco. apply concurrency_overlay_some in Hco. tauto.
Qed.

Lemma overlay_drawn_when_witness :
  exists fig p ov,
    draw_figure sample_record = Ok fig /\ ax1 fig = Some p /\ p1_overlay p = Some ov /\
    length (ov_sim_times ov) = length (ov_total_concurrent ov).
Proof.
  destruct (draw_figure sample_record) as [fig|e] eqn:E; [|vm_compute in E; discriminate].
  destruct (proj2 (proj1 (overlay_drawn_when sample_record fig E))) as (p & ov & Hp & Hov).
  { split; [discriminate|]. split; [reflexivity|]. eexists. split; [reflexivity|]. simpl. lia. }
  exists fig, p, ov. split; [reflexivity|]. split; [exact Hp|]. split; [exact Hov|].
  exact (proj1 (proj2 (overlay_drawn_when sample_record fig E) p ov Hp Hov)).
Defined.

(** X15.  In parallel mode with a non-empty [sim_times], a container
    that lacks [sim_uploads] or [sim_downloads] cannot be drawn: the renderer
    never returns a figure, and as soon as there is one transfer it raises the
    [KeyError] of the first absent of the two, from panel 1. *)
Theorem parallel_needs_concurrency_group (data : SimulationRecord) (times : list Qc) :
  parallel_enabled (metadata data) = true ->
  numeric (raw_data data) sim_times = Some times -> 0 < length times ->
  numeric (raw_data data) sim_uploads = None \/ numeric (raw_data data) sim_downloads = None ->
  let k := match numeric (raw_data data) sim_uploads with
           | None => sim_uploads
           | Some _ => sim_downloads
           end in
  (forall fig, draw_figure data <> Ok fig) /\
  (transfer_completions (metrics data) <> [] ->
   draw_figure data = Raise (KeyError (NumKey k))).
Proof.
  intros Hpar Ht Hpos Habs k.
  destruct (concurrency_group_incomplete (raw_data data) times Ht Hpos Habs) as [Hov Hst].
  fold k in Hov, Hst. split.
  - intros fig Hd. apply draw_figure_parts in Hd as (_ & _ & [st Hs]).
    rewrite Hpar, Hst in Hs. discriminate.
  - intros Hne. unfold draw_figure, panel1.
    destruct (transfer_completions (metrics data)) as [|t ts]; [contradiction|].
    rewrite plot_check_seq. simpl. rewrite Hpar, Hov. reflexivity.
Qed.

Lemma parallel_needs_concurrency_group_witness :
  draw_figure (with_raw npz_without_sim_uploads sample_record)
  = Raise (KeyError (NumKey sim_uploads)).
Proof.
  apply (parallel_needs_concurrency_group (with_raw npz_without_sim_uploads sample_record)
           [Qc_of_Z 0; Qc_of_Z 86400; Qc_of_Z 172800; Qc_of_Z 259200]);
    first [reflexivity | discriminate | (simpl; lia) | (left; reflexivity)].
Defined.

(** X16.  In single mode the renderer reads none of the concurrency
    series: replacing the container by any other one with the same five
    bandwidth entries changes neither the figure nor the exception. *)
Theorem single_mode_ignores_concurrency (data : SimulationRecord) (raw' : NpzFile) :
  parallel_enabled (metadata data) = false ->
  numeric raw' bw_times = numeric (raw_data data) bw_times ->
  numeric raw' bw_upload_used = numeric (raw_data data) bw_upload_used ->
  numeric raw' bw_upload_capacity = numeric (raw_data data) bw_upload_capacity ->
  numeric raw' bw_download_used = numeric (raw_data data) bw_download_used ->
  numeric raw' bw_download_capacity = numeric (raw_data data) bw_download_capacity ->
  draw_figure (with_raw raw' data) = draw_figure data.
Proof.
  intros Hs H1 H2 H3 H4 H5. unfold draw_figure, panel1. simpl. rewrite Hs.
  destruct (concurrency_single raw') as [-> ->].
  destruct (concurrency_single (raw_data data)) as [-> ->].
  rewrite (bandwidth_stats_ext (raw_data data) raw' H1 H2 H3 H4 H5).
  reflexivity.
Qed.

Lemma single_mode_ignores_concurrency_witness :
  draw_figure (with_raw npz_without_sim_uploads (with_mode false sample_record))
  = draw_figure (with_mode false sample_record).
Proof.
  apply (single_mode_ignores_concurrency (with_mode false sample_record)); reflexivity.
Defined.

(** X17.  The figure shows nothing of the bandwidth series: two
    containers with the same three concurrency entries give, for the same
    metadata and transfers, the same figure whenever both are drawn (the
    bandwidth utilization is computed and discarded). *)
Theorem figure_ignores_bandwidth_values (data : SimulationRecord) (raw' : NpzFile)
    (fig fig' : Figure) :
  numeric raw' sim_times = numeric (raw_data data) sim_times ->
  numeric raw' sim_uploads = numeric (raw_data data) sim_uploads ->
  numeric raw' sim_downloads = numeric (raw_data data) sim_downloads ->
  draw_figure data = Ok fig ->
  draw_figure (with_raw raw' data) = Ok fig' ->
  fig' = fig.
Proof.
  intros H1 H2 H3 Hd Hd'.
  destruct (concurrency_ext (parallel_enabled (metadata data)) (raw_data data) raw' H1 H2 H3)
    as [Eov Est].
  assert (panel1 (with_raw raw' data) = panel1 data) as Ep
    by (unfold panel1; simpl; now rewrite Eov).
  unfold draw_figure in Hd, Hd'. rewrite Ep in Hd'.
  change (avg_transfers_per_node (with_raw raw' data))
    with (avg_transfers_per_node data) in Hd'.
  change (transfers_per_year (with_raw raw' data)) with (transfers_per_year data) in Hd'.
  simpl in Hd'. rewrite Est in Hd'.
  destruct (panel1 data); simpl in Hd, Hd'; [|discriminate].
  destruct (avg_transfers_per_node data); simpl in Hd, Hd'; [|discriminate].
  destruct (transfers_per_year data); simpl in Hd, Hd'; [|discriminate].
  destruct (bandwidth_stats (raw_data data)); simpl in Hd; [|discriminate].
  destruct (bandwidth_stats raw'); simpl in Hd'; [|discriminate].
  destruct (concurrent_stats (parallel_enabled (metadata data)) (raw_data data));
    simpl in Hd, Hd'; [|discriminate].
  inversion Hd. inversion Hd'. reflexivity.
Qed.

Lemma figure_ignores_bandwidth_values_witness :
  exists fig,
    draw_figure sample_record = Ok fig /\
    draw_figure (with_raw npz_without_bw_times sample_record) = Ok fig.
Proof.
  destruct (draw_figure sample_record) as [fig|e] eqn:E; [|vm_compute in E; discriminate].
  destruct (draw_figure (with_raw npz_without_bw_times sample_record))
    as [fig'|e] eqn:E'; [|vm_compute in E'; discriminate].
  exists fig. split; [reflexivity|]. f_equal.
  exact (figure_ignores_bandwidth_values sample_record npz_without_bw_times fig fig'
           eq_refl eq_refl eq_refl E E').
Defined.

(** X18.  With a non-empty [bw_times], a container that lacks one of the
    four used/capacity series cannot be drawn, in either mode: the bandwidth
    pass raises the [KeyError] of the first absent one (in the order upload
    used, upload capacity, download used, download capacity) and the renderer
    never returns a figure, although the figure shows no bandwidth value. *)
Theorem bandwidth_group_required (data : SimulationRecord) (times : list Qc) :
  numeric (raw_data data) bw_times = Some times -> 0 < length times ->
  numeric (raw_data data) bw_upload_used = None \/
  numeric (raw_data data) bw_upload_capacity = None \/
  numeric (raw_data data) bw_download_used = None \/
  numeric (raw_data data) bw_download_capacity = None ->
  (exists k,
     k ∈ [bw_upload_used; bw_upload_capacity; bw_download_used; bw_download_capacity] /\
     numeric (raw_data data) k = None /\
     bandwidth_stats (raw_data data) = Raise (KeyError (NumKey k))) /\
  (forall fig, draw_figure data <> Ok fig) /\
  (forall fig, draw_figure (with_mode (negb (parallel_enabled (metadata data))) data) <> Ok fig).
Proof.
  intros Ht Hpos Habs.
  destruct (bandwidth_group_incomplete (raw_data data) times Ht Hpos Habs) as (k & Hk & Hnone & Hb).
  split; [eauto|]. split.
  - intros fig Hd. apply draw_figure_parts in Hd as (_ & [st Hs] & _). congruence.
  - intros fig Hd. apply draw_figure_parts in Hd as (_ & [st Hs] & _). simpl in Hs. congruence.
Qed.

Lemma bandwidth_group_required_witness :
  ~ (exists fig, draw_figure (with_raw npz_without_download_used sample_record) = Ok fig).
Proof.
  intros [fig H].
  exact (proj1 (proj2 (bandwidth_group_required
                         (with_raw npz_without_download_used sample_record)
                         [Qc_of_Z 0; Qc_of_Z 86400; Qc_of_Z 172800]
                         eq_refl (Nat.lt_0_succ 2)
                         (or_intror (or_intror (or_introl eq_refl))))) fig H).
Defined.

(** ** Ranges of the derived numbers *)

Section Ranges.
Implicit Types (data : SimulationRecord) (x y u c : Qc) (used capacity l : list Qc).

Lemma seconds_per_year_inv_pos : (0 < / seconds_per_year)%Qc.
Proof. reflexivity. Qed.

Lemma sim_time_years_pos data :
  (0 < sim_time_years data)%Qc <-> (0 < simulation_end_time (metadata data))%Qc.
Proof.
  unfold sim_time_years, Qcdiv. split; intros H.
  - apply Qcnot_le_lt. intros Hle. revert H. apply Qcle_not_lt.
    rewrite <- (Qcmult_0_l (/ seconds_per_year)).
    apply Qcmult_le_compat_r; [exact Hle|]. apply Qclt_le_weak, seconds_per_year_inv_pos.
  - rewrite <- (Qcmult_0_l (/ seconds_per_year)).
    apply Qcmult_lt_compat_r; [apply seconds_per_year_inv_pos|exact H].
Qed.

Lemma Qc_of_nat_nonneg (n : nat) : (0 <= Qc_of_Z (Z.of_nat n))%Qc.
Proof. rewrite <- Z2Qc_inj_0. apply (proj1 (Z2Qc_inj_le 0 (Z.of_nat n))). lia. Qed.

Lemma Qcdiv_nonneg x y : (0 <= x)%Qc -> (0 < y)%Qc -> (0 <= x / y)%Qc.
Proof.
  intros Hx Hy. unfold Qcdiv. apply Qcmult_nonneg_nonneg; [exact Hx|].
  now apply Qclt_le_weak, Qcinv_pos.
Qed.

Lemma ratio_in_unit u c :
  (0 <= u)%Qc -> (u <= c)%Qc -> (0 <= u / Qc_max c 1)%Qc /\ (u / Qc_max c 1 <= 1)%Qc.
Proof.
  intros H0 Hc. set (m := Qc_max c 1).
  assert (0 < m)%Qc as Hm.
  { apply Qclt_le_trans with 1%Qc; [reflexivity|apply Qc_max_floor]. }
  assert (u <= m)%Qc as Hum by (eapply Qcle_trans; [exact Hc|apply Qc_max_l]).
  pose proof (Qcinv_pos m Hm) as Hinv. unfold Qcdiv. split.
  - apply Qcmult_nonneg_nonneg; [exact H0|now apply Qclt_le_weak].
  - rewrite <- (Qcmult_inv_r m) by now apply Qc_pos_nonzero.
    apply Qcmult_le_compat_r; [exact Hum|now apply Qclt_le_weak].
Qed.

Lemma Qc_of_nat_succ (n : nat) :
  Qc_of_Z (Z.of_nat (S n)) = (1 + Qc_of_Z (Z.of_nat n))%Qc.
Proof. rewrite Nat2Z.inj_succ, <- Z.add_1_l, Z2Qc_inj_add. now rewrite Z2Qc_inj_1. Qed.

Lemma Qc_sum_in_unit l :
  (forall x, x ∈ l -> (0 <= x)%Qc /\ (x <= 1)%Qc) ->
  (0 <= Qc_sum l)%Qc /\ (Qc_sum l <= Qc_of_Z (Z.of_nat (length l)))%Qc.
Proof.
  induction l as [|x l IH]; intros H.
  - change (Qc_sum []) with 0%Qc.
    change (Qc_of_Z (Z.of_nat (length (@nil Qc)))) with (Qc_of_Z 0).
    rewrite Z2Qc_inj_0. split; apply Qcle_refl.
  - destruct IH as [I0 I1]; [intros y Hy; apply H; now apply list_elem_of_further|].
    destruct (H x (list_elem_of_here _ _)) as [X0 X1].
    change (Qc_sum (x :: l)) with (x + Qc_sum l)%Qc.
    change (length (x :: l)) with (S (length l)). rewrite Qc_of_nat_succ. split.
    + rewrite <- (Qcplus_0_l 0). now apply Qcplus_le_compat.
    + now apply Qcplus_le_compat.
Qed.

Lemma zip_with_ratio_in_unit used capacity :
  (forall i u c, used !! i = Some u -> capacity !! i = Some c -> (0 <= u)%Qc /\ (u <= c)%Qc) ->
  forall x, x ∈ zip_with (fun u c => u / Qc_max c 1)%Qc used capacity ->
            (0 <= x)%Qc /\ (x <= 1)%Qc.
Proof.
  intros H x Hx. apply list_elem_of_lookup in Hx as [i Hi].
  apply lookup_zip_with_Some in Hi as (u & c & -> & Hu & Hc).
  destruct (H i u c Hu Hc). now apply ratio_in_unit.
Qed.

Lemma mean_utilization_range used capacity :
  0 < length used -> length used = length capacity ->
  (forall i u c, used !! i = Some u -> capacity !! i = Some c -> (0 <= u)%Qc /\ (u <= c)%Qc) ->
  (0 <= mean_utilization used capacity)%Qc /\
  (mean_utilization used capacity <= Qc_of_Z 100)%Qc.
Proof.
  intros Hpos Hlen H. unfold mean_utilization.
  set (ratio := zip_with (fun u c => u / Qc_max c 1)%Qc used capacity).
  assert (length ratio = length used) as Hr
    by (subst ratio; rewrite length_zip_with; lia).
  destruct (Qc_sum_in_unit ratio (zip_with_ratio_in_unit used capacity H)) as [S0 S1].
  rewrite Hr in S1. set (n := Qc_of_Z (Z.of_nat (length used))) in *.
  assert (0 < n)%Qc as Hn.
  { subst n. rewrite <- Z2Qc_inj_0. apply (proj1 (Z2Qc_inj_lt _ _)). lia. }
  pose proof (Qcinv_pos n Hn) as Hinv.
  assert (0 <= Qc_sum ratio / n)%Qc as M0
    by (unfold Qcdiv; apply Qcmult_nonneg_nonneg; [exact S0|now apply Qclt_le_weak]).
  assert (Qc_sum ratio / n <= 1)%Qc as M1.
  { unfold Qcdiv. rewrite <- (Qcmult_inv_r n) by now apply Qc_pos_nonzero.
    apply Qcmult_le_compat_r; [exact S1|now apply Qclt_le_weak]. }
  split.
  - apply Qcmult_nonneg_nonneg; [exact M0|]. now apply Qclt_le_weak.
  - rewrite <- (Qcmult_1_l (Qc_of_Z 100)) at 2.
    apply Qcmult_le_compat_r; [exact M1|]. now apply Qclt_le_weak.
Qed.

End Ranges.

(** X19.  A non-positive [total_nodes] gives an average per node of 0
    and a non-positive [simulation_end_time] gives 0 transfers per year: the
    guards are [> 0], so negative values are treated like zero and never
    give a negative rate.  Both rates are never negative, and a rate other
    than 0 is shown only for a positive denominator and at least one
    transfer. *)
Theorem rates_guards_and_signs (data : SimulationRecord) :
  ((total_nodes (metadata data) <= 0)%Z -> avg_transfers_per_node data = Ok 0%Qc) /\
  ((simulation_end_time (metadata data) <= 0)%Qc -> transfers_per_year data = Ok 0%Qc) /\
  (forall a, avg_transfers_per_node data = Ok a ->
     (0 <= a)%Qc /\
     (a <> 0%Qc ->
      (0 < total_nodes (metadata data))%Z /\ transfer_completions (metrics data) <> [])) /\
  (forall t, transfers_per_year data = Ok t ->
     (0 <= t)%Qc /\
     (t <> 0%Qc ->
      (0 < simulation_end_time (metadata data))%Qc /\
      transfer_completions (metrics data) <> [])).
Proof.
  destruct (avg_transfers_per_node_cases data) as [Ha0 Ha1].
  destruct (transfers_per_year_cases data) as [Ht0 Ht1].
  split; [exact Ha0|]. split.
  { intros Hle. apply Ht0. rewrite sim_time_years_pos. now apply Qcle_not_lt. }
  split.
  - intros a Ha. destruct (decide (0 < total_nodes (metadata data))%Z) as [Hpos|Hneg].
    + rewrite Ha1 in Ha by exact Hpos. inversion Ha; subst a; clear Ha. split.
      * apply Qcdiv_nonneg; [apply Qc_of_nat_nonneg|].
        rewrite <- Z2Qc_inj_0. exact (proj1 (Z2Qc_inj_lt 0 _) Hpos).
      * intros Hnz. split; [exact Hpos|]. intros Hnil.
        destruct (rates_no_transfers data Hnil) as [E _].
        rewrite Ha1 in E by exact Hpos. apply Hnz. congruence.
    + rewrite Ha0 in Ha by lia. inversion Ha; subst a. split; [apply Qcle_refl|]. now intros [].
  - intros t Ht. destruct (decide (0 < sim_time_years data)%Qc) as [Hpos|Hneg].
    + rewrite Ht1 in Ht by exact Hpos. inversion Ht; subst t; clear Ht. split.
      * apply Qcdiv_nonneg; [apply Qc_of_nat_nonneg|exact Hpos].
      * intros Hnz. split; [now apply sim_time_years_pos|]. intros Hnil.
        destruct (rates_no_transfers data Hnil) as [_ E].
        rewrite Ht1 in E by exact Hpos. apply Hnz. congruence.
    + rewrite Ht0 in Ht by exact Hneg. inversion Ht; subst t.
      split; [apply Qcle_refl|]. now intros [].
Qed.

Lemma rates_guards_and_signs_witness :
  avg_transfers_per_node record_negative_denominators = Ok 0%Qc /\
  transfers_per_year record_negative_denominators = Ok 0%Qc.
Proof.
  split.
  - apply (proj1 (rates_guards_and_signs record_negative_denominators)). simpl. lia.
  - apply (proj1 (proj2 (rates_guards_and_signs record_negative_denominators))).
    vm_compute. discriminate.
Defined.

(** X20.  When every bandwidth sample of a window satisfies
    [0 <= used <= capacity], the utilization computed for the window is a
    percentage: it lies between 0 and 100.  Samples with zero capacity (and
    hence zero use) count as 0. *)
Theorem utilization_is_percentage (used capacity : list Qc) :
  0 < length used -> length used = length capacity ->
  (forall i u c, used !! i = Some u -> capacity !! i = Some c -> (0 <= u)%Qc /\ (u <= c)%Qc) ->
  exists p, utilization used capacity = Ok p /\ (0 <= p)%Qc /\ (p <= Qc_of_Z 100)%Qc.
Proof.
  intros Hpos Hlen H. exists (mean_utilization used capacity).
  split; [now apply utilization_aligned|]. now apply mean_utilization_range.
Qed.

Lemma utilization_is_percentage_witness :
  exists p,
    utilization [Qc_of_Z 0; Qc_of_Z 5; Qc_of_Z 10] [Qc_of_Z 0; Qc_of_Z 10; Qc_of_Z 10] = Ok p /\
    (0 <= p)%Qc /\ (p <= Qc_of_Z 100)%Qc.
Proof.
  apply utilization_is_percentage; [simpl; lia|reflexivity|].
  intros [|[|[|i]]] u c Hu Hc; simpl in Hu, Hc; inversion Hu; inversion Hc; subst;
    split; discriminate.
Defined.

(** ** Per-node counts: order, concatenation, bounds *)

Section CountFacts.
Implicit Types (data : SimulationRecord) (ts : list Transfer) (n : string).

Lemma occurrences_pos (who : Transfer -> string) ts n :
  n ∈ map who ts <-> 0 < occurrences who ts n.
Proof.
  induction ts as [|t ts IH]; simpl.
  - split; [intros H; inversion H|unfold occurrences; simpl; lia].
  - rewrite occurrences_cons, elem_of_cons, IH.
    destruct (decide (who t = n)) as [->|Hne].
    + split; [lia|auto].
    + split; [intros [H|H]; [congruence|lia]|intros H; right; lia].
Qed.

Lemma occurrences_le (who : Transfer -> string) ts n : occurrences who ts n <= length ts.
Proof. unfold occurrences. apply length_filter. Qed.

Lemma occurrences_app (who : Transfer -> string) ts1 ts2 n :
  occurrences who (ts1 ++ ts2) n = occurrences who ts1 n + occurrences who ts2 n.
Proof. unfold occurrences. now rewrite filter_app, length_app. Qed.

Lemma occurrences_perm (who : Transfer -> string) ts (ts' : list Transfer) n :
  ts ≡ₚ ts' -> occurrences who ts n = occurrences who ts' n.
Proof. intros H. unfold occurrences. now rewrite H. Qed.

(** The mapping holds exactly the positive counts. *)
Lemma counts_lookup data n :
  (analyze_transfers_by_node data).1 !! n =
    (if decide (occurrences uploader (transfer_completions (metrics data)) n = 0)
     then None else Some (occurrences uploader (transfer_completions (metrics data)) n)) /\
  (analyze_transfers_by_node data).2 !! n =
    (if decide (occurrences downloader (transfer_completions (metrics data)) n = 0)
     then None else Some (occurrences downloader (transfer_completions (metrics data)) n)).
Proof.
  destruct (analyze_counts data) as (Hu & Hd & Du & Dd).
  assert (forall (who : Transfer -> string) (m : gmap string nat),
             (forall k, getitem0 m k = occurrences who (transfer_completions (metrics data)) k) ->
             dom m = list_to_set (map who (transfer_completions (metrics data))) ->
             m !! n = if decide (occurrences who (transfer_completions (metrics data)) n = 0)
                      then None
                      else Some (occurrences who (transfer_completions (metrics data)) n)) as H.
  { intros who m Hg Hdom. specialize (Hg n). unfold getitem0 in Hg.
    destruct (m !! n) as [v|] eqn:E; simpl in Hg.
    - assert (n ∈ dom m) as Hin by (apply elem_of_dom; eauto).
      rewrite Hdom, elem_of_list_to_set, occurrences_pos in Hin.
      rewrite decide_False by lia. now rewrite Hg.
    - now rewrite decide_True by lia. }
  split; apply H; assumption.
Qed.

End CountFacts.

(** X21.  The per-node counts do not depend on the order of the
    transfer completions: any permutation of them gives the same two mappings
    and the same node list and bars in panel 2. *)
Theorem counts_order_independent (data : SimulationRecord) (ts' : list Transfer) :
  transfer_completions (metrics data) ≡ₚ ts' ->
  analyze_transfers_by_node (with_transfers ts' data) = analyze_transfers_by_node data /\
  transfers_per_node (with_transfers ts' data) = transfers_per_node data.
Proof.
  intros Hperm.
  assert (analyze_transfers_by_node (with_transfers ts' data)
          = analyze_transfers_by_node data) as E.
  { destruct (analyze_transfers_by_node (with_transfers ts' data)) as [u' d'] eqn:E'.
    destruct (analyze_transfers_by_node data) as [u d] eqn:E0.
    f_equal; apply map_eq; intros n.
    - pose proof (proj1 (counts_lookup (with_transfers ts' data) n)) as H'.
      pose proof (proj1 (counts_lookup data n)) as H.
      rewrite E' in H'. rewrite E0 in H. simpl in H, H'.
      now rewrite H, H', (occurrences_perm uploader _ ts' n Hperm).
    - pose proof (proj2 (counts_lookup (with_transfers ts' data) n)) as H'.
      pose proof (proj2 (counts_lookup data n)) as H.
      rewrite E' in H'. rewrite E0 in H. simpl in H, H'.
      now rewrite H, H', (occurrences_perm downloader _ ts' n Hperm). }
  split; [exact E|]. unfold transfers_per_node. now rewrite E.
Qed.

Lemma counts_order_independent_witness :
  transfers_per_node (with_transfers (reverse sample_transfers) sample_record)
  = transfers_per_node sample_record.
Proof.
  apply (counts_order_independent sample_record (reverse sample_transfers)).
  symmetry. apply reverse_Permutation.
Defined.

(** X22.  Counting is additive over concatenation: for every node the
    upload (download) count of a record whose completions are [ts1 ++ ts2] is
    the sum of its counts over [ts1] and over [ts2], and the pass over
    [ts1 ++ ts2] is the pass over [ts2] continued from the mappings of
    [ts1]. *)
Theorem counts_additive (data : SimulationRecord) (ts1 ts2 : list Transfer) :
  transfer_completions (metrics data) = ts1 ++ ts2 ->
  (forall n,
     getitem0 (analyze_transfers_by_node data).1 n =
       getitem0 (analyze_transfers_by_node (with_transfers ts1 data)).1 n +
       getitem0 (analyze_transfers_by_node (with_transfers ts2 data)).1 n) /\
  (forall n,
     getitem0 (analyze_transfers_by_node data).2 n =
       getitem0 (analyze_transfers_by_node (with_transfers ts1 data)).2 n +
       getitem0 (analyze_transfers_by_node (with_transfers ts2 data)).2 n) /\
  analyze_transfers_by_node data =
    fold_left count_transfer ts2 (analyze_transfers_by_node (with_transfers ts1 data)).
Proof.
  intros H.
  destruct (analyze_counts data) as (Hu & Hd & _ & _).
  destruct (analyze_counts (with_transfers ts1 data)) as (Hu1 & Hd1 & _ & _).
  destruct (analyze_counts (with_transfers ts2 data)) as (Hu2 & Hd2 & _ & _).
  simpl in Hu1, Hd1, Hu2, Hd2. rewrite H in Hu, Hd.
  split; [|split].
  - intros n. now rewrite Hu, Hu1, Hu2, occurrences_app.
  - intros n. now rewrite Hd, Hd1, Hd2, occurrences_app.
  - unfold analyze_transfers_by_node. rewrite H. simpl. apply fold_left_app.
Qed.

Lemma counts_additive_witness :
  getitem0 (analyze_transfers_by_node sample_record).1 "A" =
    getitem0 (analyze_transfers_by_node (with_transfers (take 1 sample_transfers) sample_record)).1 "A" +
    getitem0 (analyze_transfers_by_node (with_transfers (drop 1 sample_transfers) sample_record)).1 "A".
Proof.
  exact (proj1 (counts_additive sample_record (take 1 sample_transfers)
                  (drop 1 sample_transfers) eq_refl) "A").
Defined.

(** X23.  In panel 2 every listed node has at least one transfer (its
    upload and download bars are not both 0), no bar is higher than the
    number of transfers, no node is listed twice, there are at most two nodes
    per transfer, and the list is empty exactly when there is no transfer. *)
Theorem panel2_bars (data : SimulationRecord) :
  let ts := transfer_completions (metrics data) in
  let p := transfers_per_node data in
  (forall i n, nodes p !! i = Some n ->
     exists u d, uploads p !! i = Some u /\ downloads p !! i = Some d /\
                 1 <= u + d /\ u <= length ts /\ d <= length ts) /\
  NoDup (nodes p) /\
  length (nodes p) <= 2 * length ts /\
  (nodes p = [] <-> ts = []).
Proof.
  intros ts p.
  destruct (per_node_counts_spec data) as (Hs & Hin & Hup & Hdown & _).
  fold ts p in Hs, Hin, Hup, Hdown.
  assert (NoDup (nodes p)) as Hnd.
  { subst p. unfold transfers_per_node. destruct (analyze_transfers_by_node data).
    apply sorted_set_NoDup. }
  split; [|split; [exact Hnd|split]].
  - intros i n Hn. exists (occurrences uploader ts n), (occurrences downloader ts n).
    rewrite Hup, Hdown, !list_lookup_fmap, Hn. simpl.
    split; [reflexivity|]. split; [reflexivity|].
    split; [|split; apply occurrences_le].
    assert (n ∈ nodes p) as Hmem by (apply list_elem_of_lookup; eauto).
    apply Hin in Hmem as (t & Ht & [Hu|Hd]).
    + assert (0 < occurrences uploader ts n); [|lia].
      apply occurrences_pos, list_elem_of_fmap. eauto.
    + assert (0 < occurrences downloader ts n); [|lia].
      apply occurrences_pos, list_elem_of_fmap. eauto.
  - assert (nodes p ⊆+ map uploader ts ++ map downloader ts) as Hsub.
    { apply NoDup_submseteq; [exact Hnd|]. intros n Hn.
      apply Hin in Hn as (t & Ht & [<-|<-]); apply elem_of_app; [left|right];
        apply list_elem_of_fmap; eauto. }
    apply submseteq_length in Hsub. rewrite length_app, !length_map in Hsub. lia.
  - split.
    + intros Hnil. destruct ts as [|t ts'] eqn:E; [reflexivity|].
      assert (uploader t ∈ nodes p) as Hmem.
      { apply Hin. exists t. split; [apply list_elem_of_here|auto]. }
      rewrite Hnil in Hmem. inversion Hmem.
    + intros Hnil. subst p. now rewrite (transfers_per_node_empty data Hnil).
Qed.

Lemma panel2_bars_witness :
  exists u d,
    uploads (transfers_per_node sample_record) !! 2 = Some u /\
    downloads (transfers_per_node sample_record) !! 2 = Some d /\ 1 <= u + d.
Proof.
  destruct (proj1 (panel2_bars sample_record) 2 "C") as (u & d & Hu & Hd & H & _).
  { vm_compute. reflexivity. }
  exists u, d. auto.
Defined.

(** ** Consistency of the figure, repeated runs *)

Section FigureFields.
Implicit Types (data : SimulationRecord) (fig : Figure).

Lemma draw_figure_fields data fig :
  draw_figure data = Ok fig ->
  panel1 data = Ok (ax1 fig) /\
  ax2 fig = transfers_per_node data /\
  st_total_transfers (ax3 fig) = length (transfer_completions (metrics data)) /\
  suptitle_years fig = sim_time_years data /\
  st_sim_time_years (ax3 fig) = sim_time_years data.
Proof. unfold draw_figure. intros H. ok_inv H. inversion H; subst fig. simpl. auto. Qed.

Lemma panel1_totals data p :
  panel1 data = Ok (Some p) ->
  p1_title_total p = length (transfer_completions (metrics data)) /\
  p1_transfer_cumulative p = seq 1 (length (transfer_completions (metrics data))) /\
  length (p1_transfer_times p) = length (transfer_completions (metrics data)).
Proof.
  unfold panel1. destruct (transfer_completions (metrics data)) as [|t ts]; [discriminate|].
  intros H. ok_inv H. inversion H; subst p. simpl. now rewrite !length_map.
Qed.

Lemma last_seq_from_one (n : nat) : 0 < n -> last (seq 1 n) = Some n.
Proof.
  destruct n as [|n]; [lia|]. intros _. rewrite seq_S. rewrite last_snoc. reflexivity.
Qed.

End FigureFields.

(** X24.  The parts of a drawn figure agree on the number of transfers
    [N]: the total in the statistics panel, the total in the title of panel
    1, the number of points and the last y-value of the cumulative line, the
    sum of the upload bars and the sum of the download bars are all [N]; the
    years in the super-title are the years in the statistics panel. *)
Theorem figure_consistent (data : SimulationRecord) (fig : Figure) :
  draw_figure data = Ok fig ->
  let N := length (transfer_completions (metrics data)) in
  st_total_transfers (ax3 fig) = N /\
  sum_list (uploads (ax2 fig)) = N /\
  sum_list (downloads (ax2 fig)) = N /\
  length (cumulative_series fig) = N /\
  (forall p, ax1 fig = Some p ->
     p1_title_total p = N /\ last (p1_transfer_cumulative p) = Some N /\
     length (p1_transfer_times p) = N) /\
  suptitle_years fig = st_sim_time_years (ax3 fig).
Proof.
  intros Hd N.
  destruct (draw_figure_fields data fig Hd) as (Hp & H2 & H3 & Hy & Hy').
  destruct (per_node_counts_spec data) as (_ & Hin & Hup & Hdown & _).
  assert (NoDup (nodes (transfers_per_node data))) as Hnd.
  { unfold transfers_per_node. destruct (analyze_transfers_by_node data).
    apply sorted_set_NoDup. }
  split; [exact H3|]. rewrite H2, Hup, Hdown.
  split; [apply sum_occurrences; [exact Hnd|]; intros t Ht; apply Hin; eauto|].
  split; [apply sum_occurrences; [exact Hnd|]; intros t Ht; apply Hin; eauto|].
  split.
  { rewrite (cumulative_series_drawn data fig Hd), length_zip_with, length_map, length_seq.
    fold N. lia. }
  split; [|congruence].
  intros p Hax. rewrite Hax in Hp. destruct (panel1_totals data p Hp) as (T1 & T2 & T3).
  fold N in T1, T2, T3. split; [exact T1|]. split; [|exact T3].
  rewrite T2. apply last_seq_from_one.
  unfold panel1 in Hp. subst N. destruct (transfer_completions (metrics data));
    [discriminate|simpl; lia].
Qed.

Lemma figure_consistent_witness :
  exists fig,
    draw_figure sample_record = Ok fig /\
    st_total_transfers (ax3 fig) = 3 /\ sum_list (uploads (ax2 fig)) = 3.
Proof.
  destruct (draw_figure sample_record) as [fig|e] eqn:E; [|vm_compute in E; discriminate].
  exists fig. split; [reflexivity|].
  destruct (figure_consistent sample_record fig E) as (H1 & H2 & _). auto.
Defined.
